(** * Build metadata and artifact bookkeeping of coreos-assembler

    A shallow embedding of [src/cmdlib.py] ([write_json], [sha256sum_file],
    [rm_allow_noent], [rfc3339_time]) and of the class [_Build] of
    [src/cosalib/build.py], followed by the
    properties of the build handle: metadata merge / flush / reload, atomic
    persistence, construction-time validation, artifact records, build
    coordination, key lookups, image naming and teardown.

    Python objects are modelled as follows.
    - JSON documents and the Python values that flow through the handle are
      values of [json]; Python's [None] is [JNull], a [dict] is an insertion
      ordered association list.
    - The file system maps path names to nodes and inode numbers to files, so
      that an open file object keeps writing to its inode after a rename.
    - Methods run in a state-and-exception monad over the pair of the handle
      (the attributes of [self]) and the world (file system, environment
      variables, log records).  A raised exception keeps the state reached so
      far, as in Python. *)

From Stdlib Require Import ZArith String Ascii List Lia Strings.Byte DecimalString DecimalZ.
From stdpp Require Import gmap strings list.
From Equations Require Import Equations.
Import ListNotations.

Set Warnings "-register-all".

Local Open Scope string_scope.
Local Open Scope Z_scope.

(** ** Python values *)

Inductive json : Type :=
| JNull
| JBool (b : bool)
| JNum (n : Z)
| JStr (s : string)
| JArr (items : list json)
| JObj (fields : list (string * json)).

Definition bytes := list byte.

(** [x is None] *)
Definition is_None (v : json) : bool :=
  match v with JNull => true | _ => false end.

(** ** Dictionaries: insertion-ordered association lists *)
Module Dict.

Fixpoint get {V : Type} (k : string) (d : list (string * V)) : option V :=
  match d with
  | [] => None
  | (k', v) :: d' => if String.eqb k k' then Some v else get k d'
  end.

(** [d[k] = v]: an existing key keeps its position, a new key goes last. *)
Fixpoint set {V : Type} (k : string) (v : V) (d : list (string * V))
  : list (string * V) :=
  match d with
  | [] => [(k, v)]
  | (k', v') :: d' =>
      if String.eqb k k' then (k', v) :: d' else (k', v') :: set k v d'
  end.

(** [d.update(u)]: the items of [u] are assigned in order. *)
Fixpoint update {V : Type} (d u : list (string * V)) : list (string * V) :=
  match u with
  | [] => d
  | (k, v) :: u' => update (set k v d) u'
  end.

Definition keys {V : Type} (d : list (string * V)) : list string := map fst d.

End Dict.

(** ** Exceptions and results *)

Inductive exn : Type :=
| BuildError (msg : string)
| TypeError (msg : string)
| KeyError (key : string)
| AttributeError (msg : string)
| NotImplementedError (msg : string)
| FileNotFoundError (path : string)
| FileExistsError (msg : string)
| IsADirectoryError (path : string)
| NotADirectoryError (path : string)
| OSError (msg : string)
| JSONDecodeError
| ValueError (msg : string)
| RecursionError
| Exception_ (msg : string) (cause : exn).

Inductive result (A : Type) : Type :=
| Ok (a : A)
| Raise (e : exn).
Arguments Ok {A} a.
Arguments Raise {A} e.

Definition is_Ok {A} (r : result A) : bool :=
  match r with Ok _ => true | Raise _ => false end.

(** ** Paths: [os.path.dirname] and [os.path.join] of posixpath *)
Module Path.

Definition slash : ascii := "/"%char.

(** The characters of [s] split at the last slash as (head with that
    slash, tail), over the reversed string. *)
Fixpoint split_last_slash (rev_s : list ascii) (tail : list ascii)
  : option (list ascii * list ascii) :=
  match rev_s with
  | [] => None
  | c :: r =>
      if Ascii.eqb c slash then Some (rev (c :: r), tail)
      else split_last_slash r (c :: tail)
  end.

Fixpoint all_slashes (l : list ascii) : bool :=
  match l with
  | [] => true
  | c :: r => Ascii.eqb c slash && all_slashes r
  end.

(** [head.rstrip('/')] over the reversed head *)
Fixpoint rstrip_slashes_rev (rev_h : list ascii) : list ascii :=
  match rev_h with
  | [] => []
  | c :: r => if Ascii.eqb c slash then rstrip_slashes_rev r else rev (c :: r)
  end.

(** [i = p.rfind('/') + 1; head = p[:i];
    if head and head != '/'*len(head): head = head.rstrip('/')] *)
Definition dirname (p : string) : string :=
  match split_last_slash (rev (list_ascii_of_string p)) [] with
  | None => ""
  | Some (head, _) =>
      if all_slashes head then string_of_list_ascii head
      else string_of_list_ascii (rstrip_slashes_rev (rev head))
  end.

Definition starts_with_slash (s : string) : bool :=
  match s with
  | String c _ => Ascii.eqb c slash
  | EmptyString => false
  end.

Definition ends_with_slash (s : string) : bool :=
  match rev (list_ascii_of_string s) with
  | c :: _ => Ascii.eqb c slash
  | [] => false
  end.

(** [os.path.join(a, b)] for two components *)
Definition join (a b : string) : string :=
  if starts_with_slash b then b
  else if String.eqb a "" || ends_with_slash a then a ++ b
  else a ++ "/" ++ b.

End Path.

(** ** The file system *)

Record file := { f_data : bytes; f_mode : Z }.

Inductive node :=
| NFile (ino : nat)
| NDir.

(** [fs_names] is the directory tree flattened to full path names,
    [fs_inodes] the file contents, [fs_next] the next unused inode number. *)
Record fs := {
  fs_names : gmap string node;
  fs_inodes : gmap nat file;
  fs_next : nat
}.

Module FS.

Definition lookup (p : string) (s : fs) : option node := fs_names s !! p.

(** [os.path.exists] *)
Definition exists_ (p : string) (s : fs) : bool :=
  match lookup p s with Some _ => true | None => false end.

(** The current and the root directory always exist. *)
Definition is_dir (p : string) (s : fs) : bool :=
  if String.eqb p "" || String.eqb p "/" then true
  else match lookup p s with Some NDir => true | _ => false end.

(** The file behind a path, as [open(p, 'rb')] finds it. *)
Definition file_at (p : string) (s : fs) : result file :=
  match lookup p s with
  | None => Raise (FileNotFoundError p)
  | Some NDir => Raise (IsADirectoryError p)
  | Some (NFile i) =>
      match fs_inodes s !! i with
      | Some f => Ok f
      | None => Raise (OSError "stale file handle")
      end
  end.

Definition read (p : string) (s : fs) : result bytes :=
  match file_at p s with
  | Ok f => Ok (f_data f)
  | Raise e => Raise e
  end.

(** [os.open(p, O_RDWR | O_CREAT | O_EXCL, mode)] *)
Definition create_excl (p : string) (mode : Z) (s : fs) : result (nat * fs) :=
  match lookup p s with
  | Some _ => Raise (FileExistsError p)
  | None =>
      if is_dir (Path.dirname p) s then
        Ok (fs_next s,
            {| fs_names := <[p := NFile (fs_next s)]> (fs_names s);
               fs_inodes := <[fs_next s := {| f_data := []; f_mode := mode |}]>
                              (fs_inodes s);
               fs_next := S (fs_next s) |})
      else Raise (FileNotFoundError p)
  end.

(** [os.mkdir(p, mode)] *)
Definition mkdir (p : string) (s : fs) : result fs :=
  match lookup p s with
  | Some _ => Raise (FileExistsError p)
  | None =>
      if is_dir (Path.dirname p) s then
        Ok {| fs_names := <[p := NDir]> (fs_names s);
              fs_inodes := fs_inodes s;
              fs_next := fs_next s |}
      else Raise (FileNotFoundError p)
  end.

(** [os.write(fd, data)] on a descriptor opened for appending at the end *)
Definition append (i : nat) (data : bytes) (s : fs) : fs :=
  {| fs_names := fs_names s;
     fs_inodes := alter (fun f => {| f_data := (f_data f ++ data)%list;
                                     f_mode := f_mode f |}) i (fs_inodes s);
     fs_next := fs_next s |}.

(** [os.fchmod(fd, mode)] *)
Definition fchmod (i : nat) (mode : Z) (s : fs) : fs :=
  {| fs_names := fs_names s;
     fs_inodes := alter (fun f => {| f_data := f_data f; f_mode := mode |})
                        i (fs_inodes s);
     fs_next := fs_next s |}.

(** [os.rename(src, dst)] for a regular file [src] *)
Definition rename (src dst : string) (s : fs) : result fs :=
  match lookup src s with
  | None => Raise (FileNotFoundError src)
  | Some n =>
      match lookup dst s with
      | Some NDir => Raise (IsADirectoryError dst)
      | _ =>
          Ok {| fs_names := <[dst := n]> (delete src (fs_names s));
                fs_inodes := fs_inodes s;
                fs_next := fs_next s |}
      end
  end.

(** [p] lies strictly below the directory [d]. *)
Definition below (d p : string) : bool := String.prefix (d ++ "/") p.

(** [shutil.rmtree(d)] *)
Definition rmtree (d : string) (s : fs) : result fs :=
  match lookup d s with
  | None => Raise (FileNotFoundError d)
  | Some (NFile _) => Raise (NotADirectoryError d)
  | Some NDir =>
      Ok {| fs_names :=
              filter (fun kv => negb (String.eqb (fst kv) d || below d (fst kv)) = true)
                     (fs_names s);
            fs_inodes := fs_inodes s;
            fs_next := fs_next s |}
  end.

(** [os.stat(p).st_size]; a directory reports the size [dsz] the host
    file system gives its directories. *)
Definition st_size (dsz : Z) (p : string) (s : fs) : result Z :=
  match lookup p s with
  | None => Raise (FileNotFoundError p)
  | Some NDir => Ok dsz
  | Some (NFile i) =>
      match fs_inodes s !! i with
      | Some f => Ok (Z.of_nat (length (f_data f)))
      | None => Raise (OSError "stale file handle")
      end
  end.

End FS.

(** ** Log records and the world *)

Inductive level := DEBUG | INFO | WARNING.

(** [Log lvl msg args] is one call of the [logging] module ([msg] is the
    format string, or the object itself when the code logs an object);
    [Produce] marks one entry into the artifact-production hook. *)
Inductive event :=
| Log (lvl : level) (msg : json) (args : list json)
| Produce.

(** [w_hist] records the file system after every system call that changed
    it, most recent first: these are the states another process could see. *)
Record world := {
  w_fs : fs;
  w_hist : list fs;
  w_bufs : gmap nat bytes;
  w_environ : gmap string string;
  w_rand : nat;
  w_log : list event
}.

Definition set_fs (s : fs) (w : world) : world :=
  {| w_fs := s; w_hist := s :: w_hist w; w_bufs := w_bufs w;
     w_environ := w_environ w;
     w_rand := w_rand w; w_log := w_log w |}.

Definition next_rand (w : world) : world :=
  {| w_fs := w_fs w; w_hist := w_hist w; w_bufs := w_bufs w;
     w_environ := w_environ w;
     w_rand := S (w_rand w); w_log := w_log w |}.

Definition set_environ (k v : string) (w : world) : world :=
  {| w_fs := w_fs w; w_hist := w_hist w; w_bufs := w_bufs w;
     w_environ := <[k := v]> (w_environ w);
     w_rand := w_rand w; w_log := w_log w |}.

Definition emit (e : event) (w : world) : world :=
  {| w_fs := w_fs w; w_hist := w_hist w; w_bufs := w_bufs w;
     w_environ := w_environ w;
     w_rand := w_rand w; w_log := (w_log w ++ [e])%list |}.

Definition set_buf (fd : nat) (b : option bytes) (w : world) : world :=
  {| w_fs := w_fs w; w_hist := w_hist w;
     w_bufs := match b with
               | Some data => <[fd := data]> (w_bufs w)
               | None => delete fd (w_bufs w)
               end;
     w_environ := w_environ w; w_rand := w_rand w; w_log := w_log w |}.

(** ** The state and exception monad *)

Definition SE (S A : Type) : Type := S -> result A * S.

Definition ret {S A} (a : A) : SE S A := fun s => (Ok a, s).
Definition raise {S A} (e : exn) : SE S A := fun s => (Raise e, s).
Definition bind {S A B} (m : SE S A) (k : A -> SE S B) : SE S B :=
  fun s => match m s with
           | (Ok a, s') => k a s'
           | (Raise e, s') => (Raise e, s')
           end.
Definition modify {S} (f : S -> S) : SE S unit := fun s => (Ok tt, f s).
Definition gets {S A} (f : S -> A) : SE S A := fun s => (Ok (f s), s).
Definition of_result {S A} (r : result A) : SE S A := fun s => (r, s).

Declare Scope se_scope.
Delimit Scope se_scope with se.
Notation "'let*' x ':=' m 'in' k" := (bind m (fun x => k))
  (at level 10, x name, m at level 100, k at level 200, only parsing) : se_scope.
Local Open Scope se_scope.

(** ** The host: the Python runtime and the collaborators outside the core *)

(** The build index of [cosalib.builds], queried through three methods. *)
Record Builds := {
  has : string -> bool;
  get_latest : string;
  get_build_dir : string -> string -> string
}.

Class Host := {
  (** [json.dump(data, f, indent=4)]: the text written, encoded *)
  json_dumps : json -> bytes;
  (** [json.load]; [None] stands for a [JSONDecodeError] *)
  json_loads : bytes -> option json;
  (** [get_basearch()] *)
  BASEARCH : string;
  (** [Builds(workdir)], reading the index from the file system *)
  Builds_open : string -> fs -> result Builds;
  (** the candidate names [tempfile] draws, in order *)
  random_name : nat -> string;
  gettempdir : string;
  getcwd : string;
  (** [st_size] of a directory *)
  dir_st_size : Z;
  (** [repr] of a value, used where the code formats a list or a dict *)
  py_repr : json -> string
}.

(** ** Conversions of the Python runtime *)

(** [str(n)], ['{}'.format(n)] for an integer *)
Definition str_of_Z (n : Z) : string := NilZero.string_of_int (Z.to_int n).

(** [int(s)] for a string of decimal digits with an optional sign *)
Definition int_of_str (s : string) : result Z :=
  match NilZero.int_of_string s with
  | Some i => Ok (Z.of_int i)
  | None => Raise (ValueError "invalid literal for int() with base 10")
  end.

(** [str(v)], which is also what an f-string and [%s] insert *)
Definition py_str `{Host} (v : json) : string :=
  match v with
  | JNull => "None"
  | JBool true => "True"
  | JBool false => "False"
  | JNum n => str_of_Z n
  | JStr s => s
  | JArr _ | JObj _ => py_repr v
  end.

(** [s.upper()] on the ASCII letters *)
Definition upper_ascii (c : ascii) : ascii :=
  let n := nat_of_ascii c in
  if (97 <=? n)%nat && (n <=? 122)%nat then ascii_of_nat (n - 32) else c.

Fixpoint upper (s : string) : string :=
  match s with
  | EmptyString => EmptyString
  | String c r => String (upper_ascii c) (upper r)
  end.

(** ** tempfile *)
Module tempfile.
Section tempfile.
Context `{Host}.

Definition TMP_MAX : nat := Z.to_nat 10000.

(** 0o600 *)
Definition S_IRUSR_IWUSR : Z := 6 * 64.

(** The loop of [_mkstemp_inner]: draw a name, create the file
    exclusively with mode 0o600, try the next name when it exists. *)
Fixpoint mkstemp_loop (tries : nat) (dir pre : string)
  : SE world (nat * string) :=
  fun w =>
    match tries with
    | O => (Raise (FileExistsError "No usable temporary file name found"), w)
    | S tries' =>
        let name := random_name (w_rand w) in
        let w1 := next_rand w in
        let file := Path.join dir (pre ++ name) in
        match FS.create_excl file S_IRUSR_IWUSR (w_fs w1) with
        | Ok (fd, s') => (Ok (fd, file), set_fs s' w1)
        | Raise (FileExistsError _) => mkstemp_loop tries' dir pre w1
        | Raise e => (Raise e, w1)
        end
    end.

(** The loop of [mkdtemp]. *)
Fixpoint mkdtemp_loop (tries : nat) (dir pre : string) : SE world string :=
  fun w =>
    match tries with
    | O => (Raise (FileExistsError "No usable temporary directory name found"), w)
    | S tries' =>
        let name := random_name (w_rand w) in
        let w1 := next_rand w in
        let file := Path.join dir (pre ++ name) in
        match FS.mkdir file (w_fs w1) with
        | Ok s' => (Ok file, set_fs s' w1)
        | Raise (FileExistsError _) => mkdtemp_loop tries' dir pre w1
        | Raise e => (Raise e, w1)
        end
    end.

(** [tempfile.mkdtemp(prefix=pre)] *)
Definition mkdtemp (pre : string) : SE world string :=
  mkdtemp_loop TMP_MAX gettempdir pre.

(** A text file object open for writing: its name and its descriptor.
    The bytes written and not yet passed to the operating system are
    the entry of the descriptor in [w_bufs]. *)
Record textio := { name : string; fileno : nat }.

(** [tempfile.NamedTemporaryFile(mode='w', dir=dir, delete=False)] *)
Definition NamedTemporaryFile (dir : string) : SE world textio :=
  let* r := mkstemp_loop TMP_MAX dir "tmp" in
  let* _ := modify (set_buf (fst r) (Some [])) in
  ret {| name := snd r; fileno := fst r |}.

Definition DEFAULT_BUFFER_SIZE : Z := 8192.

Definition pending (f : textio) (w : world) : bytes :=
  match w_bufs w !! fileno f with Some b => b | None => [] end.

(** [f.flush()]: hand the pending bytes to the operating system. *)
Definition flush (f : textio) : SE world unit :=
  fun w =>
    match pending f w with
    | [] => (Ok tt, w)
    | b => (Ok tt, set_buf (fileno f) (Some [])
                     (set_fs (FS.append (fileno f) b (w_fs w)) w))
    end.

(** [f.write(data)]: the bytes stay in the buffer of the file object
    until more than [DEFAULT_BUFFER_SIZE] of them are pending.  CPython
    keeps two buffers of this size, one in the text layer and one in the
    binary layer below it; the model keeps one, which gives the same
    content on disk for every text shorter than the buffer. *)
Definition write (f : textio) (data : bytes) : SE world unit :=
  fun w =>
    let b := (pending f w ++ data)%list in
    let w1 := set_buf (fileno f) (Some b) w in
    if Z.of_nat (length b) <=? DEFAULT_BUFFER_SIZE then (Ok tt, w1)
    else flush f w1.

(** [f.close()], also run when the last reference to [f] goes away. *)
Definition close (f : textio) : SE world unit :=
  let* _ := flush f in modify (set_buf (fileno f) None).

End tempfile.
End tempfile.

(** ** hashlib: SHA-256 (FIPS 180-4) over 32-bit words held in [Z] *)
Module hashlib.

Definition mask32 : Z := 0xffffffff.
Definition add32 (x y : Z) : Z := Z.land (x + y) mask32.
Definition rotr (n x : Z) : Z :=
  Z.land (Z.lor (Z.shiftr x n) (Z.shiftl x (32 - n))) mask32.
Definition shr (n x : Z) : Z := Z.shiftr x n.
Definition xor3 (x y z : Z) : Z := Z.lxor (Z.lxor x y) z.

Definition Ch (x y z : Z) : Z :=
  Z.lxor (Z.land x y) (Z.land (Z.lxor x mask32) z).
Definition Maj (x y z : Z) : Z :=
  xor3 (Z.land x y) (Z.land x z) (Z.land y z).
Definition Sigma0 (x : Z) : Z := xor3 (rotr 2 x) (rotr 13 x) (rotr 22 x).
Definition Sigma1 (x : Z) : Z := xor3 (rotr 6 x) (rotr 11 x) (rotr 25 x).
Definition sigma0 (x : Z) : Z := xor3 (rotr 7 x) (rotr 18 x) (shr 3 x).
Definition sigma1 (x : Z) : Z := xor3 (rotr 17 x) (rotr 19 x) (shr 10 x).

(** The first [n] primes, by trial division. *)
Fixpoint primes_from (fuel : nat) (n : nat) (c : Z) (found : list Z) : list Z :=
  match fuel, n with
  | O, _ | _, O => rev found
  | S fuel', S n' =>
      if forallb (fun q => negb (c mod q =? 0)) found
      then primes_from fuel' n' (c + 1) (c :: found)
      else primes_from fuel' n (c + 1) found
  end.

Definition primes (n : nat) : list Z := primes_from 400 n 2 [].

(** The integer cube root below 2^[bits], found bit by bit. *)
Fixpoint icbrt_bits (bits : nat) (x r : Z) : Z :=
  match bits with
  | O => r
  | S b =>
      let r' := r + 2 ^ Z.of_nat b in
      icbrt_bits b x (if r' * r' * r' <=? x then r' else r)
  end.

(** The first 32 bits of the fractional part of the cube root of [p]. *)
Definition frac_cbrt (p : Z) : Z := Z.land (icbrt_bits 36 (p * 2 ^ 96) 0) mask32.

(** The first 32 bits of the fractional part of the square root of [p]. *)
Definition frac_sqrt (p : Z) : Z := Z.land (Z.sqrt (p * 2 ^ 64)) mask32.

(** The round constants: from the cube roots of the first 64 primes. *)
Definition K : list Z := Eval vm_compute in map frac_cbrt (primes 64).

(** The initial hash value: from the square roots of the first 8 primes. *)
Definition H0_words : list Z := Eval vm_compute in map frac_sqrt (primes 8).

Record regs := { ra : Z; rb : Z; rc : Z; rd : Z; re : Z; rf : Z; rg : Z; rh : Z }.

Definition H0 : regs :=
  let w i := nth i H0_words 0 in
  {| ra := w 0%nat; rb := w 1%nat; rc := w 2%nat; rd := w 3%nat;
     re := w 4%nat; rf := w 5%nat; rg := w 6%nat; rh := w 7%nat |}.

(** The message schedule, newest word first: each step adds W[t] from
    W[t-2], W[t-7], W[t-15] and W[t-16]. *)
Fixpoint extend (steps : nat) (w : list Z) : list Z :=
  match steps with
  | O => w
  | S steps' =>
      let at_ i := nth i w 0 in
      extend steps'
        (add32 (add32 (add32 (sigma1 (at_ 1%nat)) (at_ 6%nat)) (sigma0 (at_ 14%nat)))
               (at_ 15%nat) :: w)
  end.

Definition schedule (block : list Z) : list Z := rev (extend 48 (rev block)).

Definition round (r : regs) (kw : Z * Z) : regs :=
  let t1 := add32 (add32 (add32 (add32 (rh r) (Sigma1 (re r)))
                                (Ch (re r) (rf r) (rg r))) (fst kw)) (snd kw) in
  let t2 := add32 (Sigma0 (ra r)) (Maj (ra r) (rb r) (rc r)) in
  {| ra := add32 t1 t2; rb := ra r; rc := rb r; rd := rc r;
     re := add32 (rd r) t1; rf := re r; rg := rf r; rh := rg r |}.

Definition compress (h : regs) (block : list Z) : regs :=
  let r := fold_left round (combine K (schedule block)) h in
  {| ra := add32 (ra h) (ra r); rb := add32 (rb h) (rb r);
     rc := add32 (rc h) (rc r); rd := add32 (rd h) (rd r);
     re := add32 (re h) (re r); rf := add32 (rf h) (rf r);
     rg := add32 (rg h) (rg r); rh := add32 (rh h) (rh r) |}.

Definition Z_of_byte (b : byte) : Z := Z.of_N (Byte.to_N b).

(** Big-endian 32-bit words of a byte string whose length is a
    multiple of four. *)
Fixpoint words (bs : list Z) : list Z :=
  match bs with
  | b0 :: b1 :: b2 :: b3 :: rest =>
      (Z.shiftl b0 24 + Z.shiftl b1 16 + Z.shiftl b2 8 + b3) :: words rest
  | _ => []
  end.

Fixpoint be_bytes (n : nat) (x : Z) : list Z :=
  match n with
  | O => []
  | S n' => (be_bytes n' (Z.shiftr x 8) ++ [Z.land x 255])%list
  end.

(** The message, the bit 1, zeros up to 56 modulo 64, the bit length. *)
Definition pad (msg : list Z) : list Z :=
  let l := Z.of_nat (length msg) in
  (msg ++ [128] ++ repeat 0 (Z.to_nat ((55 - l) mod 64)) ++ be_bytes 8 (8 * l))%list.

Fixpoint blocks (n : nat) (ws : list Z) (h : regs) : regs :=
  match n with
  | O => h
  | S n' => blocks n' (skipn 16 ws) (compress h (firstn 16 ws))
  end.

Definition digest (msg : bytes) : regs :=
  let ws := words (pad (map Z_of_byte msg)) in
  blocks (length ws / 16) ws H0.

Definition hexdigits : list ascii :=
  list_ascii_of_string "0123456789abcdef".

Definition hexchar (x : Z) : ascii :=
  nth (Z.to_nat (Z.land x 15)) hexdigits "f"%char.

Definition hex8 (x : Z) (tail : string) : string :=
  String (hexchar (Z.shiftr x 28)) (String (hexchar (Z.shiftr x 24))
  (String (hexchar (Z.shiftr x 20)) (String (hexchar (Z.shiftr x 16))
  (String (hexchar (Z.shiftr x 12)) (String (hexchar (Z.shiftr x 8))
  (String (hexchar (Z.shiftr x 4)) (String (hexchar x) tail))))))).

Definition hex (r : regs) : string :=
  hex8 (ra r) (hex8 (rb r) (hex8 (rc r) (hex8 (rd r)
  (hex8 (re r) (hex8 (rf r) (hex8 (rg r) (hex8 (rh r) ""))))))).

(** The hash object: what has been fed to it so far. *)
Record sha256_obj := { fed : bytes }.

Definition sha256 : sha256_obj := {| fed := [] |}.
Definition update (h : sha256_obj) (b : bytes) : sha256_obj :=
  {| fed := (fed h ++ b)%list |}.
Definition hexdigest (h : sha256_obj) : string := hex (digest (fed h)).

End hashlib.

(** ** cmdlib *)

(** System calls lifted to the world; each one that succeeds is recorded. *)
Definition sys (f : fs -> result fs) : SE world unit :=
  fun w => match f (w_fs w) with
           | Ok s => (Ok tt, set_fs s w)
           | Raise e => (Raise e, w)
           end.

Definition sys_fd (f : fs -> fs) : SE world unit :=
  fun w => (Ok tt, set_fs (f (w_fs w)) w).

(** [f.read(128 * 1024)] returns at most this many bytes. *)
Definition CHUNK : nat := Z.to_nat (128 * 1024).

Lemma CHUNK_pos : (0 < CHUNK)%nat.
Proof. unfold CHUNK. lia. Qed.

Global Opaque CHUNK.

Definition inspect {A : Type} (x : A) : { y : A | x = y } := exist _ x eq_refl.

(** [for b in iter(lambda: f.read(128 * 1024), b''): h.update(b)] over the
    bytes of the file that are still unread. *)
Equations? read_loop (h : hashlib.sha256_obj) (unread : bytes)
  : hashlib.sha256_obj by wf (length unread) lt :=
  read_loop h unread with inspect (firstn CHUNK unread) := {
    | exist _ [] _ := h
    | exist _ (b :: bs) _ :=
        read_loop (hashlib.update h (b :: bs)) (skipn CHUNK unread) }.
Proof.
  rewrite length_skipn. pose proof CHUNK_pos.
  destruct unread as [|x unread]; simpl.
  - rewrite firstn_nil in e. discriminate.
  - lia.
Qed.

Module cmdlib.
Section cmdlib.
Context `{Host}.
Import tempfile.

(** 0o644 *)
Definition S_0o644 : Z := 6 * 64 + 4 * 8 + 4.

(** [json.dump(data, f, indent=4)] *)
Definition json_dump (data : json) (f : textio) : SE world unit :=
  write f (json_dumps data).

(** [write_json(path, data)].  The function neither flushes nor closes
    [f]: the file object is closed when its last reference goes away.  On
    the normal path that is when the function returns.  When a statement
    raises, the traceback keeps the frame of the function, and with it
    [f], alive while the exception travels: the text written stays in the
    buffer of the file object. *)
Definition write_json (path : string) (data : json) : SE world unit :=
  let dn := Path.dirname path in
  let* f := NamedTemporaryFile dn in
  let* _ := json_dump data f in
  let* _ := sys_fd (FS.fchmod (fileno f) S_0o644) in
  let* _ := sys (FS.rename (name f) path) in
  close f.

(** Modelled from the spec: [load_json] of [cosalib.cmdlib] is imported by
    build.py and is not under src/.  A document is missing when its file
    cannot be opened and unparsable when the file is not valid JSON; the
    parsed document is returned otherwise. *)
Definition load_json (path : string) : SE world json :=
  fun w =>
    match FS.read path (w_fs w) with
    | Raise e => (Raise e, w)
    | Ok data =>
        match json_loads data with
        | Some v => (Ok v, w)
        | None => (Raise JSONDecodeError, w)
        end
    end.

(** [sha256sum_file(filename)] *)
Definition sha256sum_file (filename : string) : SE world string :=
  fun w =>
    match FS.read filename (w_fs w) with
    | Raise e => (Raise e, w)
    | Ok data => (Ok (hashlib.hexdigest (read_loop hashlib.sha256 data)), w)
    end.

End cmdlib.
End cmdlib.

(** ** The build handle *)

(** [self._build_json]: the four slots of the dictionary, whose key set the
    code never changes. *)
Record build_json := {
  bj_commit : json;
  bj_config : json;
  bj_image : json;
  bj_meta : json
}.

(** The attributes of [self]. *)
Record handle := {
  _build_dir : string;
  _build_json : build_json;
  _found_files : list (string * json);
  _workdir : option string;
  _tmpdir : string;
  _image_name : option string
}.

Definition state : Type := handle * world.

(** What the concrete build class adds to [_Build]: its [platform]
    attribute and its override of [_build_artifacts], which works on the
    handle and on the file system. *)
Class BuildKind := {
  platform : option string;
  produce : list json -> list (string * json) -> SE (handle * fs) unit
}.

Definition set_slot (k : string) (v : json) (h : handle) : handle :=
  let j := _build_json h in
  {| _build_dir := _build_dir h;
     _build_json :=
       {| bj_commit := if String.eqb k "commit" then v else bj_commit j;
          bj_config := if String.eqb k "config" then v else bj_config j;
          bj_image := if String.eqb k "image" then v else bj_image j;
          bj_meta := if String.eqb k "meta" then v else bj_meta j |};
     _found_files := _found_files h;
     _workdir := _workdir h;
     _tmpdir := _tmpdir h;
     _image_name := _image_name h |}.

Definition set_image_name (v : option string) (h : handle) : handle :=
  {| _build_dir := _build_dir h;
     _build_json := _build_json h;
     _found_files := _found_files h;
     _workdir := _workdir h;
     _tmpdir := _tmpdir h;
     _image_name := v |}.

(** [try: m except KeyError as err: handler(err)] *)
Definition except_KeyError {S A} (m : SE S A) (handler : string -> SE S A)
  : SE S A :=
  fun s => match m s with
           | (Raise (KeyError k), s') => handler k s'
           | r => r
           end.

(** [try: m except Exception as e: handler(e)]; every exception of [exn]
    derives from [Exception]. *)
Definition except_Exception {S A} (m : SE S A) (handler : exn -> SE S A)
  : SE S A :=
  fun s => match m s with
           | (Raise e, s') => handler e s'
           | r => r
           end.

(** [obj[key]] for a string [key] *)
Definition subscript (obj : json) (key : string) : result json :=
  match obj with
  | JObj d =>
      match Dict.get key d with
      | Some v => Ok v
      | None => Raise (KeyError key)
      end
  | JArr _ => Raise (TypeError "list indices must be integers or slices, not str")
  | JStr _ => Raise (TypeError "string indices must be integers")
  | JNull | JBool _ | JNum _ => Raise (TypeError "object is not subscriptable")
  end.

(** [sys.getrecursionlimit()] *)
Definition recursion_limit : nat := 1000.

Record kwargs := {
  kw_build : option string;
  kw_arch : option string;
  (** [Some None] is [workdir=None] *)
  kw_workdir : option (option string)
}.

(** The [lookup] table of [__file] for the build directory [bd]. *)
Definition document_files (bd : string) : list (string * string) :=
  [("commit", bd ++ "/commitmeta.json");
   ("config", bd ++ "/coreos-assembler-config-git.json");
   ("image", "/cosa/coreos-assembler-git.json");
   ("meta", bd ++ "/meta.json")].

Module _Build.
Section _Build.
Context `{Host} `{BuildKind}.

Definition lift {A} (m : SE world A) : SE state A :=
  fun s => match m (snd s) with (r, w) => (r, (fst s, w)) end.

Definition self {A} (f : handle -> A) : SE state A := gets (fun s => f (fst s)).
Definition set_self (f : handle -> handle) : SE state unit :=
  modify (fun s => (f (fst s), snd s)).

Definition log (lvl : level) (msg : json) (args : list json) : SE state unit :=
  modify (fun s => (fst s, emit (Log lvl msg args) (snd s))).

(** [build_dir] *)
Definition build_dir : SE state string := self _build_dir.

(** [workdir] and [tmpdir] *)
Definition workdir : SE state (option string) := self _workdir.
Definition tmpdir : SE state string := self _tmpdir.

(** [ckey(var)] *)
Definition ckey (var : string) : string := "coreos-assembler." ++ var.

(** [__file(var)] *)
Definition __file (var : string) : SE state string :=
  let* bd := build_dir in
  let lookup := document_files bd in
  match Dict.get var lookup with
  | Some p => ret p
  | None => raise (KeyError var)
  end.

(** [__get_json(name)] *)
Definition __get_json (name : string) : SE state json :=
  let* file_path := __file name in
  let* _ := log DEBUG (JStr "Reading in %s") [JStr file_path] in
  lift (cmdlib.load_json file_path).

(** The four properties share one shape: load the slot when it holds
    [None], then return what it holds. *)
Definition slot_property (k : string) (get : build_json -> json) : SE state json :=
  let* cur := self (fun h => get (_build_json h)) in
  let* _ := (if is_None cur
             then let* v := __get_json k in set_self (set_slot k v)
             else ret tt) in
  self (fun h => get (_build_json h)).

Definition commit : SE state json := slot_property "commit" bj_commit.
Definition config : SE state json := slot_property "config" bj_config.
Definition image : SE state json := slot_property "image" bj_image.
Definition meta : SE state json := slot_property "meta" bj_meta.

(** [refresh_meta()] *)
Definition refresh_meta : SE state unit :=
  let* v := __get_json "meta" in
  set_self (set_slot "meta" v).

(** [obj.get(key, default)], an [AttributeError] unless [obj] is a dict *)
Definition dict_get_default (obj : json) (key : string) (default : json)
  : result json :=
  match obj with
  | JObj d => Ok (match Dict.get key d with Some v => v | None => default end)
  | _ => Raise (AttributeError "object has no attribute 'get'")
  end.

(** [ostree_commit] *)
Definition ostree_commit : SE state json :=
  let* m := meta in
  of_result (dict_get_default m "ostree-commit" JNull).

(** [basearch] *)
Definition basearch : SE state json :=
  let* m := meta in
  of_result (dict_get_default m (ckey "coreos-assembler.basearch") (JStr BASEARCH)).

(** [get_obj(key)] *)
Definition get_obj (key : string) : SE state json :=
  let* c := commit in
  let* cf := config in
  let* i := image in
  let* m := meta in
  let lookup := [("commit", c); ("config", cf); ("image", i); ("meta", m)] in
  match Dict.get key lookup with
  | Some v => ret v
  | None =>
      raise (BuildError
               ("invalid key " ++ key ++
                ", valid keys are dict_keys(['commit', 'config', 'image', 'meta'])"))
  end.

(** [get_meta_key(obj, key)] *)
Definition get_meta_key (obj key : string) : SE state json :=
  except_KeyError
    (let* data := get_obj obj in of_result (subscript data key))
    (fun err =>
       let* _ := log WARNING (JStr "lookup for key '%s' returned: %s")
                     [JStr key; JStr (py_repr (JStr err))] in
       ret JNull).

(** [get_sub_obj(obj, key, sub)]; [depth] is the number of frames left
    before Python's recursion limit. *)
Fixpoint get_sub_obj_rec (depth : nat) (obj : json) (key sub : string)
  : SE state json :=
  match obj with
  | JStr name =>
      match depth with
      | O => raise RecursionError
      | S depth' =>
          let* o := get_obj name in
          get_sub_obj_rec depth' o key sub
      end
  | _ =>
      except_KeyError
        (let* v := of_result (subscript obj key) in of_result (subscript v sub))
        (fun _ => let* _ := log WARNING obj [] in ret JNull)
  end.

Definition get_sub_obj (obj : json) (key sub : string) : SE state json :=
  get_sub_obj_rec recursion_limit obj key sub.

(** [build_id], [build_name], [summary] *)
Definition build_id : SE state json := get_meta_key "meta" "buildid".
Definition build_name : SE state string :=
  let* v := get_meta_key "meta" "name" in ret (py_str v).
Definition summary : SE state json := get_meta_key "meta" "summary".

(** [meta_append(update_dict)] *)
Definition meta_append (update_dict : list (string * json)) : SE state unit :=
  let* m := self (fun h => bj_meta (_build_json h)) in
  match m with
  | JObj d => set_self (set_slot "meta" (JObj (Dict.update d update_dict)))
  | _ => raise (AttributeError "object has no attribute 'update'")
  end.

(** [meta_write()] *)
Definition meta_write : SE state unit :=
  let* p := __file "meta" in
  let* m := self (fun h => bj_meta (_build_json h)) in
  lift (cmdlib.write_json p m).

(** [_build_artifacts] of the base class *)
Definition _build_artifacts_base : SE state unit :=
  raise (NotImplementedError "_build_artifacts must be overriden").

(** The call of [self._build_artifacts], with the arguments passed on,
    dispatched to the concrete build class. *)
Definition _build_artifacts (args : list json) (kw : list (string * json))
  : SE state unit :=
  fun s =>
    let w := emit Produce (snd s) in
    match produce args kw (fst s, w_fs w) with
    | (r, (h', fs')) => (r, (h', set_fs fs' w))
    end.

(** [build_artifacts], taking positional and keyword arguments *)
Definition build_artifacts (args : list json) (kw : list (string * json))
  : SE state unit :=
  let* _ := log INFO (JStr "Processing the build artifacts") [] in
  let* _ := _build_artifacts args kw in
  let* _ := log INFO (JStr "Finished building artifacts") [] in
  let* found := self _found_files in
  if (length (Dict.keys found) =? 0)%nat
  then log WARNING (JStr "There were no files found after building") []
  else ret tt.

(** [image_name] and its setter *)
Definition image_name : SE state string :=
  let* n := self _image_name in
  match n with
  | None => raise (NotImplementedError "image naming is not implmented here")
  | Some v => ret v
  end.

Definition image_name_setter (val : string) : SE state unit :=
  set_self (set_image_name (Some val)).

(** [image_path] *)
Definition image_path : SE state string :=
  let* bd := build_dir in
  let* n := image_name in
  ret (Path.join bd n).

(** [have_artifact] *)
Definition have_artifact : SE state bool :=
  let* p := image_path in
  let* e := gets (fun s => FS.exists_ p (w_fs (snd s))) in
  if e then ret true else ret false.

(** [ensure_built()] *)
Definition ensure_built : SE state unit :=
  let* b := have_artifact in
  if negb b then build_artifacts [] [] else ret tt.

(** [image_name_base] *)
Definition image_name_base : SE state string :=
  let* n := self _image_name in
  match n with
  | Some v => ret v
  | None =>
      let* bn := build_name in
      let* bi := build_id in
      let* pf := match platform with
                 | Some p => ret p
                 | None => raise (AttributeError "object has no attribute 'platform'")
                 end in
      let* ba := basearch in
      ret (bn ++ "-" ++ py_str bi ++ "-" ++ pf ++ "." ++ py_str ba)
  end.

(** [get_artifact_meta(fname=None)] *)
Definition get_artifact_meta (fname : option string) : SE state json :=
  let* ip := image_path in
  let* sz := gets (fun s => FS.st_size dir_st_size ip (w_fs (snd s))) in
  let* sz := of_result sz in
  let fsize := str_of_Z sz in
  let* fname := match fname with
                | None => image_name
                | Some f => ret f
                end in
  let* bd := build_dir in
  let fpath := Path.join bd fname in
  let* _ := log INFO (JStr ("Calculating metadata for " ++ fname)) [] in
  let* sum := lift (cmdlib.sha256sum_file fpath) in
  let* size := of_result (int_of_str fsize) in
  ret (JObj [("path", JStr fname); ("sha256sum", JStr sum); ("size", JNum size)]).

(** [get_artifacts()]: the pairs the generator yields *)
Definition get_artifacts : SE state (list (string * json)) :=
  let* found := self _found_files in
  ret (map (fun name => (name, match Dict.get name found with
                               | Some v => v
                               | None => JNull
                               end)) (Dict.keys found)).


(** [__del__()] *)
Definition __del__ : SE state unit :=
  except_Exception
    (let* t := self _tmpdir in lift (sys (FS.rmtree t)))
    (fun e =>
       let* t := self _tmpdir in
       raise (Exception_ ("failed to remove temporary directory: " ++ t) e)).

(** The construction-time check of one document: the code builds its
    message with ["%s %s" % self.__file(k)], one argument short of the
    format, so that the exception raised is the [TypeError] of [%]. *)
Definition check_loaded (k : string) (prop : SE state json) : SE state unit :=
  let* v := prop in
  if is_None v
  then let* _ := __file k in
       raise (TypeError "not enough arguments for format string")
  else ret tt.

(** The body of [__init__] once the attributes are assigned. *)
Definition validate : SE state unit :=
  let* _ := check_loaded "commit" commit in
  let* _ := check_loaded "config" config in
  let* _ := check_loaded "image" image in
  let* _ := check_loaded "meta" meta in
  let* _ := set_self (set_image_name None) in
  let* sm := summary in
  let* bn := build_name in
  let* ba := basearch in
  let* bi := build_id in
  log INFO (JStr "Proccessed build for: %s (%s-%s) %s")
      [sm; JStr (upper bn); ba; bi].

(** [__init__], taking keyword arguments: the handle is returned only when the body runs
    to its end. *)
Definition __init__ (kw : kwargs) : SE world handle :=
  let build := match kw_build kw with Some b => b | None => "latest" end in
  let* builds := (fun w => (Builds_open (Path.dirname build) (w_fs w), w)) in
  let* build :=
    (if negb (String.eqb build "latest")
     then if negb (has builds build)
          then raise (BuildError "Build was not found in builds.json")
          else ret build
     else ret (get_latest builds)) in
  let* _ := modify (emit (Log INFO (JStr "Targeting build: %s") [JStr build])) in
  let bd := get_build_dir builds build
              (match kw_arch kw with Some a => a | None => BASEARCH end) in
  let wd := match kw_workdir kw with Some d => d | None => Some getcwd end in
  let* td := tempfile.mkdtemp "build_tmpd" in
  let h := {| _build_dir := bd;
              _build_json := {| bj_commit := JNull; bj_config := JNull;
                                bj_image := JNull; bj_meta := JNull |};
              _found_files := [];
              _workdir := wd;
              _tmpdir := td;
              _image_name := None |} in
  match wd with
  | None => raise (TypeError "str expected, not NoneType")
  | Some d =>
      let* _ := modify (set_environ "workdir" d) in
      let* _ := modify (set_environ "TMPDIR" (Path.join d "tmp")) in
      fun w => match validate (h, w) with
               | (Ok _, (h', w')) => (Ok h', w')
               | (Raise e, (_, w')) => (Raise e, w')
               end
  end.

End _Build.
End _Build.

(** ** A reference host

    One concrete host, on which the model runs on concrete inputs: a JSON
    printer in the layout of [indent=4] and a recursive-descent parser, both
    for integers and for strings that need no escape beyond the quote and
    the backslash; a build index with a single build; temporary names
    [0], [1], ... *)
Module RefHost.

Definition dquote : ascii := ascii_of_nat 34.

Definition nl (lvl : nat) : string :=
  String (ascii_of_nat 10) (string_of_list_ascii (repeat " "%char (4 * lvl))).

Fixpoint escape (s : string) : string :=
  match s with
  | EmptyString => EmptyString
  | String c r =>
      if Ascii.eqb c dquote || Ascii.eqb c "\"%char
      then String "\"%char (String c (escape r))
      else String c (escape r)
  end.

Definition quote (s : string) : string :=
  String dquote (escape s ++ String dquote EmptyString).

Fixpoint sep_by (sep : string) (l : list string) : string :=
  match l with
  | [] => ""
  | [x] => x
  | x :: r => x ++ sep ++ sep_by sep r
  end.

Fixpoint dumps_at (lvl : nat) (v : json) : string :=
  match v with
  | JNull => "null"
  | JBool true => "true"
  | JBool false => "false"
  | JNum n => str_of_Z n
  | JStr s => quote s
  | JArr [] => "[]"
  | JArr items =>
      "[" ++ nl (S lvl)
          ++ sep_by ("," ++ nl (S lvl)) (map (dumps_at (S lvl)) items)
          ++ nl lvl ++ "]"
  | JObj [] => "{}"
  | JObj fields =>
      "{" ++ nl (S lvl)
          ++ sep_by ("," ++ nl (S lvl))
               (map (fun kv => quote (fst kv) ++ ": " ++ dumps_at (S lvl) (snd kv))
                    fields)
          ++ nl lvl ++ "}"
  end.

Definition dumps (v : json) : bytes := list_byte_of_string (dumps_at 0 v).

Definition is_ws (c : ascii) : bool :=
  let n := nat_of_ascii c in
  (n =? 32)%nat || (n =? 10)%nat || (n =? 9)%nat || (n =? 13)%nat.

Fixpoint skip_ws (cs : list ascii) : list ascii :=
  match cs with
  | c :: r => if is_ws c then skip_ws r else cs
  | [] => []
  end.

Fixpoint strip (pre cs : list ascii) : option (list ascii) :=
  match pre, cs with
  | [], _ => Some cs
  | p :: pre', c :: cs' => if Ascii.eqb p c then strip pre' cs' else None
  | _ :: _, [] => None
  end.

(** The characters of a string literal after its opening quote. *)
Fixpoint string_body (cs : list ascii) (acc : list ascii)
  : option (string * list ascii) :=
  match cs with
  | [] => None
  | c :: r =>
      if Ascii.eqb c dquote then Some (string_of_list_ascii (rev acc), r)
      else if Ascii.eqb c "\"%char then
        match r with
        | e :: r' => string_body r' (e :: acc)
        | [] => None
        end
      else string_body r (c :: acc)
  end.

Definition is_num_char (c : ascii) : bool :=
  let n := nat_of_ascii c in
  (n =? 45)%nat || ((48 <=? n)%nat && (n <=? 57)%nat).

Fixpoint span_num (cs : list ascii) : list ascii * list ascii :=
  match cs with
  | c :: r =>
      if is_num_char c
      then let (a, b) := span_num r in (c :: a, b)
      else ([], cs)
  | [] => ([], [])
  end.

Fixpoint value (fuel : nat) (cs : list ascii) : option (json * list ascii) :=
    match fuel with
    | O => None
    | S fuel' =>
        let cs := skip_ws cs in
        match cs with
        | [] => None
        | c :: r =>
            if Ascii.eqb c dquote then
              match string_body r [] with
              | Some (s, r') => Some (JStr s, r')
              | None => None
              end
            else if Ascii.eqb c "["%char then
              match skip_ws r with
              | c' :: r' =>
                  if Ascii.eqb c' "]"%char then Some (JArr [], r')
                  else items fuel' r []
              | [] => None
              end
            else if Ascii.eqb c "{"%char then
              match skip_ws r with
              | c' :: r' =>
                  if Ascii.eqb c' "}"%char then Some (JObj [], r')
                  else fields fuel' r []
              | [] => None
              end
            else if is_num_char c then
              let (tok, r') := span_num cs in
              match NilZero.int_of_string (string_of_list_ascii tok) with
              | Some i => Some (JNum (Z.of_int i), r')
              | None => None
              end
            else
              match strip (list_ascii_of_string "null") cs with
              | Some r' => Some (JNull, r')
              | None =>
                  match strip (list_ascii_of_string "true") cs with
                  | Some r' => Some (JBool true, r')
                  | None =>
                      match strip (list_ascii_of_string "false") cs with
                      | Some r' => Some (JBool false, r')
                      | None => None
                      end
                  end
              end
        end
    end
  with items (fuel : nat) (cs : list ascii) (acc : list json)
    : option (json * list ascii) :=
    match fuel with
    | O => None
    | S fuel' =>
        match value fuel' cs with
        | Some (v, r) =>
            match skip_ws r with
            | c :: r' =>
                if Ascii.eqb c ","%char then items fuel' r' (v :: acc)
                else if Ascii.eqb c "]"%char then Some (JArr (rev (v :: acc)), r')
                else None
            | [] => None
            end
        | None => None
        end
    end
  with fields (fuel : nat) (cs : list ascii) (acc : list (string * json))
    : option (json * list ascii) :=
    match fuel with
    | O => None
    | S fuel' =>
        match skip_ws cs with
        | q :: r0 =>
            if Ascii.eqb q dquote then
              match string_body r0 [] with
              | Some (k, r1) =>
                  match skip_ws r1 with
                  | c :: r2 =>
                      if Ascii.eqb c ":"%char then
                        match value fuel' r2 with
                        | Some (v, r3) =>
                            let acc' := Dict.set k v acc in
                            match skip_ws r3 with
                            | c' :: r4 =>
                                if Ascii.eqb c' ","%char then fields fuel' r4 acc'
                                else if Ascii.eqb c' "}"%char then Some (JObj acc', r4)
                                else None
                            | [] => None
                            end
                        | None => None
                        end
                      else None
                  | [] => None
                  end
              | None => None
              end
            else None
        | [] => None
        end
    end.

Definition loads (b : bytes) : option json :=
  let cs := list_ascii_of_string (string_of_list_byte b) in
  match value (S (length cs)) cs with
  | Some (v, r) => match skip_ws r with [] => Some v | _ => None end
  | None => None
  end.

Definition the_build : string := "35.20220101.0".

Definition index : Builds :=
  {| has := fun b => String.eqb b the_build;
     get_latest := the_build;
     get_build_dir := fun b arch => "builds/" ++ b ++ "/" ++ arch |}.

Definition host : Host :=
  {| json_dumps := dumps;
     json_loads := loads;
     BASEARCH := "x86_64";
     Builds_open := fun _ _ => Ok index;
     random_name := fun n => str_of_Z (Z.of_nat n);
     gettempdir := "/tmp";
     getcwd := "/srv";
     dir_st_size := 4096;
     py_repr := fun v => match v with
                         | JStr s => "'" ++ s ++ "'"
                         | _ => dumps_at 0 v
                         end |}.

(** A build class for the platform [qemu] whose production step records
    one artifact in the registry. *)
Definition qemu : BuildKind :=
  {| platform := Some "qemu";
     produce := fun _ _ s =>
       let h := fst s in
       (Ok tt,
        ({| _build_dir := _build_dir h;
            _build_json := _build_json h;
            _found_files := Dict.set "qemu" (JObj [("path", JStr "disk.qcow2")])
                                     (_found_files h);
            _workdir := _workdir h;
            _tmpdir := _tmpdir h;
            _image_name := _image_name h |}, snd s)) |}.

(** A file system given by its directories and its files. *)
Definition mkfs (dirs : list string) (files : list (string * bytes)) : fs :=
  let add_file (s : fs) (pf : string * bytes) : fs :=
    {| fs_names := <[fst pf := NFile (fs_next s)]> (fs_names s);
       fs_inodes := <[fs_next s := {| f_data := snd pf;
                                      f_mode := cmdlib.S_0o644 |}]> (fs_inodes s);
       fs_next := S (fs_next s) |} in
  fold_left add_file files
    {| fs_names := list_to_map (map (fun d => (d, NDir)) dirs);
       fs_inodes := ∅;
       fs_next := 0 |}.

Definition mkworld (s : fs) : world :=
  {| w_fs := s; w_hist := [s]; w_bufs := ∅; w_environ := ∅;
     w_rand := 0; w_log := [] |}.

End RefHost.

(** ** Notions the properties are stated with *)

(** The exception of [image_name] while no name has been assigned. *)
Definition NoImageName : exn :=
  NotImplementedError "image naming is not implmented here".

(** How many times the artifact-production hook has been entered. *)
Definition produced (w : world) : nat :=
  length (List.filter (fun e => match e with Produce => true | _ => false end) (w_log w)).

(** The four documents of a handle under their keys, as [get_obj] lists them. *)
Definition documents (h : handle) : list (string * json) :=
  let j := _build_json h in
  [("commit", bj_commit j); ("config", bj_config j);
   ("image", bj_image j); ("meta", bj_meta j)].

(** Every slot holds a document: none is [None]. *)
Definition cached (h : handle) : Prop :=
  bj_commit (_build_json h) <> JNull /\ bj_config (_build_json h) <> JNull
  /\ bj_image (_build_json h) <> JNull /\ bj_meta (_build_json h) <> JNull.

(** The exception [get_obj] raises for a key that names no document. *)
Definition UnknownKey (key : string) : exn :=
  BuildError ("invalid key " ++ key ++
              ", valid keys are dict_keys(['commit', 'config', 'image', 'meta'])").

(** A document shallow-merged with a mapping. *)
Definition merged (doc : json) (u : list (string * json)) : json :=
  match doc with
  | JObj d => JObj (Dict.update d u)
  | other => other
  end.

(** A character of lowercase hexadecimal notation. *)
Definition is_lower_hex (c : ascii) : bool :=
  existsb (Ascii.eqb c) hashlib.hexdigits.

(** The log record of [get_artifact_meta]. *)
Definition calculating (fname : string) : event :=
  Log INFO (JStr ("Calculating metadata for " ++ fname)) [].

(** [fname] when given, the image name otherwise. *)
Definition name_or (n : string) (fname : option string) : string :=
  match fname with Some f => f | None => n end.

(** The log record of [__get_json]. *)
Definition reading (file_path : string) : event :=
  Log DEBUG (JStr "Reading in %s") [JStr file_path].

(** The four properties with the slot each one reads. *)
Definition slot_getters : list (string * (build_json -> json)) :=
  [("commit", bj_commit); ("config", bj_config);
   ("image", bj_image); ("meta", bj_meta)].

Section Notions.
Context `{Host}.

(** The warning of [get_meta_key] for a missing key. *)
Definition missing_key_warning (key : string) : event :=
  Log WARNING (JStr "lookup for key '%s' returned: %s")
      [JStr key; JStr (py_repr (JStr key))].

(** The architecture of a handle whose meta document is [d]: the value
    under the key [basearch] looks up, or the host architecture. *)
Definition arch_of (d : list (string * json)) : json :=
  match Dict.get (_Build.ckey "coreos-assembler.basearch") d with
  | Some v => v
  | None => JStr BASEARCH
  end.

(** A slot either keeps its value or, being empty, takes the document that
    its file loads to. *)
Definition slot_step (w : world) (p : string) (old new : json) : Prop :=
  new = old \/ (old = JNull /\ (cmdlib.load_json p w).1 = Ok new).

(** What a method may do to the state while the handle is validated: it
    leaves the file system and the build directory alone, and each slot
    makes a [slot_step]. *)
Definition lazy_step (s s' : state) : Prop :=
  w_fs s'.2 = w_fs s.2
  /\ _build_dir s'.1 = _build_dir s.1
  /\ Forall2 (fun old new => fst old = fst new /\
                exists p, Dict.get (fst old) (document_files (_build_dir s.1)) = Some p
                          /\ slot_step s.2 p (snd old) (snd new))
             (documents s.1) (documents s'.1).

Definition lazy {A} (m : SE state A) : Prop :=
  forall s, lazy_step s (m s).2.

End Notions.

(** ** A concrete build on the reference host *)
Module Demo.

Definition bd : string := "builds/35.20220101.0/x86_64".

(** The fields of the meta document on disk. *)
Definition meta_fields : list (string * json) :=
  [("buildid", JStr "35.20220101.0"); ("name", JStr "fcos");
   ("summary", JStr "Fedora CoreOS")].

Definition meta_doc : json := JObj meta_fields.

Definition meta_path : string := bd ++ "/meta.json".

(** An update to merge. *)
Definition update : list (string * json) :=
  [("ostree-commit", JStr "c0ffee"); ("name", JStr "rhcos")].

(** The fields of the meta document once [pending] has been merged. *)
Definition unsynced_fields : list (string * json) :=
  [("buildid", JStr "35.20220101.0"); ("name", JStr "fcos");
   ("summary", JStr "Fedora CoreOS"); ("pending", JNum 1)].

Definition ascii_bytes (s : string) : bytes := list_byte_of_string s.

(** The image file. *)
Definition image_file : file :=
  {| f_data := ascii_bytes "abc"; f_mode := cmdlib.S_0o644 |}.

Definition fs0 : fs :=
  RefHost.mkfs
    ["builds"; "builds/35.20220101.0"; bd; "/cosa"; "/tmp"; "/srv"]
    [(meta_path, RefHost.dumps meta_doc);
     (bd ++ "/commitmeta.json", RefHost.dumps (JObj [("ostree.linux", JStr "5.15")]));
     (bd ++ "/coreos-assembler-config-git.json",
      RefHost.dumps (JObj [("git", JObj [("commit", JStr "c0ffee")])]));
     ("/cosa/coreos-assembler-git.json",
      RefHost.dumps (JObj [("git", JObj [("commit", JStr "f00d")])]));
     (bd ++ "/disk.qcow2", ascii_bytes "abc");
     (bd ++ "/other.bin", ascii_bytes "x")].

Definition w0 : world := RefHost.mkworld fs0.

Definition kw0 : kwargs :=
  {| kw_build := None; kw_arch := None; kw_workdir := None |}.

(** The handle constructed for the latest build, and the world after. *)
Definition constructed : result handle * world :=
  _Build.__init__ (H := RefHost.host) kw0 w0.

Definition blank : handle :=
  {| _build_dir := ""; _found_files := []; _workdir := None; _tmpdir := "";
     _image_name := None;
     _build_json := {| bj_commit := JNull; bj_config := JNull;
                       bj_image := JNull; bj_meta := JNull |} |}.

Definition h0 : handle :=
  match constructed.1 with Ok h => h | Raise _ => blank end.

Definition w1 : world := constructed.2.

(** The handle once the build class has named its image. *)
Definition h_img : handle := set_image_name (Some "disk.qcow2") h0.

(** The handle after an edit that has not been written. *)
Definition unsynced : state :=
  (_Build.meta_append [("pending", JNum 1)] (h0, w1)).2.

(** The state after a first teardown. *)
Definition torn_down : state :=
  (_Build.__del__ (h0, w1)).2.

End Demo.

(** [meta_append(U)], [meta_write()], [refresh_meta()] in a row. *)
Definition merge_flush_reload_run `{Host} (U : list (string * json)) : SE state unit :=
  bind (_Build.meta_append U) (fun _ =>
  bind _Build.meta_write (fun _ => _Build.refresh_meta)).

(** ** Further definitions: the rest of cmdlib, and notions of the
    further properties *)

(** What a field of the meta document reads as in a composed name:
    [str(get_meta_key("meta", key))]. *)
Definition field_str `{Host} (d : list (string * json)) (key : string) : string :=
  match Dict.get key d with
  | Some v => py_str v
  | None => "None"
  end.

(** [_Build] used as it is, without a subclass: it has no [platform]
    attribute, and its [_build_artifacts] raises. *)
Definition base_class : BuildKind :=
  {| platform := None;
     produce := fun _ _ =>
       raise (NotImplementedError "_build_artifacts must be overriden") |}.

(** The log records of [build_artifacts]. *)
Definition processing : event := Log INFO (JStr "Processing the build artifacts") [].
Definition finished : event := Log INFO (JStr "Finished building artifacts") [].
Definition no_files_found : event :=
  Log WARNING (JStr "There were no files found after building") [].

(** The pieces of a path between its slashes, [p.split('/')]. *)
Fixpoint segments_from (cur_rev rest : list ascii) : list string :=
  match rest with
  | [] => [string_of_list_ascii (rev cur_rev)]
  | c :: r =>
      if Ascii.eqb c Path.slash
      then string_of_list_ascii (rev cur_rev) :: segments_from [] r
      else segments_from (c :: cur_rev) r
  end.

Definition segments (p : string) : list string :=
  segments_from [] (list_ascii_of_string p).

(** A file name: not empty, not [.] or [..], without a NUL character, at
    most NAME_MAX (255) bytes long. *)
Definition is_name (s : string) : bool :=
  negb (String.eqb s "" || String.eqb s "." || String.eqb s "..")
  && forallb (fun c => negb (Ascii.eqb c Ascii.zero)) (list_ascii_of_string s)
  && (String.length s <=? 255)%nat.

(** A path spelled the way the map of names spells its keys: file names
    separated by single slashes, after one leading slash when the path is
    absolute, and shorter than PATH_MAX (4096).  Another spelling of a path
    (a doubled or a trailing slash, a [.] or [..] in it) can reach what a
    key of the map names without being a key itself, and the operating
    system refuses a path with a NUL character or of excessive length with
    an error of its own: what is said below about a path that is no key of
    the map is said of plain paths. *)
Definition plain (p : string) : bool :=
  (String.length p <? 4096)%nat
  && match segments p with
     | [] => false
     | s0 :: rest =>
         if String.eqb s0 ""
         then match rest with [] => false | _ => forallb is_name rest end
         else forallb is_name (s0 :: rest)
     end.

(** The proper ancestors of a path: its prefixes that end before a slash,
    shortest first. *)
Fixpoint ancestors_from (seen_rev rest : list ascii) : list string :=
  match rest with
  | [] => []
  | c :: r =>
      ((if Ascii.eqb c Path.slash then [string_of_list_ascii (rev seen_rev)] else [])
         ++ ancestors_from (c :: seen_rev) r)%list
  end.

Definition ancestors (p : string) : list string :=
  ancestors_from [] (list_ascii_of_string p).

(** Some ancestor of [p] is a regular file.  Resolving such a path fails
    with ENOTDIR, which Python raises as NotADirectoryError and not as
    FileNotFoundError.  The flat map of names has no entry for such a path
    and [FS] treats it as absent, so what is said below about an absent
    path is said of a path that is not below a file. *)
Definition below_a_file (p : string) (s : fs) : bool :=
  existsb (fun a => match FS.lookup a s with
                    | Some (NFile _) => true
                    | _ => false
                    end) (ancestors p).


(** What reading the documents leaves alone: every attribute of the handle
    but the cached documents, and everything in the world but the log. *)
Definition untouched (s s' : state) : Prop :=
  _build_dir s'.1 = _build_dir s.1
  /\ _found_files s'.1 = _found_files s.1
  /\ _workdir s'.1 = _workdir s.1
  /\ _tmpdir s'.1 = _tmpdir s.1
  /\ _image_name s'.1 = _image_name s.1
  /\ w_fs s'.2 = w_fs s.2
  /\ w_environ s'.2 = w_environ s.2.

Definition reads_only {A} (m : SE state A) : Prop :=
  forall s, untouched s (m s).2.

(** The exception of [__init__] for a build the index does not list. *)
Definition build_not_found : exn := BuildError "Build was not found in builds.json".

(** The handle [__init__] validates: the attributes as assigned, no
    document loaded yet. *)
Definition unvalidated (bd : string) (wd : option string) (td : string) : handle :=
  {| _build_dir := bd;
     _build_json := {| bj_commit := JNull; bj_config := JNull;
                       bj_image := JNull; bj_meta := JNull |};
     _found_files := [];
     _workdir := wd;
     _tmpdir := td;
     _image_name := None |}.

(** The work directory [__init__] takes from its keyword arguments. *)
Definition workdir_of `{Host} (kw : kwargs) : option string :=
  match kw_workdir kw with Some d => d | None => Some getcwd end.

(** What [os.rename(src, dst)] does to the names. *)
Definition renamed (src dst : string) (names : gmap string node)
  : result (gmap string node) :=
  match names !! src with
  | None => Raise (FileNotFoundError src)
  | Some n =>
      match names !! dst with
      | Some NDir => Raise (IsADirectoryError dst)
      | _ => Ok (<[dst := n]> (delete src names))
      end
  end.

(** The first name [NamedTemporaryFile] tries in the directory [dir]. *)
Definition first_candidate `{Host} (dir : string) (w : world) : string :=
  Path.join dir ("tmp" ++ random_name (w_rand w)).

(** ** More of cmdlib: [rm_allow_noent] and [rfc3339_time] *)
Module os.

(** [os.unlink(p)] for a plain path [p]: the name goes away, the inode
    stays for the other names and the open descriptors that refer to it.
    Linux answers ENOTDIR for a path below a regular file and EISDIR for a
    directory. *)
Definition unlink (p : string) (s : fs) : result fs :=
  if below_a_file p s then Raise (NotADirectoryError p)
  else
    match FS.lookup p s with
    | None => Raise (FileNotFoundError p)
    | Some NDir => Raise (IsADirectoryError p)
    | Some (NFile _) =>
        Ok {| fs_names := delete p (fs_names s);
              fs_inodes := fs_inodes s;
              fs_next := fs_next s |}
    end.

End os.

(** [try: m except FileNotFoundError: handler] *)
Definition except_FileNotFoundError {S A} (m : SE S A) (handler : SE S A) : SE S A :=
  fun s => match m s with
           | (Raise (FileNotFoundError _), s') => handler s'
           | r => r
           end.

(** [rm_allow_noent(path)] *)
Definition rm_allow_noent (path : string) : SE world unit :=
  except_FileNotFoundError (sys (os.unlink path)) (ret tt).

Module datetime.

(** A [datetime.datetime] object: its fields, and what [tzname()]
    answers, which is [None] for a naive object. *)
Record t := {
  year : Z; month : Z; day : Z;
  hour : Z; minute : Z; second : Z; microsecond : Z;
  tzname : option string
}.

(** A field printed with two digits: [%m], [%d], [%H], [%M], [%S]. *)
Definition two (n : Z) : string :=
  if n <? 10 then "0" ++ str_of_Z n else str_of_Z n.

(** [t.strftime("%Y-%m-%dT%H:%M:%SZ")]; [%Y] is the decimal year as the C
    library of Linux prints it, four digits from the year 1000 on. *)
Definition strftime (d : t) : string :=
  str_of_Z (year d) ++ "-" ++ two (month d) ++ "-" ++ two (day d) ++ "T"
    ++ two (hour d) ++ ":" ++ two (minute d) ++ ":" ++ two (second d) ++ "Z".

(** The fields are those of a date of the years 1000 to 9999. *)
Definition valid (d : t) : Prop :=
  1000 <= year d <= 9999 /\ 1 <= month d <= 12 /\ 1 <= day d <= 31
  /\ 0 <= hour d <= 23 /\ 0 <= minute d <= 59 /\ 0 <= second d <= 59.

(** The fields down to the second, most significant first. *)
Definition fields (d : t) : list Z :=
  [year d; month d; day d; hour d; minute d; second d].

End datetime.

(** What [rfc3339_time] answers: the text, or the AssertionError of its
    check of the time zone. *)
Inductive asserted (A : Type) : Type :=
| Passed (a : A)
| AssertionError (msg : string).
Arguments Passed {A} a.
Arguments AssertionError {A} msg.

(** [rfc3339_time(t=None)]; [utcnow] is what [datetime.utcnow()] answers
    at the time of the call. *)
Definition rfc3339_time (utcnow : datetime.t) (t : option datetime.t)
  : asserted string :=
  match t with
  | None => Passed (datetime.strftime utcnow)
  | Some t =>
      match datetime.tzname t with
      | Some tz =>
          if String.eqb tz "UTC" then Passed (datetime.strftime t)
          else AssertionError "Timestamp must be in UTC format"
      | None => AssertionError "Timestamp must be in UTC format"
      end
  end.

(** Chronological order on the fields of two timestamps. *)
Fixpoint chronological (a b : list Z) : comparison :=
  match a, b with
  | [], [] => Eq
  | [], _ :: _ => Lt
  | _ :: _, [] => Gt
  | x :: a', y :: b' =>
      match x ?= y with
      | Eq => chronological a' b'
      | c => c
      end
  end.

Definition comparison_eqb (a b : comparison) : bool :=
  match a, b with
  | Eq, Eq | Lt, Lt | Gt, Gt => true
  | _, _ => false
  end.

(** Where the image document is read from, whatever the build. *)
Definition image_document : string := "/cosa/coreos-assembler-git.json".

(** ** More cases on the reference host *)
Module Cases.

(** A meta document that records its architecture under the conventional
    key. *)
Definition arch_fields : list (string * json) :=
  [("buildid", JStr "35.20220101.0"); ("name", JStr "fcos");
   ("coreos-assembler.basearch", JStr "aarch64")].

Definition h_arch : handle := set_slot "meta" (JObj arch_fields) Demo.h0.

(** A meta document without name and build id. *)
Definition anon_fields : list (string * json) := [("summary", JStr "Fedora CoreOS")].

Definition h_anon : handle := set_slot "meta" (JObj anon_fields) Demo.h0.

(** A meta document that is a list. *)
Definition h_list : handle := set_slot "meta" (JArr []) Demo.h0.

(** A handle on another build directory with no document read yet. *)
Definition h_blank : handle :=
  unvalidated "builds/36.0/aarch64" (Some "/srv") "/tmp/build_tmpd7".

(** The handle before its meta document is read. *)
Definition h_unread : handle := set_slot "meta" JNull Demo.h0.

(** The world once meta.json has been removed. *)
Definition w_nometa : world := (rm_allow_noent Demo.meta_path Demo.w1).2.

(** The config document of the concrete build. *)
Definition config_fields : list (string * json) :=
  [("git", JObj [("commit", JStr "c0ffee")])].

Definition kw_unknown : kwargs :=
  {| kw_build := Some "36.0"; kw_arch := None; kw_workdir := None |}.

Definition kw_no_workdir : kwargs :=
  {| kw_build := None; kw_arch := None; kw_workdir := Some None |}.

Definition new_year : datetime.t :=
  {| datetime.year := 2022; datetime.month := 1; datetime.day := 1;
     datetime.hour := 0; datetime.minute := 0; datetime.second := 0;
     datetime.microsecond := 0; datetime.tzname := Some "UTC" |}.

Definition new_years_eve : datetime.t :=
  {| datetime.year := 2021; datetime.month := 12; datetime.day := 31;
     datetime.hour := 23; datetime.minute := 59; datetime.second := 59;
     datetime.microsecond := 999999; datetime.tzname := Some "UTC" |}.

(** What [datetime.utcnow()] answers: no time zone attached. *)
Definition naive : datetime.t :=
  {| datetime.year := 2022; datetime.month := 1; datetime.day := 1;
     datetime.hour := 0; datetime.minute := 0; datetime.second := 0;
     datetime.microsecond := 0; datetime.tzname := None |}.

End Cases.

(** * Properties *)

Example dirname_meta : Path.dirname "builds/35.1/x86_64/meta.json" = "builds/35.1/x86_64".
Proof. reflexivity. Qed.
Example dirname_plain : Path.dirname "latest" = "".
Proof. reflexivity. Qed.
Example dirname_root : Path.dirname "/meta.json" = "/".
Proof. reflexivity. Qed.
Example dirname_dslash : Path.dirname "b//meta.json" = "b".
Proof. reflexivity. Qed.
Example join_ex : Path.join "b" "img" = "b/img" /\ Path.join "b/" "img" = "b/img" /\ Path.join "b" "/x" = "/x".
Proof. repeat split; reflexivity. Qed.

Example sha256_empty :
  hashlib.hexdigest hashlib.sha256
  = "e3b0c44298fc1c149afbf4c8996fb92427ae41e4649b934ca495991b7852b855".
Proof. vm_compute. reflexivity. Qed.

Example sha256_abc :
  hashlib.hexdigest (hashlib.update hashlib.sha256 ["a"%byte; "b"%byte; "c"%byte])
  = "ba7816bf8f01cfea414140de5dae2223b00361a396177a9cb410ff61f20015ad".
Proof. vm_compute. reflexivity. Qed.

Example ref_loads :
  RefHost.loads (RefHost.dumps (JObj [("a", JNum (-12)); ("b", JArr [JStr "x\y"; JNull; JObj []])]))
  = Some (JObj [("a", JNum (-12)); ("b", JArr [JStr "x\y"; JNull; JObj []])]).
Proof. vm_compute. reflexivity. Qed.

(** ** Dictionaries *)

Lemma Dict_get_set_eq {V} (k : string) (v : V) d : Dict.get k (Dict.set k v d) = Some v.
Proof.
  induction d as [|[k' v'] d IH]; simpl.
  - now rewrite String.eqb_refl.
  - destruct (String.eqb k k') eqn:E; simpl; rewrite E; auto.
Qed.

Lemma Dict_get_set_ne {V} (k k0 : string) (v : V) d :
  k <> k0 -> Dict.get k (Dict.set k0 v d) = Dict.get k d.
Proof.
  intros Hne. induction d as [|[k' v'] d IH]; simpl.
  - destruct (String.eqb_spec k k0); congruence.
  - destruct (String.eqb_spec k0 k'); simpl.
    + subst. destruct (String.eqb_spec k k'); congruence.
    + destruct (String.eqb_spec k k'); auto.
Qed.

Lemma Dict_get_notin {V} (k : string) (d : list (string * V)) :
  ~ In k (Dict.keys d) -> Dict.get k d = None.
Proof.
  induction d as [|[k' v'] d IH]; simpl; auto.
  intros Hn. destruct (String.eqb_spec k k'); [subst; tauto | apply IH; tauto].
Qed.

(** Last write wins, field by field: after [d.update(u)] a key of [u] holds
    the value [u] gives it, every other key keeps the value it had in [d]. *)
Lemma Dict_update_last_write_wins {V} (k : string) (d u : list (string * V)) :
  List.NoDup (Dict.keys u) ->
  Dict.get k (Dict.update d u)
  = match Dict.get k u with Some v => Some v | None => Dict.get k d end.
Proof.
  revert d. induction u as [|[k0 v0] u IH]; intros d Hnd; simpl; auto.
  inversion Hnd as [|? ? Hnotin Hnd']; subst.
  rewrite IH by assumption.
  destruct (String.eqb_spec k k0) as [->|Hne].
  - rewrite (Dict_get_notin k0 u Hnotin). apply Dict_get_set_eq.
  - destruct (Dict.get k u); auto. now apply Dict_get_set_ne.
Qed.

(** ** Images and artifacts: the unset image name *)

Section Artifact.
Context `{Host} `{BuildKind}.

(** C10: while no image name has been assigned, [image_name] and
    [image_path] raise NotImplementedError, and so do [have_artifact] and
    [ensure_built], which neither answer false nor act as a no-op; once a
    name [n] is assigned, [have_artifact] answers whether [build_dir/n]
    exists. *)
Theorem image_name_unset_raises (h : handle) (w : world) :
  _image_name h = None ->
  _Build.image_name (h, w) = (Raise NoImageName, (h, w))
  /\ _Build.image_path (h, w) = (Raise NoImageName, (h, w))
  /\ _Build.have_artifact (h, w) = (Raise NoImageName, (h, w))
  /\ _Build.ensure_built (h, w) = (Raise NoImageName, (h, w))
  /\ forall n,
       _Build.have_artifact (_Build.image_name_setter n (h, w)).2
       = (Ok (FS.exists_ (Path.join (_build_dir h) n) (w_fs w)),
          (set_image_name (Some n) h, w)).
Proof.
  intros Hn.
  assert (Hi : _Build.image_name (h, w) = (Raise NoImageName, (h, w))).
  { unfold _Build.image_name, _Build.self, bind, gets. simpl. now rewrite Hn. }
  assert (Hp : _Build.image_path (h, w) = (Raise NoImageName, (h, w))).
  { unfold _Build.image_path, _Build.build_dir, _Build.self, bind, gets in *.
    simpl in *. now rewrite Hi. }
  assert (Ha : _Build.have_artifact (h, w) = (Raise NoImageName, (h, w))).
  { unfold _Build.have_artifact, bind. now rewrite Hp. }
  repeat split; auto.
  - unfold _Build.ensure_built, bind. now rewrite Ha.
  - intros n.
    unfold _Build.have_artifact, _Build.image_path, _Build.image_name,
      _Build.image_name_setter, _Build.build_dir, _Build.self, _Build.set_self,
      bind, gets, modify, ret. simpl.
    now destruct (FS.exists_ _ _).
Qed.

End Artifact.

(** ** Build coordination *)

Section Coordination.
Context `{Host} `{BuildKind}.

Lemma produced_emit_log lvl msg args w :
  produced (emit (Log lvl msg args) w) = produced w.
Proof.
  unfold produced, emit; simpl. rewrite List.filter_app, length_app. simpl. lia.
Qed.

Lemma produced_emit_Produce w : produced (emit Produce w) = S (produced w).
Proof.
  unfold produced, emit; simpl. rewrite List.filter_app, length_app. simpl. lia.
Qed.

Lemma produced_set_fs s w : produced (set_fs s w) = produced w.
Proof. reflexivity. Qed.

Lemma have_artifact_pure (s : state) : (_Build.have_artifact s).2 = s.
Proof.
  destruct s as [h w].
  unfold _Build.have_artifact, _Build.image_path, _Build.image_name,
    _Build.build_dir, _Build.self, bind, gets, ret, raise; simpl.
  destruct (_image_name h); simpl; [|reflexivity].
  now destruct (FS.exists_ _ _).
Qed.

(** One call of [build_artifacts] enters the production hook exactly once,
    whether the hook returns or raises. *)
Lemma build_artifacts_produces_once args kw (s : state) :
  produced (_Build.build_artifacts args kw s).2.2 = S (produced s.2).
Proof.
  destruct s as [h w].
  unfold _Build.build_artifacts, _Build._build_artifacts, _Build.log,
    _Build.self, bind, gets, modify, ret; simpl.
  destruct (produce args kw _) as [[[]|e] [h' fs']]; simpl.
  - destruct (length (Dict.keys (_found_files h')) =? 0)%nat; simpl;
      rewrite ?produced_emit_log, ?produced_set_fs, produced_emit_Produce,
        produced_emit_log; reflexivity.
  - now rewrite produced_set_fs, produced_emit_Produce, produced_emit_log.
Qed.

(** C5: [ensure_built] enters artifact production exactly when
    [have_artifact] answers false.  When the artifact exists the call
    returns with the state untouched, so that a second call finds the same
    state and the hook is entered zero times in total; when
    [have_artifact] answers false the call is [build_artifacts()], which
    enters the hook once; when [have_artifact] raises, the exception
    propagates and the hook is not entered. *)
Theorem ensure_built_coordinates (s : state) :
  match (_Build.have_artifact s).1 with
  | Ok true =>
      _Build.ensure_built s = (Ok tt, s)
      /\ _Build.ensure_built (_Build.ensure_built s).2 = (Ok tt, s)
      /\ produced (_Build.ensure_built (_Build.ensure_built s).2).2.2 = produced s.2
  | Ok false =>
      _Build.ensure_built s = _Build.build_artifacts [] [] s
      /\ produced (_Build.ensure_built s).2.2 = S (produced s.2)
  | Raise e =>
      _Build.ensure_built s = (Raise e, s)
      /\ produced (_Build.ensure_built s).2.2 = produced s.2
  end.
Proof.
  pose proof (have_artifact_pure s) as Hs.
  destruct (_Build.have_artifact s) as [r s'] eqn:Ha. simpl in Hs. subst s'.
  assert (He : forall b, r = Ok b ->
            _Build.ensure_built s
            = if negb b then _Build.build_artifacts [] [] s else (Ok tt, s)).
  { intros b ->. unfold _Build.ensure_built, bind. rewrite Ha.
    now destruct b. }
  simpl. destruct r as [[|]|e].
  - rewrite (He true eq_refl). simpl. rewrite (He true eq_refl). auto.
  - rewrite (He false eq_refl). simpl. split; auto.
    apply build_artifacts_produces_once.
  - unfold _Build.ensure_built, bind. rewrite Ha. auto.
Qed.

End Coordination.

(** ** Document lookups *)

Section Lookups.
Context `{Host} `{BuildKind}.

Lemma is_None_false v : v <> JNull -> is_None v = false.
Proof. destruct v; simpl; congruence. Qed.

Lemma slot_property_cached k get (h : handle) (w : world) :
  get (_build_json h) <> JNull ->
  _Build.slot_property k get (h, w) = (Ok (get (_build_json h)), (h, w)).
Proof.
  intros Hv. unfold _Build.slot_property, _Build.self, bind, gets, ret; simpl.
  now rewrite (is_None_false _ Hv).
Qed.

(** On a handle whose four documents are cached, [get_obj] is a lookup
    among them that leaves the state alone. *)
Lemma get_obj_cached key (h : handle) (w : world) :
  cached h ->
  _Build.get_obj key (h, w)
  = match Dict.get key (documents h) with
    | Some v => (Ok v, (h, w))
    | None => (Raise (UnknownKey key), (h, w))
    end.
Proof.
  intros (Hc & Hf & Hi & Hm).
  unfold _Build.get_obj, _Build.commit, _Build.config, _Build.image, _Build.meta, bind.
  rewrite !slot_property_cached by assumption.
  unfold documents. now destruct (Dict.get key _).
Qed.

Lemma unknown_key_lookup {V} key (c cf i m : V) :
  ~ In key ["commit"; "config"; "image"; "meta"] ->
  Dict.get key [("commit", c); ("config", cf); ("image", i); ("meta", m)] = None.
Proof. intros Hn. now apply Dict_get_notin. Qed.

(** C6: for a key outside commit, config, image and meta, [get_obj] never
    returns a value, be it a document or [None]: it raises.  On a handle
    whose four documents are cached, as construction leaves them, what it
    raises is the BuildError that names the invalid key, and the state is
    left as it was. *)
Theorem get_obj_unknown_key (key : string) (s : state) :
  ~ In key ["commit"; "config"; "image"; "meta"] ->
  (exists e, (_Build.get_obj key s).1 = Raise e)
  /\ (cached s.1 -> _Build.get_obj key s = (Raise (UnknownKey key), s)).
Proof.
  intros Hk. split.
  - unfold _Build.get_obj, bind.
    destruct (_Build.commit s) as [[c|e] s1]; [|eauto].
    destruct (_Build.config s1) as [[cf|e] s2]; [|eauto].
    destruct (_Build.image s2) as [[i|e] s3]; [|eauto].
    destruct (_Build.meta s3) as [[m|e] s4]; [|eauto].
    rewrite unknown_key_lookup by assumption. simpl. eauto.
  - destruct s as [h w]. intros Hc. rewrite get_obj_cached by assumption.
    unfold documents. now rewrite unknown_key_lookup.
Qed.

End Lookups.

(** ** Teardown *)

Section Teardown.
Context `{Host} `{BuildKind}.

(** C9, where the code departs from it.  [__del__] removes the scratch
    directory, but the removal is not best-effort: when it fails, the
    handler of the [try] does not absorb the failure, it raises a new
    Exception that carries the message "failed to remove temporary
    directory: <tmpdir>" and the original error, and this exception leaves
    the method.  A caller that invokes the method receives it; when the
    interpreter runs the method as the finalizer of the object, it is the
    interpreter, not this code, that reports the exception on the error
    stream and drops it. *)
Theorem del_reraises_removal_failure (h : handle) (w : world) :
  match FS.rmtree (_tmpdir h) (w_fs w) with
  | Ok s' => _Build.__del__ (h, w) = (Ok tt, (h, set_fs s' w))
  | Raise e =>
      _Build.__del__ (h, w)
      = (Raise (Exception_ ("failed to remove temporary directory: " ++ _tmpdir h) e),
         (h, w))
  end.
Proof.
  unfold _Build.__del__, except_Exception, _Build.lift, _Build.self, sys,
    bind, gets, raise; simpl.
  now destruct (FS.rmtree _ _).
Qed.

End Teardown.

(** ** Soft lookups and image naming *)

Section SoftLookups.
Context `{Host} `{BuildKind}.

Lemma get_meta_key_present obj key (h : handle) (w : world) d v :
  cached h ->
  Dict.get obj (documents h) = Some (JObj d) ->
  Dict.get key d = Some v ->
  _Build.get_meta_key obj key (h, w) = (Ok v, (h, w)).
Proof.
  intros Hc Ho Hk.
  unfold _Build.get_meta_key, except_KeyError, bind, of_result.
  rewrite get_obj_cached, Ho by assumption. simpl. now rewrite Hk.
Qed.

Lemma get_meta_key_absent obj key (h : handle) (w : world) d :
  cached h ->
  Dict.get obj (documents h) = Some (JObj d) ->
  Dict.get key d = None ->
  _Build.get_meta_key obj key (h, w)
  = (Ok JNull, (h, emit (missing_key_warning key) w)).
Proof.
  intros Hc Ho Hk.
  unfold _Build.get_meta_key, except_KeyError, bind, of_result.
  rewrite get_obj_cached, Ho by assumption. simpl. now rewrite Hk.
Qed.

Lemma get_sub_obj_document obj key sub (h : handle) (w : world) d :
  cached h ->
  Dict.get obj (documents h) = Some (JObj d) ->
  _Build.get_sub_obj (JStr obj) key sub (h, w)
  = except_KeyError
      (bind (of_result (subscript (JObj d) key))
            (fun v => of_result (subscript v sub)))
      (fun _ => bind (_Build.log WARNING (JObj d) []) (fun _ => ret JNull))
      (h, w).
Proof.
  intros Hc Ho. unfold _Build.get_sub_obj, recursion_limit.
  cbn [_Build.get_sub_obj_rec]. unfold bind at 1.
  rewrite get_obj_cached, Ho by assumption. reflexivity.
Qed.

(** C7 as the code has it: both soft lookups absorb a missing key and
    nothing else.  On a handle whose documents are cached, for a recognized
    key [obj] whose document is a JSON object [d]:
    - a field absent from [d] makes [get_meta_key] and [get_sub_obj] return
      [None] after one logged warning;
    - a field that holds an object lacking the subfield makes [get_sub_obj]
      return [None] after one logged warning;
    - a field that holds anything but an object makes [get_sub_obj] raise
      the TypeError of the subscript, which is not caught. *)
Theorem soft_lookups_absorb_missing_keys
    (obj key sub : string) (h : handle) (w : world) d :
  cached h ->
  Dict.get obj (documents h) = Some (JObj d) ->
  (Dict.get key d = None ->
     _Build.get_meta_key obj key (h, w)
     = (Ok JNull, (h, emit (missing_key_warning key) w))
     /\ _Build.get_sub_obj (JStr obj) key sub (h, w)
        = (Ok JNull, (h, emit (Log WARNING (JObj d) []) w)))
  /\ (forall d2, Dict.get key d = Some (JObj d2) -> Dict.get sub d2 = None ->
        _Build.get_sub_obj (JStr obj) key sub (h, w)
        = (Ok JNull, (h, emit (Log WARNING (JObj d) []) w)))
  /\ (forall v, Dict.get key d = Some v -> (forall d2, v <> JObj d2) ->
        exists msg,
          _Build.get_sub_obj (JStr obj) key sub (h, w) = (Raise (TypeError msg), (h, w))).
Proof.
  intros Hc Ho. split; [intros Habsent; split | split].
  - now apply get_meta_key_absent with (d := d).
  - rewrite (get_sub_obj_document _ _ _ _ _ d) by assumption.
    unfold except_KeyError, bind, of_result; simpl. now rewrite Habsent.
  - intros d2 Hk Hs.
    rewrite (get_sub_obj_document _ _ _ _ _ d) by assumption.
    unfold except_KeyError, bind, of_result; simpl. rewrite Hk; simpl. now rewrite Hs.
  - intros v Hk Hv.
    rewrite (get_sub_obj_document _ _ _ _ _ d) by assumption.
    unfold except_KeyError, bind, of_result; simpl. rewrite Hk; simpl.
    destruct v; simpl; eauto. now destruct (Hv fields).
Qed.

(** C8 as the code has it: once an image name is assigned,
    [image_name_base] returns that name; while none is assigned it composes
    the name, the build id, the platform and the architecture as
    "{name}-{id}-{platform}.{arch}" and leaves the state alone. *)
Theorem image_name_base_composes
    (h : handle) (w : world) d (vn vi : json) (p : string) :
  cached h ->
  bj_meta (_build_json h) = JObj d ->
  Dict.get "name" d = Some vn ->
  Dict.get "buildid" d = Some vi ->
  platform = Some p ->
  (_image_name h = None ->
     _Build.image_name_base (h, w)
     = (Ok (py_str vn ++ "-" ++ py_str vi ++ "-" ++ p ++ "." ++ py_str (arch_of d)),
        (h, w)))
  /\ (forall v, _image_name h = Some v ->
        _Build.image_name_base (h, w) = (Ok v, (h, w))).
Proof.
  intros Hc Hm Hn Hi Hp. split.
  - intros Hnone.
    assert (Ho : Dict.get "meta" (documents h) = Some (JObj d)).
    { unfold documents; simpl. now rewrite Hm. }
    unfold _Build.image_name_base, _Build.build_name, _Build.build_id,
      _Build.basearch, _Build.meta.
    unfold bind at 1. unfold _Build.self at 1, gets at 1. cbn [fst snd].
    rewrite Hnone.
    unfold bind.
    rewrite (get_meta_key_present _ _ _ _ d vn) by assumption. simpl.
    rewrite (get_meta_key_present _ _ _ _ d vi) by assumption.
    rewrite Hp. simpl.
    destruct Hc as (_ & _ & _ & Hmeta).
    rewrite slot_property_cached by assumption.
    rewrite Hm. reflexivity.
  - intros v Hv.
    unfold _Build.image_name_base, _Build.self, bind, gets, ret; simpl.
    now rewrite Hv.
Qed.

End SoftLookups.

(** ** Artifact records *)

Lemma read_loop_fed (h : hashlib.sha256_obj) (data : bytes) :
  hashlib.fed (read_loop h data) = (hashlib.fed h ++ data)%list.
Proof.
  funelim (read_loop h data).
  - destruct unread as [|x r].
    + now rewrite app_nil_r.
    + pose proof CHUNK_pos. destruct CHUNK; [lia | discriminate].
  - rewrite H. unfold hashlib.update; simpl.
    rewrite <- e, <- app_assoc. now rewrite firstn_skipn.
Qed.

(** Streaming the file in chunks feeds the hash object every byte of the
    file once and in order. *)
Lemma read_loop_whole (data : bytes) :
  hashlib.hexdigest (read_loop hashlib.sha256 data)
  = hashlib.hex (hashlib.digest data).
Proof.
  unfold hashlib.hexdigest. do 2 f_equal.
  rewrite read_loop_fed. reflexivity.
Qed.

Lemma hex_length (r : hashlib.regs) : String.length (hashlib.hex r) = 64%nat.
Proof. reflexivity. Qed.

Lemma hexchar_lower (x : Z) : is_lower_hex (hashlib.hexchar x) = true.
Proof.
  unfold hashlib.hexchar.
  destruct (nth_in_or_default (Z.to_nat (Z.land x 15)) hashlib.hexdigits "f"%char)
    as [Hin | ->]; [|reflexivity].
  unfold is_lower_hex. apply existsb_exists. exists (nth (Z.to_nat (Z.land x 15)) hashlib.hexdigits "f"%char).
  split; [assumption | apply Ascii.eqb_refl].
Qed.

Lemma hex_lower (r : hashlib.regs) :
  forallb is_lower_hex (list_ascii_of_string (hashlib.hex r)) = true.
Proof.
  unfold hashlib.hex, hashlib.hex8. cbn [list_ascii_of_string forallb].
  rewrite !hexchar_lower. reflexivity.
Qed.

Lemma int_of_str_of_Z (z : Z) : int_of_str (str_of_Z z) = Ok z.
Proof.
  unfold int_of_str, str_of_Z.
  rewrite NilZero.isi.
  - now rewrite DecimalZ.of_to.
  - destruct z; simpl; try discriminate.
    intros [= E]. now apply DecimalPos.Unsigned.to_uint_nonnil in E.
  - destruct z; simpl; try discriminate.
    intros [= E]. now apply DecimalPos.Unsigned.to_uint_nonnil in E.
Qed.

Lemma file_at_read p s f : FS.file_at p s = Ok f -> FS.read p s = Ok (f_data f).
Proof. unfold FS.read. now intros ->. Qed.

Lemma file_at_st_size dsz p s f :
  FS.file_at p s = Ok f -> FS.st_size dsz p s = Ok (Z.of_nat (length (f_data f))).
Proof.
  unfold FS.file_at, FS.st_size.
  destruct (FS.lookup p s) as [[i|]|]; try discriminate.
  destruct (fs_inodes s !! i); [now intros [= ->] | discriminate].
Qed.

Section ArtifactRecord.
Context `{Host} `{BuildKind}.

(** C4 as the code has it: on a handle whose image name [n] is set and
    whose image file exists, [get_artifact_meta] of an existing file (of
    the image itself when the name is omitted) returns a record with the
    fields [path], [sha256sum] and [size]: [path] is the name; [sha256sum]
    is the SHA-256 digest of the bytes of that file, read in chunks of
    128 KiB, as 64 lowercase hexadecimal characters; [size] is a
    non-negative integer, the byte length of that file when the name is
    the image name. *)
Theorem get_artifact_meta_record
    (h : handle) (w : world) (n : string) (fname : option string) (img art : file) :
  _image_name h = Some n ->
  FS.file_at (Path.join (_build_dir h) n) (w_fs w) = Ok img ->
  FS.file_at (Path.join (_build_dir h) (name_or n fname)) (w_fs w) = Ok art ->
  exists size,
    _Build.get_artifact_meta fname (h, w)
    = (Ok (JObj [("path", JStr (name_or n fname));
                 ("sha256sum", JStr (hashlib.hex (hashlib.digest (f_data art))));
                 ("size", JNum size)]),
       (h, emit (calculating (name_or n fname)) w))
    /\ String.length (hashlib.hex (hashlib.digest (f_data art))) = 64%nat
    /\ forallb is_lower_hex
         (list_ascii_of_string (hashlib.hex (hashlib.digest (f_data art)))) = true
    /\ 0 <= size
    /\ (name_or n fname = n -> size = Z.of_nat (length (f_data art))).
Proof.
  intros Hn Himg Hart.
  exists (Z.of_nat (length (f_data img))).
  split; [|split; [apply hex_length | split; [apply hex_lower | split; [lia|]]]].
  - unfold _Build.get_artifact_meta, _Build.image_path, _Build.image_name,
      _Build.build_dir, _Build.self, _Build.log, _Build.lift,
      cmdlib.sha256sum_file.
    unfold bind, gets, ret, of_result, modify. cbn [fst snd].
    rewrite Hn. cbn [fst snd].
    rewrite (file_at_st_size _ _ _ _ Himg).
    destruct fname as [f|]; cbn [name_or fst snd emit w_fs] in *.
    + rewrite (file_at_read _ _ _ Hart), read_loop_whole, int_of_str_of_Z. reflexivity.
    + rewrite Hn. cbn [fst snd emit w_fs].
      rewrite (file_at_read _ _ _ Hart), read_loop_whole, int_of_str_of_Z. reflexivity.
  - intros E. rewrite E in Hart. congruence.
Qed.

End ArtifactRecord.

(** ** Construction *)

Section Construction.
Context `{Host} `{BuildKind}.

Lemma load_json_world p w : (cmdlib.load_json p w).2 = w.
Proof.
  unfold cmdlib.load_json. destruct (FS.read p (w_fs w)); [|reflexivity].
  now destruct (json_loads _).
Qed.

Lemma load_json_fs p w w' :
  w_fs w = w_fs w' -> (cmdlib.load_json p w).1 = (cmdlib.load_json p w').1.
Proof.
  intros E. unfold cmdlib.load_json. rewrite E.
  destruct (FS.read p (w_fs w')); [|reflexivity].
  now destruct (json_loads _).
Qed.

Lemma slot_step_refl w p v : slot_step w p v v.
Proof. now left. Qed.

Lemma slot_step_trans w w' p a b c :
  w_fs w' = w_fs w -> slot_step w p a b -> slot_step w' p b c -> slot_step w p a c.
Proof.
  intros E Hab Hbc. unfold slot_step in *.
  rewrite (load_json_fs p w' w E) in Hbc.
  destruct Hab as [Eab|[Ea Hl]], Hbc as [Ebc|[Eb Hl']]; subst; auto.
Qed.

Lemma lazy_step_refl s : lazy_step s s.
Proof.
  destruct s as [h w]. repeat split.
  unfold documents; simpl.
  repeat constructor; simpl; eauto using slot_step_refl.
Qed.

Lemma lazy_step_trans s1 s2 s3 :
  lazy_step s1 s2 -> lazy_step s2 s3 -> lazy_step s1 s3.
Proof.
  destruct s1 as [h1 w1], s2 as [h2 w2], s3 as [h3 w3].
  unfold lazy_step, documents; simpl.
  intros (E1 & B1 & F1) (E2 & B2 & F2).
  split; [congruence|]. split; [congruence|].
  rewrite B1 in F2.
  repeat match goal with
         | F : Forall2 _ (_ :: _) (_ :: _) |- _ => inversion F; clear F; subst
         | F : Forall2 _ [] [] |- _ => clear F
         end.
  simpl in *.
  repeat constructor; simpl;
    repeat match goal with
           | X : exists _, _ |- _ => destruct X as (? & ? & ?)
           | X : _ /\ _ |- _ => destruct X
           | X : Some _ = Some _ |- _ => injection X as <-
           end;
    eexists; (split; [reflexivity|]); eapply slot_step_trans; eauto.
Qed.

Lemma lazy_ret {A} (a : A) : lazy (ret a).
Proof. intros s. apply lazy_step_refl. Qed.

Lemma lazy_raise {A} e : lazy (@raise state A e).
Proof. intros s. apply lazy_step_refl. Qed.

Lemma lazy_of_result {A} (r : result A) : lazy (of_result r).
Proof. intros s. apply lazy_step_refl. Qed.

Lemma lazy_bind {A B} (m : SE state A) (k : A -> SE state B) :
  lazy m -> (forall a, lazy (k a)) -> lazy (bind m k).
Proof.
  intros Hm Hk s. unfold bind. specialize (Hm s).
  destruct (m s) as [[a|e] s1]; simpl in *; auto.
  eapply lazy_step_trans; [exact Hm | apply Hk].
Qed.

Lemma lazy_self {A} (f : handle -> A) : lazy (_Build.self f).
Proof. intros s. apply lazy_step_refl. Qed.

Lemma lazy_log lvl msg args : lazy (_Build.log lvl msg args).
Proof.
  intros [h w]. unfold _Build.log, modify; simpl.
  repeat split. unfold documents; simpl.
  repeat constructor; simpl; eauto using slot_step_refl.
Qed.

Lemma lazy_set_image_name v : lazy (_Build.set_self (set_image_name v)).
Proof.
  intros [h w]. unfold _Build.set_self, modify; simpl.
  repeat split. unfold documents; simpl.
  repeat constructor; simpl; eauto using slot_step_refl.
Qed.

Lemma lazy_except_KeyError {A} (m : SE state A) handler :
  lazy m -> (forall k, lazy (handler k)) -> lazy (except_KeyError m handler).
Proof.
  intros Hm Hh s. unfold except_KeyError. specialize (Hm s).
  destruct (m s) as [[a|e] s1]; simpl in *; auto.
  destruct e; auto.
  eapply lazy_step_trans; [exact Hm | apply Hh].
Qed.

Lemma is_None_true v : is_None v = true -> v = JNull.
Proof. destruct v; simpl; congruence. Qed.

Lemma __file_eq var (h : handle) (w : world) :
  _Build.__file var (h, w)
  = match Dict.get var (document_files (_build_dir h)) with
    | Some p => (Ok p, (h, w))
    | None => (Raise (KeyError var), (h, w))
    end.
Proof.
  unfold _Build.__file, _Build.build_dir, _Build.self, bind, gets; cbn [fst snd].
  now destruct (Dict.get var (document_files (_build_dir h))).
Qed.

Lemma __get_json_eq k p (h : handle) (w : world) :
  Dict.get k (document_files (_build_dir h)) = Some p ->
  _Build.__get_json k (h, w)
  = ((cmdlib.load_json p (emit (reading p) w)).1, (h, emit (reading p) w)).
Proof.
  intros Hp. unfold _Build.__get_json, bind. rewrite __file_eq, Hp.
  unfold _Build.log, _Build.lift, modify; cbn [fst snd].
  pose proof (load_json_world p (emit (reading p) w)) as Hw.
  unfold reading in *.
  destruct (cmdlib.load_json p _) as [r w']; simpl in *. now subst.
Qed.

Lemma slot_property_eq k get (h : handle) (w : world) :
  _Build.slot_property k get (h, w)
  = if is_None (get (_build_json h))
    then match _Build.__get_json k (h, w) with
         | (Ok v, (h', w')) =>
             (Ok (get (_build_json (set_slot k v h'))), (set_slot k v h', w'))
         | (Raise e, s') => (Raise e, s')
         end
    else (Ok (get (_build_json h)), (h, w)).
Proof.
  unfold _Build.slot_property, _Build.self, _Build.set_self, bind, gets, modify, ret.
  cbn [fst snd].
  destruct (is_None (get (_build_json h))); [|reflexivity].
  now destruct (_Build.__get_json k (h, w)) as [[v|e] [h' w']].
Qed.

(** Reading one of the four properties is a lazy step that returns what
    the slot holds afterwards. *)
Lemma property_step k get (s : state) r s' :
  In (k, get) slot_getters ->
  _Build.slot_property k get s = (r, s') ->
  lazy_step s s' /\ forall v, r = Ok v -> get (_build_json s'.1) = v.
Proof.
  destruct s as [h w]. intros Hin. rewrite slot_property_eq.
  destruct (is_None (get (_build_json h))) eqn:Hc.
  2:{ intros [= <- <-]. split; [apply lazy_step_refl | now intros v [= <-]]. }
  apply is_None_true in Hc.
  unfold slot_getters in Hin. simpl in Hin.
  destruct Hin as [E|[E|[E|[E|[]]]]]; injection E as <- <-;
    (erewrite __get_json_eq by reflexivity);
    match goal with
    | |- context [cmdlib.load_json ?p ?w1] =>
        pose proof (load_json_fs p w1 w eq_refl) as Hf;
        destruct (cmdlib.load_json p w1) as [[v|e] w2]; cbn [fst snd] in *
    end;
    intros [= <- <-];
    (split; [|first [now intros v' [= <-] | discriminate]]);
    repeat split; unfold documents;
      cbn [fst snd set_slot _build_json _build_dir
           bj_commit bj_config bj_image bj_meta String.eqb Ascii.eqb Bool.eqb];
    repeat constructor; cbn [fst snd];
    (eexists; split; [reflexivity|]);
    first [ apply slot_step_refl | right; split; [assumption | symmetry; exact Hf] ].
Qed.

Lemma lazy_property k get :
  In (k, get) slot_getters -> lazy (_Build.slot_property k get).
Proof.
  intros Hin s. destruct (_Build.slot_property k get s) as [r s'] eqn:E.
  now apply (property_step k get s r s' Hin).
Qed.

Lemma In_commit : In ("commit", bj_commit) slot_getters.
Proof. simpl; auto. Qed.
Lemma In_config : In ("config", bj_config) slot_getters.
Proof. simpl; auto. Qed.
Lemma In_image : In ("image", bj_image) slot_getters.
Proof. simpl; auto. Qed.
Lemma In_meta : In ("meta", bj_meta) slot_getters.
Proof. simpl; auto 6. Qed.

Lemma lazy_get_obj key : lazy (_Build.get_obj key).
Proof.
  unfold _Build.get_obj, _Build.commit, _Build.config, _Build.image, _Build.meta.
  repeat (apply lazy_bind; [apply lazy_property; auto using In_commit, In_config, In_image, In_meta | intros ?]).
  destruct (Dict.get key _); [apply lazy_ret | apply lazy_raise].
Qed.

Lemma lazy_get_meta_key obj key : lazy (_Build.get_meta_key obj key).
Proof.
  unfold _Build.get_meta_key. apply lazy_except_KeyError.
  - apply lazy_bind; [apply lazy_get_obj | intros; apply lazy_of_result].
  - intros. apply lazy_bind; [apply lazy_log | intros; apply lazy_ret].
Qed.

Lemma lazy_basearch : lazy _Build.basearch.
Proof.
  unfold _Build.basearch, _Build.meta.
  apply lazy_bind; [apply lazy_property, In_meta | intros; apply lazy_of_result].
Qed.

(** A slot that holds a document keeps it through a lazy step. *)
Lemma lazy_step_keeps k get (s s' : state) :
  In (k, get) slot_getters ->
  lazy_step s s' ->
  get (_build_json s.1) <> JNull ->
  get (_build_json s'.1) = get (_build_json s.1).
Proof.
  destruct s as [h w], s' as [h' w']. unfold lazy_step, documents; simpl.
  intros Hin (_ & _ & F) Hv.
  repeat match goal with
         | F : Forall2 _ (_ :: _) (_ :: _) |- _ => inversion F; clear F; subst
         | F : Forall2 _ [] [] |- _ => clear F
         end.
  simpl in *.
  repeat match goal with
         | X : exists _, _ |- _ => destruct X as (? & ? & ?)
         | X : _ /\ _ |- _ => destruct X
         end.
  unfold slot_step in *.
  destruct Hin as [E|[E|[E|[E|[]]]]]; injection E as <- <-; intuition congruence.
Qed.

Lemma check_loaded_ok k get (s s' : state) :
  In (k, get) slot_getters ->
  _Build.check_loaded k (_Build.slot_property k get) s = (Ok tt, s') ->
  lazy_step s s' /\ get (_build_json s'.1) <> JNull.
Proof.
  intros Hin. unfold _Build.check_loaded. unfold bind at 1.
  destruct (_Build.slot_property k get s) as [[v|e] s1] eqn:E; [|discriminate].
  destruct (property_step k get s _ s1 Hin E) as [Hl Hv].
  specialize (Hv v eq_refl).
  destruct (is_None v) eqn:Hn.
  - unfold bind, raise. destruct (_Build.__file k s1) as [[?|?] ?]; discriminate.
  - intros [= <-]. split; auto. rewrite Hv. destruct v; simpl in Hn; congruence.
Qed.

(** The part of [validate] after the four checks. *)
Lemma lazy_validate_tail :
  lazy (bind (_Build.set_self (set_image_name None)) (fun _ =>
        bind _Build.summary (fun sm =>
        bind _Build.build_name (fun bn =>
        bind _Build.basearch (fun ba =>
        bind _Build.build_id (fun bi =>
        _Build.log INFO (JStr "Proccessed build for: %s (%s-%s) %s")
                   [sm; JStr (upper bn); ba; bi])))))).
Proof.
  unfold _Build.summary, _Build.build_name, _Build.build_id.
  repeat first
    [ apply lazy_set_image_name | apply lazy_get_meta_key | apply lazy_basearch
    | apply lazy_log | apply lazy_ret
    | apply lazy_bind; [|intros ?] ].
Qed.

(** When [validate] returns, the four slots hold documents, each either
    the one the slot held before or the one loaded from its file. *)
Lemma validate_ok (s s' : state) :
  _Build.validate s = (Ok tt, s') -> lazy_step s s' /\ cached s'.1.
Proof.
  unfold _Build.validate, _Build.commit, _Build.config, _Build.image, _Build.meta.
  unfold bind at 1.
  destruct (_Build.check_loaded "commit" _ s) as [[[]|e] s1] eqn:E1; [|discriminate].
  unfold bind at 1.
  destruct (_Build.check_loaded "config" _ s1) as [[[]|e] s2] eqn:E2; [|discriminate].
  unfold bind at 1.
  destruct (_Build.check_loaded "image" _ s2) as [[[]|e] s3] eqn:E3; [|discriminate].
  unfold bind at 1.
  destruct (_Build.check_loaded "meta" _ s3) as [[[]|e] s4] eqn:E4; [|discriminate].
  intros Et.
  apply (check_loaded_ok _ _ _ _ In_commit) in E1 as [L1 N1].
  apply (check_loaded_ok _ _ _ _ In_config) in E2 as [L2 N2].
  apply (check_loaded_ok _ _ _ _ In_image) in E3 as [L3 N3].
  apply (check_loaded_ok _ _ _ _ In_meta) in E4 as [L4 N4].
  pose proof (lazy_validate_tail s4) as L5. rewrite Et in L5. simpl in L5.
  assert (L34 : lazy_step s2 s4) by eauto using lazy_step_trans.
  assert (L24 : lazy_step s1 s4) by eauto using lazy_step_trans.
  split; [eauto using lazy_step_trans|].
  assert (L35 : lazy_step s3 s') by eauto using lazy_step_trans.
  assert (L25 : lazy_step s2 s') by eauto using lazy_step_trans.
  assert (L15 : lazy_step s1 s') by eauto using lazy_step_trans.
  unfold cached. repeat split.
  - now rewrite (lazy_step_keeps _ _ _ _ In_commit L15).
  - now rewrite (lazy_step_keeps _ _ _ _ In_config L25).
  - now rewrite (lazy_step_keeps _ _ _ _ In_image L35).
  - now rewrite (lazy_step_keeps _ _ _ _ In_meta L5).
Qed.

Lemma lazy_loaded (s s' : state) :
  lazy_step s s' ->
  _build_json s.1 = {| bj_commit := JNull; bj_config := JNull;
                       bj_image := JNull; bj_meta := JNull |} ->
  cached s'.1 ->
  forall k p,
    Dict.get k (document_files (_build_dir s'.1)) = Some p ->
    exists v, cmdlib.load_json p s'.2 = (Ok v, s'.2) /\ v <> JNull
              /\ Dict.get k (documents s'.1) = Some v.
Proof.
  destruct s as [h w], s' as [h' w']. unfold lazy_step, cached, documents; simpl.
  intros (Efs & Ebd & F) Ej (Nc & Nf & Ni & Nm) k p.
  rewrite Ej in F. simpl in F. rewrite Ebd.
  assert (Hload : forall q v, (cmdlib.load_json q w).1 = Ok v ->
                              cmdlib.load_json q w' = (Ok v, w')).
  { intros q v Hq. rewrite (load_json_fs q w w') in Hq by congruence.
    pose proof (load_json_world q w'). destruct (cmdlib.load_json q w'); simpl in *.
    congruence. }
  repeat match goal with
         | F : Forall2 _ (_ :: _) (_ :: _) |- _ => inversion F; clear F; subst
         | F : Forall2 _ [] [] |- _ => clear F
         end.
  simpl in *.
  repeat match goal with
         | X : exists _, _ |- _ => destruct X as (? & ? & ?)
         | X : _ /\ _ |- _ => destruct X
         | X : Some _ = Some _ |- _ => injection X as <-
         end.
  unfold slot_step in *.
  repeat match goal with
         | X : _ \/ _ |- _ => destruct X as [X|[_ X]]; [congruence|]
         end.
  destruct (k =? "commit")%string; [intros [= <-]; eauto|].
  destruct (k =? "config")%string; [intros [= <-]; eauto|].
  destruct (k =? "image")%string; [intros [= <-]; eauto|].
  destruct (k =? "meta")%string; [intros [= <-]; eauto|discriminate].
Qed.

(** C3: construction is all or nothing over the four documents.
    [__init__] is a total function that returns either an exception, and
    then no handle, or a handle; whenever it returns a handle, each of
    commit, config, image and meta is cached, is not [None], and is the
    document that its file loads to in the world construction leaves.
    Read backwards: when one of the four files fails to load, or loads to
    [None], the result is an exception. *)
Theorem construction_all_or_nothing (kw : kwargs) (w w' : world) (h : handle) :
  _Build.__init__ kw w = (Ok h, w') ->
  cached h
  /\ forall k p,
       Dict.get k (document_files (_build_dir h)) = Some p ->
       exists v, cmdlib.load_json p w' = (Ok v, w') /\ v <> JNull
                 /\ Dict.get k (documents h) = Some v.
Proof.
  unfold _Build.__init__. unfold bind at 1.
  destruct (Builds_open _ _) as [builds|e]; [|discriminate].
  unfold bind at 1.
  match goal with
  | |- context [(if ?c then ?a else ?b) w] => destruct ((if c then a else b) w) as [[build|e] w1]
  end; [|discriminate].
  unfold bind at 1, modify at 1.
  unfold bind at 1.
  destruct (tempfile.mkdtemp _ _) as [[td|e] w2]; [|discriminate].
  destruct (kw_workdir kw) as [[d|]|]; try discriminate.
  - unfold bind, modify.
    match goal with
    | |- context [_Build.validate ?s0] =>
        destruct (_Build.validate s0) as [[[]|e] [h' w3]] eqn:Ev; [|discriminate]
    end.
    intros [= <- <-]. apply validate_ok in Ev as [Hl Hc].
    split; [exact Hc|]. exact (lazy_loaded _ _ Hl eq_refl Hc).
  - unfold bind, modify.
    match goal with
    | |- context [_Build.validate ?s0] =>
        destruct (_Build.validate s0) as [[[]|e] [h' w3]] eqn:Ev; [|discriminate]
    end.
    intros [= <- <-]. apply validate_ok in Ev as [Hl Hc].
    split; [exact Hc|]. exact (lazy_loaded _ _ Hl eq_refl Hc).
Qed.

End Construction.

(** ** Persistence of the meta document *)

Section Persistence.
Context `{Host} `{BuildKind}.

(** A successful [mkstemp] loop has created one new, empty file, and has
    changed nothing else in the file system. *)
Lemma mkstemp_loop_ok tries dir pre (w w1 : world) fd file :
  tempfile.mkstemp_loop tries dir pre w = (Ok (fd, file), w1) ->
  FS.create_excl file tempfile.S_IRUSR_IWUSR (w_fs w) = Ok (fd, w_fs w1)
  /\ w_hist w1 = w_fs w1 :: w_hist w
  /\ w_bufs w1 = w_bufs w
  /\ w_environ w1 = w_environ w
  /\ w_log w1 = w_log w.
Proof.
  revert w. induction tries as [|n IH]; intros w; simpl; [discriminate|].
  destruct (FS.create_excl _ _ (w_fs w)) as [[fd' s']|e] eqn:E.
  - intros [= <- <- <-]. simpl. auto.
  - destruct e; try discriminate.
    intros Hrec. apply IH in Hrec. simpl in Hrec. exact Hrec.
Qed.

Lemma create_excl_ok p mode s fd s' :
  FS.create_excl p mode s = Ok (fd, s') ->
  FS.lookup p s = None
  /\ fd = fs_next s
  /\ fs_names s' = <[p := NFile fd]> (fs_names s)
  /\ fs_inodes s' = <[fd := {| f_data := []; f_mode := mode |}]> (fs_inodes s).
Proof.
  unfold FS.create_excl.
  destruct (FS.lookup p s); [discriminate|].
  destruct (FS.is_dir _ s); [|discriminate].
  intros [= <- <-]. simpl. auto.
Qed.

Lemma pending_set_buf f b w :
  tempfile.pending f (set_buf (tempfile.fileno f) (Some b) w) = b.
Proof. unfold tempfile.pending, set_buf; simpl. now rewrite lookup_insert_eq. Qed.

Lemma NamedTemporaryFile_ok dir (w : world) :
  is_Ok (tempfile.NamedTemporaryFile dir w).1 = true ->
  exists f w1,
    tempfile.NamedTemporaryFile dir w
    = (Ok f, set_buf (tempfile.fileno f) (Some []) w1)
    /\ FS.lookup (tempfile.name f) (w_fs w) = None
    /\ fs_names (w_fs w1) = <[tempfile.name f := NFile (tempfile.fileno f)]> (fs_names (w_fs w))
    /\ fs_inodes (w_fs w1)
       = <[tempfile.fileno f := {| f_data := []; f_mode := tempfile.S_IRUSR_IWUSR |}]>
           (fs_inodes (w_fs w))
    /\ w_hist w1 = w_fs w1 :: w_hist w
    /\ w_log w1 = w_log w.
Proof.
  unfold tempfile.NamedTemporaryFile, bind, modify, ret.
  destruct (tempfile.mkstemp_loop tempfile.TMP_MAX dir "tmp" w)
    as [[[fd tmp]|e] w1] eqn:Hmk; [|discriminate].
  intros _.
  apply mkstemp_loop_ok in Hmk as (Hc & Hh & Hb & He & Hl).
  apply create_excl_ok in Hc as (Hnone & Hfd & Hn & Hi).
  exists {| tempfile.name := tmp; tempfile.fileno := fd |}, w1. simpl. auto 10.
Qed.

Lemma flush_eq f (w : world) :
  tempfile.flush f w
  = (Ok tt,
     match tempfile.pending f w with
     | [] => w
     | b => set_buf (tempfile.fileno f) (Some [])
              (set_fs (FS.append (tempfile.fileno f) b (w_fs w)) w)
     end).
Proof. unfold tempfile.flush. now destruct (tempfile.pending f w). Qed.

(** What [flush] leaves on disk: the bytes already written followed by the
    pending ones; nothing stays pending. *)
Lemma flush_disk f (w : world) d m :
  fs_inodes (w_fs w) !! tempfile.fileno f = Some {| f_data := d; f_mode := m |} ->
  let w' := (tempfile.flush f w).2 in
  fs_inodes (w_fs w') !! tempfile.fileno f
  = Some {| f_data := (d ++ tempfile.pending f w)%list; f_mode := m |}
  /\ fs_names (w_fs w') = fs_names (w_fs w)
  /\ w_log w' = w_log w
  /\ tempfile.pending f w' = []
  /\ incl (w_hist w) (w_hist w').
Proof.
  intros Hd. rewrite flush_eq. cbn [snd].
  destruct (tempfile.pending f w) as [|b bs] eqn:Hp.
  - rewrite app_nil_r. repeat split; auto using incl_refl.
  - rewrite pending_set_buf. simpl. unfold FS.append; simpl.
    rewrite lookup_alter_eq, Hd. simpl.
    repeat split; auto using incl_tl, incl_refl.
Qed.

Lemma rename_ok src dst s n :
  fs_names s !! src = Some n ->
  fs_names s !! dst <> Some NDir ->
  FS.rename src dst s
  = Ok {| fs_names := <[dst := n]> (delete src (fs_names s));
          fs_inodes := fs_inodes s;
          fs_next := fs_next s |}.
Proof.
  unfold FS.rename, FS.lookup. intros -> Hd.
  destruct (fs_names s !! dst) as [[i|]|]; congruence.
Qed.

(** The end of [write_json]: the mode is set, the file is renamed over
    the target, and the file object is closed, which is when the bytes
    still pending reach the disk. *)
Lemma write_json_tail f path (w3 : world) d m0 :
  fs_names (w_fs w3) !! tempfile.name f = Some (NFile (tempfile.fileno f)) ->
  fs_inodes (w_fs w3) !! tempfile.fileno f = Some {| f_data := d; f_mode := m0 |} ->
  fs_names (w_fs w3) !! path <> Some NDir ->
  exists w',
    bind (sys_fd (FS.fchmod (tempfile.fileno f) cmdlib.S_0o644)) (fun _ =>
    bind (sys (FS.rename (tempfile.name f) path)) (fun _ =>
    tempfile.close f)) w3
    = (Ok tt, w')
    /\ FS.file_at path (w_fs w')
       = Ok {| f_data := (d ++ tempfile.pending f w3)%list; f_mode := cmdlib.S_0o644 |}
    /\ w_log w' = w_log w3
    /\ exists renamed,
         In renamed (w_hist w')
         /\ FS.file_at path renamed = Ok {| f_data := d; f_mode := cmdlib.S_0o644 |}.
Proof.
  intros Hn3 Hi3 Hd.
  unfold bind at 1. unfold sys_fd at 1.
  set (s4 := FS.fchmod (tempfile.fileno f) cmdlib.S_0o644 (w_fs w3)).
  assert (Hn4 : fs_names s4 = fs_names (w_fs w3)) by reflexivity.
  assert (Hi4 : fs_inodes s4 !! tempfile.fileno f
                = Some {| f_data := d; f_mode := cmdlib.S_0o644 |}).
  { subst s4. unfold FS.fchmod; simpl. now rewrite lookup_alter_eq, Hi3. }
  unfold bind at 1. unfold sys.
  change (w_fs (set_fs s4 w3)) with s4.
  rewrite (rename_ok _ _ s4 (NFile (tempfile.fileno f)))
    by (rewrite Hn4; assumption).
  set (s5 := {| fs_names := _; fs_inodes := fs_inodes s4; fs_next := fs_next s4 |}).
  set (w5 := set_fs s5 (set_fs s4 w3)).
  assert (Hp5 : tempfile.pending f w5 = tempfile.pending f w3) by reflexivity.
  assert (Hi5 : fs_inodes (w_fs w5) !! tempfile.fileno f
                = Some {| f_data := d; f_mode := cmdlib.S_0o644 |}) by exact Hi4.
  destruct (flush_disk f w5 _ _ Hi5) as (Hd6 & Hn6 & Hl6 & _ & Hh6).
  unfold tempfile.close, bind, modify.
  pose proof (flush_eq f w5) as E6.
  destruct (tempfile.flush f w5) as [r6 w6]. cbn [snd] in *.
  injection E6 as -> _.
  eexists. split; [reflexivity|].
  split; [|split; [exact Hl6|]].
  - unfold FS.file_at, FS.lookup. cbn [w_fs set_buf].
    rewrite Hn6. subst w5 s5. cbn [w_fs set_fs fs_names].
    rewrite lookup_insert_eq, Hd6, Hp5. reflexivity.
  - exists s5. split.
    + cbn [w_hist set_buf]. apply Hh6. subst w5. cbn [w_hist set_fs]. now left.
    + unfold FS.file_at, FS.lookup. subst s5. cbn [fs_names fs_inodes].
      rewrite lookup_insert_eq, Hi4. reflexivity.
Qed.

(** The body of [write_json] once the temporary file is open. *)
Lemma write_json_body f path data (w : world) m0 :
  tempfile.pending f w = [] ->
  fs_names (w_fs w) !! tempfile.name f = Some (NFile (tempfile.fileno f)) ->
  fs_inodes (w_fs w) !! tempfile.fileno f = Some {| f_data := []; f_mode := m0 |} ->
  fs_names (w_fs w) !! path <> Some NDir ->
  exists w',
    bind (cmdlib.json_dump data f) (fun _ =>
    bind (sys_fd (FS.fchmod (tempfile.fileno f) cmdlib.S_0o644)) (fun _ =>
    bind (sys (FS.rename (tempfile.name f) path)) (fun _ =>
    tempfile.close f))) w
    = (Ok tt, w')
    /\ FS.file_at path (w_fs w')
       = Ok {| f_data := json_dumps data; f_mode := cmdlib.S_0o644 |}
    /\ w_log w' = w_log w
    /\ (Z.of_nat (length (json_dumps data)) <= tempfile.DEFAULT_BUFFER_SIZE ->
        exists renamed,
          In renamed (w_hist w')
          /\ FS.file_at path renamed = Ok {| f_data := []; f_mode := cmdlib.S_0o644 |}).
Proof.
  intros Hp Hn Hi Hd.
  unfold cmdlib.json_dump, tempfile.write.
  unfold bind at 1. cbv beta zeta. rewrite Hp. cbn [app].
  set (b := json_dumps data).
  set (w2 := set_buf (tempfile.fileno f) (@Some (list byte) b) w).
  assert (Hp2 : tempfile.pending f w2 = b) by apply pending_set_buf.
  destruct (Z.of_nat (length b) <=? tempfile.DEFAULT_BUFFER_SIZE) eqn:Hsz.
  - destruct (write_json_tail f path w2 [] m0 Hn Hi Hd) as (w' & E & Hf & Hl & Hr).
    exists w'. rewrite Hp2 in Hf. auto.
  - destruct (flush_disk f w2 _ _ Hi) as (Hd' & Hn' & Hl' & Hp' & _).
    pose proof (flush_eq f w2) as Eq.
    destruct (tempfile.flush f w2) as [r3 w3]. cbn [snd] in Hd', Hn', Hl', Hp', Eq.
    assert (r3 = Ok tt) by congruence. subst r3. clear Eq.
    destruct (write_json_tail f path w3 _ m0
                ltac:(rewrite Hn'; exact Hn) Hd' ltac:(rewrite Hn'; exact Hd))
      as (w' & E & Hf & Hl & _).
    exists w'. rewrite Hp', app_nil_r, Hp2 in Hf. cbn [app] in Hf.
    split; [exact E|]. split; [exact Hf|]. split; [now rewrite Hl|].
    apply Z.leb_gt in Hsz. lia.
Qed.

(** When the temporary file can be created and the target is not a
    directory, [write_json] returns, and the target then names a file that
    holds the whole serialized document with mode 0o644. *)
Lemma write_json_ok path data (w : world) :
  is_Ok (tempfile.NamedTemporaryFile (Path.dirname path) w).1 = true ->
  FS.lookup path (w_fs w) <> Some NDir ->
  exists w',
    cmdlib.write_json path data w = (Ok tt, w')
    /\ FS.file_at path (w_fs w')
       = Ok {| f_data := json_dumps data; f_mode := cmdlib.S_0o644 |}
    /\ w_log w' = w_log w
    /\ (Z.of_nat (length (json_dumps data)) <= tempfile.DEFAULT_BUFFER_SIZE ->
        exists renamed,
          In renamed (w_hist w')
          /\ FS.file_at path renamed = Ok {| f_data := []; f_mode := cmdlib.S_0o644 |}).
Proof.
  intros Hok Hdir.
  apply NamedTemporaryFile_ok in Hok as (f & w1 & E & Hnone & Hn & Hi & Hh & Hl).
  unfold cmdlib.write_json. unfold bind at 1. rewrite E.
  destruct (write_json_body f path data
              (set_buf (tempfile.fileno f) (Some []) w1)
              tempfile.S_IRUSR_IWUSR) as (w' & E' & Hf & Hl' & Hr).
  - apply pending_set_buf.
  - cbn [w_fs set_buf]. rewrite Hn. apply lookup_insert_eq.
  - cbn [w_fs set_buf]. rewrite Hi. apply lookup_insert_eq.
  - cbn [w_fs set_buf]. rewrite Hn. rewrite lookup_insert.
    case_decide; [discriminate | exact Hdir].
  - exists w'. split; [exact E'|]. split; [exact Hf|]. split; [now rewrite Hl'|].
    exact Hr.
Qed.

Lemma load_json_read p (w : world) v :
  cmdlib.load_json p w = (Ok v, w) ->
  exists data, FS.read p (w_fs w) = Ok data /\ json_loads data = Some v.
Proof.
  unfold cmdlib.load_json. destruct (FS.read p (w_fs w)) as [data|e]; [|discriminate].
  destruct (json_loads data) eqn:E; [|discriminate].
  intros [= <-]. eauto.
Qed.

Lemma read_not_dir p s data : FS.read p s = Ok data -> FS.lookup p s <> Some NDir.
Proof.
  unfold FS.read, FS.file_at. destruct (FS.lookup p s) as [[i|]|]; congruence.
Qed.

Lemma meta_append_eq U (h : handle) (w : world) M :
  bj_meta (_build_json h) = JObj M ->
  _Build.meta_append U (h, w)
  = (Ok tt, (set_slot "meta" (JObj (Dict.update M U)) h, w)).
Proof.
  intros Hm. unfold _Build.meta_append, _Build.self, _Build.set_self,
    bind, gets, modify; cbn [fst snd]. now rewrite Hm.
Qed.

Lemma refresh_meta_eq (h : handle) (w : world) :
  _Build.refresh_meta (h, w)
  = match cmdlib.load_json (_build_dir h ++ "/meta.json")
            (emit (reading (_build_dir h ++ "/meta.json")) w) with
    | (Ok v, w') => (Ok tt, (set_slot "meta" v h, w'))
    | (Raise e, w') => (Raise e, (h, w'))
    end.
Proof.
  unfold _Build.refresh_meta. unfold bind at 1.
  erewrite __get_json_eq by reflexivity.
  pose proof (load_json_world (_build_dir h ++ "/meta.json")
                (emit (reading (_build_dir h ++ "/meta.json")) w)) as Hw.
  destruct (cmdlib.load_json _ _) as [[v|e] w']; cbn [fst snd] in *; now subst.
Qed.

(** C1 as the code has it.  Let the in-memory meta document be the object
    [M] and the document on disk be [D].  After [meta_append(U)],
    [meta_write()] and [refresh_meta()] the in-memory meta document is [M]
    shallow-merged with [U], which is [D] shallow-merged with [U] when the
    handle was in step with the disk ([M] is [D]); after [meta_append(U)]
    and [refresh_meta()] with no write in between it is [D], and [U] is
    gone.  The write needs a free temporary name in the directory of
    meta.json, and the reload parses what the write serialized. *)
Theorem merge_flush_reload
    (h : handle) (w : world) (M U : list (string * json)) (D : json) :
  bj_meta (_build_json h) = JObj M ->
  cmdlib.load_json (_build_dir h ++ "/meta.json") w = (Ok D, w) ->
  is_Ok (tempfile.NamedTemporaryFile
           (Path.dirname (_build_dir h ++ "/meta.json")) w).1 = true ->
  json_loads (json_dumps (JObj (Dict.update M U))) = Some (JObj (Dict.update M U)) ->
  (exists s',
      bind (_Build.meta_append U) (fun _ =>
      bind _Build.meta_write (fun _ => _Build.refresh_meta)) (h, w) = (Ok tt, s')
      /\ bj_meta (_build_json s'.1) = JObj (Dict.update M U)
      /\ (D = JObj M -> bj_meta (_build_json s'.1) = merged D U))
  /\ (exists s',
         bind (_Build.meta_append U) (fun _ => _Build.refresh_meta) (h, w) = (Ok tt, s')
         /\ bj_meta (_build_json s'.1) = D).
Proof.
  intros Hm HD Htmp Hrt.
  set (p := _build_dir h ++ "/meta.json") in *.
  set (X := JObj (Dict.update M U)) in *.
  set (h1 := set_slot "meta" X h).
  assert (Hp1 : _build_dir h1 ++ "/meta.json" = p) by reflexivity.
  destruct (load_json_read _ _ _ HD) as (data & Hread & Hparse).
  split.
  - unfold bind at 1. rewrite (meta_append_eq U h w M Hm). fold X h1.
    destruct (write_json_ok p X w Htmp (read_not_dir _ _ _ Hread))
      as (w' & Ew & Hf & Hl & _).
    unfold bind at 1. unfold _Build.meta_write. unfold bind at 1.
    rewrite __file_eq. cbn [Dict.get document_files String.eqb Ascii.eqb Bool.eqb].
    rewrite Hp1. unfold bind at 1. unfold _Build.self at 1, gets at 1.
    cbn [fst snd]. unfold _Build.lift. cbn [fst snd].
    change (bj_meta (_build_json h1)) with X. rewrite Ew.
    rewrite refresh_meta_eq, Hp1.
    unfold cmdlib.load_json. cbn [w_fs emit].
    rewrite (file_at_read _ _ _ Hf). cbn [f_data]. rewrite Hrt.
    eexists. split; [reflexivity|]. cbn [fst snd].
    split; [reflexivity|]. intros ->. reflexivity.
  - unfold bind at 1. rewrite (meta_append_eq U h w M Hm). fold X h1.
    rewrite refresh_meta_eq, Hp1.
    unfold cmdlib.load_json. cbn [w_fs emit]. rewrite Hread, Hparse.
    eexists. split; reflexivity.
Qed.

Lemma meta_write_eq (h : handle) (w : world) :
  _Build.meta_write (h, w)
  = match cmdlib.write_json (_build_dir h ++ "/meta.json") (bj_meta (_build_json h)) w with
    | (r, w') => (r, (h, w'))
    end.
Proof.
  unfold _Build.meta_write. unfold bind at 1.
  rewrite __file_eq. cbn [Dict.get document_files String.eqb Ascii.eqb Bool.eqb].
  reflexivity.
Qed.

(** C2, where the code departs from it.  [meta_write] does write the
    document to a temporary file next to meta.json, set its mode to 0o644
    and rename it over meta.json, and when it returns meta.json holds the
    whole new document.  But the rename comes before the bytes leave the
    buffer of the file object: for every document whose serialization fits
    the buffer, the file system went through a state in which meta.json is
    an empty file with mode 0o644, which is neither the old document nor
    the new one. *)
Theorem meta_write_exposes_an_empty_file (h : handle) (w : world) :
  is_Ok (tempfile.NamedTemporaryFile
           (Path.dirname (_build_dir h ++ "/meta.json")) w).1 = true ->
  FS.lookup (_build_dir h ++ "/meta.json") (w_fs w) <> Some NDir ->
  Z.of_nat (length (json_dumps (bj_meta (_build_json h)))) <= tempfile.DEFAULT_BUFFER_SIZE ->
  exists w' renamed,
    _Build.meta_write (h, w) = (Ok tt, (h, w'))
    /\ FS.file_at (_build_dir h ++ "/meta.json") (w_fs w')
       = Ok {| f_data := json_dumps (bj_meta (_build_json h)); f_mode := cmdlib.S_0o644 |}
    /\ In renamed (w_hist w')
    /\ FS.file_at (_build_dir h ++ "/meta.json") renamed
       = Ok {| f_data := []; f_mode := cmdlib.S_0o644 |}.
Proof.
  intros Htmp Hdir Hsz.
  destruct (write_json_ok _ (bj_meta (_build_json h)) w Htmp Hdir)
    as (w' & Ew & Hf & _ & Hr).
  destruct (Hr Hsz) as (renamed & Hin & Hfr).
  exists w', renamed. rewrite meta_write_eq, Ew. auto.
Qed.

End Persistence.

(** ** The properties on the concrete build *)

Section OnTheReferenceHost.
#[local] Existing Instance RefHost.host.
#[local] Existing Instance RefHost.qemu.

(** The constructed handle is in step with the disk: merging, writing and
    reloading yields the document on disk merged with the update. *)
Lemma merge_flush_reload_witness :
  (exists s',
      bind (_Build.meta_append Demo.update) (fun _ =>
      bind _Build.meta_write (fun _ => _Build.refresh_meta)) (Demo.h0, Demo.w1)
      = (Ok tt, s')
      /\ bj_meta (_build_json s'.1) = JObj (Dict.update Demo.meta_fields Demo.update)
      /\ (Demo.meta_doc = JObj Demo.meta_fields ->
          bj_meta (_build_json s'.1) = merged Demo.meta_doc Demo.update))
  /\ (exists s',
         bind (_Build.meta_append Demo.update) (fun _ => _Build.refresh_meta)
           (Demo.h0, Demo.w1) = (Ok tt, s')
         /\ bj_meta (_build_json s'.1) = Demo.meta_doc).
Proof.
  refine (merge_flush_reload Demo.h0 Demo.w1 Demo.meta_fields Demo.update
            Demo.meta_doc _ _ _ _); vm_compute; reflexivity.
Defined.

(** C1 as stated fails on a handle that carries an edit not yet written:
    the disk holds [Demo.meta_doc], the merge is empty, and yet the write
    and the reload leave a document with the field [pending]. *)
Lemma merge_flush_reload_out_of_step :
  cmdlib.load_json Demo.meta_path Demo.unsynced.2 = (Ok Demo.meta_doc, Demo.unsynced.2)
  /\ (merge_flush_reload_run [] Demo.unsynced).1 = Ok tt
  /\ bj_meta (_build_json (merge_flush_reload_run [] Demo.unsynced).2.1)
     = JObj Demo.unsynced_fields
  /\ bj_meta (_build_json (merge_flush_reload_run [] Demo.unsynced).2.1)
     <> merged Demo.meta_doc [].
Proof.
  split; [vm_compute; reflexivity|].
  split; [vm_compute; reflexivity|].
  split; [vm_compute; reflexivity|].
  vm_compute. discriminate.
Qed.

(** On the concrete build the serialized document fits the buffer: the
    file system goes through a state in which meta.json is empty. *)
Lemma meta_write_exposes_an_empty_file_witness :
  exists w' renamed,
    _Build.meta_write (Demo.unsynced.1, Demo.unsynced.2)
    = (Ok tt, (Demo.unsynced.1, w'))
    /\ FS.file_at (_build_dir Demo.unsynced.1 ++ "/meta.json") (w_fs w')
       = Ok {| f_data := json_dumps (bj_meta (_build_json Demo.unsynced.1));
               f_mode := cmdlib.S_0o644 |}
    /\ In renamed (w_hist w')
    /\ FS.file_at (_build_dir Demo.unsynced.1 ++ "/meta.json") renamed
       = Ok {| f_data := []; f_mode := cmdlib.S_0o644 |}.
Proof.
  refine (meta_write_exposes_an_empty_file Demo.unsynced.1 Demo.unsynced.2 _ _ _).
  - vm_compute. reflexivity.
  - vm_compute. discriminate.
  - vm_compute. discriminate.
Defined.

(** The states that meta.json and the temporary file went through during
    that [meta_write], most recent first: after the close of the file
    object, after the rename, after the change of mode, after the creation
    of the temporary file.  Between the rename and the close meta.json is
    empty, neither the old document nor the new. *)
Example meta_write_trace :
  (_Build.meta_write Demo.unsynced).1 = Ok tt
  /\ map (FS.file_at Demo.meta_path) (firstn 4 (w_hist (_Build.meta_write Demo.unsynced).2.2))
     = [Ok {| f_data := RefHost.dumps (JObj Demo.unsynced_fields);
              f_mode := cmdlib.S_0o644 |};
        Ok {| f_data := []; f_mode := cmdlib.S_0o644 |};
        Ok {| f_data := RefHost.dumps Demo.meta_doc; f_mode := cmdlib.S_0o644 |};
        Ok {| f_data := RefHost.dumps Demo.meta_doc; f_mode := cmdlib.S_0o644 |}]
  /\ map (FS.file_at (Path.join (Path.dirname Demo.meta_path) "tmp1"))
         (firstn 4 (w_hist (_Build.meta_write Demo.unsynced).2.2))
     = [Raise (FileNotFoundError (Path.join Demo.bd "tmp1"));
        Raise (FileNotFoundError (Path.join Demo.bd "tmp1"));
        Ok {| f_data := []; f_mode := cmdlib.S_0o644 |};
        Ok {| f_data := []; f_mode := tempfile.S_IRUSR_IWUSR |}]
  /\ RefHost.dumps Demo.meta_doc <> []
  /\ RefHost.dumps (JObj Demo.unsynced_fields) <> [].
Proof.
  split; [vm_compute; reflexivity|].
  split; [vm_compute; reflexivity|].
  split; [vm_compute; reflexivity|].
  split; vm_compute; discriminate.
Qed.

(** Construction succeeds on the concrete build: the four documents are
    cached and are what their files load to. *)
Lemma construction_all_or_nothing_witness :
  cached Demo.h0
  /\ forall k p,
       Dict.get k (document_files (_build_dir Demo.h0)) = Some p ->
       exists v, cmdlib.load_json p Demo.w1 = (Ok v, Demo.w1) /\ v <> JNull
                 /\ Dict.get k (documents Demo.h0) = Some v.
Proof.
  refine (construction_all_or_nothing Demo.kw0 Demo.w0 Demo.w1 Demo.h0 _).
  vm_compute. reflexivity.
Defined.

(** The record of the image itself on the concrete build. *)
Lemma get_artifact_meta_record_witness :
  exists size,
    _Build.get_artifact_meta None (Demo.h_img, Demo.w1)
    = (Ok (JObj [("path", JStr (name_or "disk.qcow2" None));
                 ("sha256sum", JStr (hashlib.hex (hashlib.digest (f_data Demo.image_file))));
                 ("size", JNum size)]),
       (Demo.h_img, emit (calculating (name_or "disk.qcow2" None)) Demo.w1))
    /\ String.length (hashlib.hex (hashlib.digest (f_data Demo.image_file))) = 64%nat
    /\ forallb is_lower_hex
         (list_ascii_of_string (hashlib.hex (hashlib.digest (f_data Demo.image_file)))) = true
    /\ 0 <= size
    /\ (name_or "disk.qcow2" None = "disk.qcow2" ->
        size = Z.of_nat (length (f_data Demo.image_file))).
Proof.
  refine (get_artifact_meta_record Demo.h_img Demo.w1 "disk.qcow2" None
            Demo.image_file Demo.image_file _ _ _); vm_compute; reflexivity.
Defined.

(** C4 as stated fails for a file other than the image: the record has no
    field [sha256], and its [size] is 3, the length of the image, while
    the named file holds one byte. *)
Lemma get_artifact_meta_other_file :
  FS.read (Path.join Demo.bd "other.bin") (w_fs Demo.w1) = Ok (Demo.ascii_bytes "x")
  /\ (_Build.get_artifact_meta (Some "other.bin") (Demo.h_img, Demo.w1)).1
     = Ok (JObj [("path", JStr "other.bin");
                 ("sha256sum",
                  JStr "2d711642b726b04401627ca9fbac32f5c8530fb1903cc4db02258717921a4881");
                 ("size", JNum 3)])
  /\ Dict.get "sha256"
       [("path", JStr "other.bin");
        ("sha256sum",
         JStr "2d711642b726b04401627ca9fbac32f5c8530fb1903cc4db02258717921a4881");
        ("size", JNum 3)] = None
  /\ 3 <> Z.of_nat (length (Demo.ascii_bytes "x")).
Proof.
  split; [vm_compute; reflexivity|].
  split; [vm_compute; reflexivity|].
  split; [vm_compute; reflexivity|].
  vm_compute. discriminate.
Qed.

(** The key [bogus] names no document. *)
Lemma get_obj_unknown_key_witness :
  (exists e, (_Build.get_obj "bogus" (Demo.h0, Demo.w1)).1 = Raise e)
  /\ (cached (Demo.h0, Demo.w1).1 ->
      _Build.get_obj "bogus" (Demo.h0, Demo.w1)
      = (Raise (UnknownKey "bogus"), (Demo.h0, Demo.w1))).
Proof.
  refine (get_obj_unknown_key "bogus" (Demo.h0, Demo.w1) _).
  simpl. intuition discriminate.
Defined.

(** The four documents of the constructed handle are cached. *)
Lemma cached_demo : cached Demo.h0.
Proof. vm_compute. repeat split; discriminate. Qed.

(** The meta document of the concrete build has no field [nokey]. *)
Lemma soft_lookups_absorb_missing_keys_witness :
  (Dict.get "nokey" Demo.meta_fields = None ->
     _Build.get_meta_key "meta" "nokey" (Demo.h0, Demo.w1)
     = (Ok JNull, (Demo.h0, emit (missing_key_warning "nokey") Demo.w1))
     /\ _Build.get_sub_obj (JStr "meta") "nokey" "x" (Demo.h0, Demo.w1)
        = (Ok JNull, (Demo.h0, emit (Log WARNING (JObj Demo.meta_fields) []) Demo.w1)))
  /\ (forall d2, Dict.get "nokey" Demo.meta_fields = Some (JObj d2) ->
        Dict.get "x" d2 = None ->
        _Build.get_sub_obj (JStr "meta") "nokey" "x" (Demo.h0, Demo.w1)
        = (Ok JNull, (Demo.h0, emit (Log WARNING (JObj Demo.meta_fields) []) Demo.w1)))
  /\ (forall v, Dict.get "nokey" Demo.meta_fields = Some v ->
        (forall d2, v <> JObj d2) ->
        exists msg,
          _Build.get_sub_obj (JStr "meta") "nokey" "x" (Demo.h0, Demo.w1)
          = (Raise (TypeError msg), (Demo.h0, Demo.w1))).
Proof.
  refine (soft_lookups_absorb_missing_keys "meta" "nokey" "x" Demo.h0 Demo.w1
            Demo.meta_fields _ _).
  - vm_compute. repeat split; discriminate.
  - vm_compute. reflexivity.
Defined.

(** C7 as stated fails when the field is there and holds a string: the
    name of the build has no subfield, and [get_sub_obj] raises. *)
Lemma get_sub_obj_raises_on_a_string_field :
  Dict.get "name" Demo.meta_fields = Some (JStr "fcos")
  /\ _Build.get_sub_obj (JStr "meta") "name" "x" (Demo.h0, Demo.w1)
     = (Raise (TypeError "string indices must be integers"), (Demo.h0, Demo.w1)).
Proof. split; vm_compute; reflexivity. Qed.

(** The constructed handle has no image name: the base name is composed. *)
Lemma image_name_base_composes_witness :
  (_image_name Demo.h0 = None ->
     _Build.image_name_base (Demo.h0, Demo.w1)
     = (Ok (py_str (JStr "fcos") ++ "-" ++ py_str (JStr "35.20220101.0") ++ "-"
              ++ "qemu" ++ "." ++ py_str (arch_of Demo.meta_fields)),
        (Demo.h0, Demo.w1)))
  /\ (forall v, _image_name Demo.h0 = Some v ->
        _Build.image_name_base (Demo.h0, Demo.w1) = (Ok v, (Demo.h0, Demo.w1))).
Proof.
  refine (image_name_base_composes Demo.h0 Demo.w1 Demo.meta_fields
            (JStr "fcos") (JStr "35.20220101.0") "qemu" _ _ _ _ _).
  - vm_compute. repeat split; discriminate.
  - vm_compute. reflexivity.
  - vm_compute. reflexivity.
  - vm_compute. reflexivity.
  - vm_compute. reflexivity.
Defined.

(** The example of the specification: name fcos, id 35.20220101.0,
    platform qemu, architecture x86_64. *)
Example image_name_base_fcos :
  (_Build.image_name_base (Demo.h0, Demo.w1)).1 = Ok "fcos-35.20220101.0-qemu.x86_64".
Proof. vm_compute. reflexivity. Qed.

(** C8 as stated fails once an image name is assigned: with the same name,
    id, platform and architecture the result is the assigned name. *)
Lemma image_name_base_returns_assigned_name :
  (_Build.image_name_base (Demo.h_img, Demo.w1)).1 = Ok "disk.qcow2"
  /\ "disk.qcow2" <> "fcos-35.20220101.0-qemu.x86_64".
Proof. split; [vm_compute; reflexivity | discriminate]. Qed.

(** A removal that fails: at a second teardown the scratch directory is
    already gone, and [__del__] raises. *)
Lemma del_raises_when_directory_is_gone :
  (_Build.__del__ (Demo.h0, Demo.w1)).1 = Ok tt
  /\ _Build.__del__ Demo.torn_down
     = (Raise (Exception_ "failed to remove temporary directory: /tmp/build_tmpd0"
                          (FileNotFoundError "/tmp/build_tmpd0")),
        Demo.torn_down).
Proof. split; vm_compute; reflexivity. Qed.

(** The constructed handle has no image name. *)
Lemma image_name_unset_raises_witness :
  _Build.image_name (Demo.h0, Demo.w1) = (Raise NoImageName, (Demo.h0, Demo.w1))
  /\ _Build.image_path (Demo.h0, Demo.w1) = (Raise NoImageName, (Demo.h0, Demo.w1))
  /\ _Build.have_artifact (Demo.h0, Demo.w1) = (Raise NoImageName, (Demo.h0, Demo.w1))
  /\ _Build.ensure_built (Demo.h0, Demo.w1) = (Raise NoImageName, (Demo.h0, Demo.w1))
  /\ forall n,
       _Build.have_artifact (_Build.image_name_setter n (Demo.h0, Demo.w1)).2
       = (Ok (FS.exists_ (Path.join (_build_dir Demo.h0) n) (w_fs Demo.w1)),
          (set_image_name (Some n) Demo.h0, Demo.w1)).
Proof.
  refine (image_name_unset_raises Demo.h0 Demo.w1 _). vm_compute. reflexivity.
Defined.

(** [ensure_built] on the concrete build: with the image on disk nothing
    is produced; without it production is entered once. *)
Example ensure_built_demo :
  produced (_Build.ensure_built (Demo.h_img, Demo.w1)).2.2 = produced Demo.w1
  /\ produced (_Build.ensure_built
                 (set_image_name (Some "missing.raw") Demo.h0, Demo.w1)).2.2
     = S (produced Demo.w1).
Proof. split; vm_compute; reflexivity. Qed.

End OnTheReferenceHost.

(** * Further properties *)

Section MoreLookups.
Context `{Host} `{BuildKind}.

Lemma meta_document (h : handle) d :
  bj_meta (_build_json h) = JObj d -> Dict.get "meta" (documents h) = Some (JObj d).
Proof. intros Hm. unfold documents; simpl. now rewrite Hm. Qed.

(** X1: [basearch] looks the architecture up under the key that [ckey]
    makes of "coreos-assembler.basearch", which is
    "coreos-assembler.coreos-assembler.basearch".  On a handle whose meta
    document is an object it returns the value under that doubled key, or the
    architecture of the host when the document has no such key, and leaves
    the state as it was; what the document records under
    "coreos-assembler.basearch" is not consulted. *)
Theorem basearch_reads_the_doubled_key (h : handle) (w : world) d :
  bj_meta (_build_json h) = JObj d ->
  _Build.basearch (h, w)
  = (Ok (match Dict.get "coreos-assembler.coreos-assembler.basearch" d with
         | Some v => v
         | None => JStr BASEARCH
         end), (h, w)).
Proof.
  intros Hm. unfold _Build.basearch, _Build.meta. unfold bind.
  rewrite slot_property_cached by (rewrite Hm; discriminate).
  rewrite Hm. reflexivity.
Qed.

(** X2: while no image name is assigned, [image_name_base] does not fail
    for a meta document that lacks the name or the build id: a field that is
    absent is written as the text None in the composed name, because
    [build_name] is [str] of what [get_meta_key] returns and the f-string
    formats [None].  The handle is left unchanged. *)
Theorem image_name_base_spells_missing_fields (h : handle) (w : world) d p :
  cached h ->
  bj_meta (_build_json h) = JObj d ->
  _image_name h = None ->
  platform = Some p ->
  (_Build.image_name_base (h, w)).1
  = Ok (field_str d "name" ++ "-" ++ field_str d "buildid" ++ "-" ++ p ++ "."
          ++ py_str (arch_of d))
  /\ (_Build.image_name_base (h, w)).2.1 = h
  /\ (Dict.get "name" d = None -> (_Build.build_name (h, w)).1 = Ok "None").
Proof.
  intros Hc Hm Hn Hp.
  pose proof (meta_document h d Hm) as Ho.
  assert (Hk : forall key w0,
             exists w1, _Build.get_meta_key "meta" key (h, w0)
                        = (Ok (match Dict.get key d with Some v => v | None => JNull end),
                           (h, w1))).
  { intros key w0. destruct (Dict.get key d) as [v|] eqn:E.
    - rewrite (get_meta_key_present _ _ _ _ d v) by assumption. eauto.
    - rewrite (get_meta_key_absent _ _ _ _ d) by assumption. eauto. }
  assert (Hs : forall key, py_str (match Dict.get key d with Some v => v | None => JNull end)
                           = field_str d key).
  { intros key. unfold field_str. now destruct (Dict.get key d). }
  split; [|split].
  - unfold _Build.image_name_base, _Build.build_name, _Build.build_id,
      _Build.basearch, _Build.meta.
    unfold bind at 1. unfold _Build.self at 1, gets at 1. cbn [fst snd].
    rewrite Hn. unfold bind.
    destruct (Hk "name" w) as (w1 & ->). cbn [ret].
    destruct (Hk "buildid" w1) as (w2 & ->).
    rewrite Hp. cbn [ret].
    destruct Hc as (_ & _ & _ & Hmeta).
    rewrite slot_property_cached by assumption.
    rewrite Hm. cbn [of_result _Build.dict_get_default fst]. unfold ret. cbn [fst].
    rewrite !Hs. reflexivity.
  - unfold _Build.image_name_base, _Build.build_name, _Build.build_id,
      _Build.basearch, _Build.meta.
    unfold bind at 1. unfold _Build.self at 1, gets at 1. cbn [fst snd].
    rewrite Hn. unfold bind.
    destruct (Hk "name" w) as (w1 & ->). cbn [ret].
    destruct (Hk "buildid" w1) as (w2 & ->).
    rewrite Hp. cbn [ret].
    destruct Hc as (_ & _ & _ & Hmeta).
    rewrite slot_property_cached by assumption.
    rewrite Hm. reflexivity.
  - intros Hnone. unfold _Build.build_name, bind.
    rewrite (get_meta_key_absent _ _ _ _ d) by assumption. reflexivity.
Qed.

(** X3: the soft lookups absorb a missing field, not an unknown document:
    for a document name outside commit, config, image and meta, both
    [get_meta_key] and [get_sub_obj] let the BuildError of [get_obj]
    through, and the state is unchanged. *)
Theorem unknown_document_is_not_absorbed (obj key sub : string) (h : handle) (w : world) :
  cached h ->
  ~ In obj ["commit"; "config"; "image"; "meta"] ->
  _Build.get_meta_key obj key (h, w) = (Raise (UnknownKey obj), (h, w))
  /\ _Build.get_sub_obj (JStr obj) key sub (h, w) = (Raise (UnknownKey obj), (h, w)).
Proof.
  intros Hc Hk.
  assert (Hg : _Build.get_obj obj (h, w) = (Raise (UnknownKey obj), (h, w))).
  { rewrite get_obj_cached by assumption. unfold documents.
    now rewrite unknown_key_lookup. }
  split.
  - unfold _Build.get_meta_key, except_KeyError, bind. now rewrite Hg.
  - unfold _Build.get_sub_obj, recursion_limit. cbn [_Build.get_sub_obj_rec].
    unfold bind. now rewrite Hg.
Qed.

(** X4: [ostree_commit] returns the field ostree-commit of the meta
    document, or [None] when the document has none, and changes nothing: it
    returns the same value as [get_meta_key("meta", "ostree-commit")], but
    where that one logs a warning for the missing field, [ostree_commit]
    logs nothing. *)
Theorem ostree_commit_is_silent (h : handle) (w : world) d :
  cached h ->
  bj_meta (_build_json h) = JObj d ->
  _Build.ostree_commit (h, w)
  = (Ok (match Dict.get "ostree-commit" d with Some v => v | None => JNull end), (h, w))
  /\ (_Build.get_meta_key "meta" "ostree-commit" (h, w)).1
     = (_Build.ostree_commit (h, w)).1
  /\ (Dict.get "ostree-commit" d = None ->
      (_Build.get_meta_key "meta" "ostree-commit" (h, w)).2
      = (h, emit (missing_key_warning "ostree-commit") w)).
Proof.
  intros Hc Hm.
  pose proof (meta_document h d Hm) as Ho.
  assert (E : _Build.ostree_commit (h, w)
              = (Ok (match Dict.get "ostree-commit" d with Some v => v | None => JNull end),
                 (h, w))).
  { unfold _Build.ostree_commit, _Build.meta, bind.
    destruct Hc as (_ & _ & _ & Hmeta).
    rewrite slot_property_cached by assumption. now rewrite Hm. }
  split; [exact E|]. rewrite E. cbn [fst].
  split.
  - destruct (Dict.get "ostree-commit" d) as [v|] eqn:Ek.
    + now rewrite (get_meta_key_present _ _ _ _ d v).
    + now rewrite (get_meta_key_absent _ _ _ _ d).
  - intros Hn. now rewrite (get_meta_key_absent _ _ _ _ d).
Qed.

(** X5: when meta.json cannot be loaded, [refresh_meta] raises the error
    of the load and the handle keeps the meta document it had: the slot is
    assigned only after the load has returned.  The DEBUG record of the
    read has been logged. *)
Theorem refresh_meta_failure_keeps_the_document (h : handle) (w : world) e :
  (cmdlib.load_json (_build_dir h ++ "/meta.json") w).1 = Raise e ->
  _Build.refresh_meta (h, w)
  = (Raise e, (h, emit (reading (_build_dir h ++ "/meta.json")) w)).
Proof.
  intros Hl. rewrite refresh_meta_eq.
  set (p := _build_dir h ++ "/meta.json") in *.
  pose proof (load_json_world p (emit (reading p) w)) as Hw.
  pose proof (load_json_fs p w (emit (reading p) w) eq_refl) as Hf.
  destruct (cmdlib.load_json p (emit (reading p) w)) as [r w']. cbn [fst snd] in *.
  subst w'. rewrite <- Hf, Hl. reflexivity.
Qed.

End MoreLookups.

Lemma Dict_keys_set {V} (k : string) (v : V) d :
  exists added, Dict.keys (Dict.set k v d) = (Dict.keys d ++ added)%list.
Proof.
  induction d as [|[k' v'] d (added & IH)]; simpl.
  - now exists [k].
  - destruct (String.eqb k k'); simpl.
    + exists []. now rewrite app_nil_r.
    + exists added. now rewrite IH.
Qed.

Lemma Dict_keys_update {V} (d u : list (string * V)) :
  exists added, Dict.keys (Dict.update d u) = (Dict.keys d ++ added)%list.
Proof.
  revert d. induction u as [|[k v] u IH]; intros d; simpl.
  - exists []. now rewrite app_nil_r.
  - destruct (IH (Dict.set k v d)) as (a2 & ->).
    destruct (Dict_keys_set k v d) as (a1 & ->).
    exists (a1 ++ a2)%list. now rewrite app_assoc.
Qed.

Lemma Dict_get_in {V} (k : string) (d : list (string * V)) :
  In k (Dict.keys d) -> exists v, Dict.get k d = Some v.
Proof.
  induction d as [|[k' v'] d IH]; simpl; [tauto|].
  intros Hk. destruct (String.eqb_spec k k'); [eauto|].
  destruct Hk as [->|Hk]; [congruence | auto].
Qed.

(** Looking every key up gives the items back. *)
Lemma Dict_items (d : list (string * json)) :
  List.NoDup (Dict.keys d) ->
  map (fun name => (name, match Dict.get name d with Some v => v | None => JNull end))
      (Dict.keys d) = d.
Proof.
  induction d as [|[k' v'] d IH]; simpl; [reflexivity|].
  intros Hnd. inversion Hnd as [|? ? Hni Hnd']; subst.
  rewrite String.eqb_refl. f_equal.
  rewrite <- (IH Hnd') at 2.
  apply map_ext_in. intros k Hk.
  destruct (String.eqb_spec k k'); [subst; tauto | reflexivity].
Qed.

Section Registry.
Context `{Host} `{BuildKind}.

(** X6: [meta_append] of a mapping with distinct keys changes the meta
    document in memory and nothing else: afterwards every key of the
    mapping holds the value the mapping gives it, every other key holds
    what it held, the keys the document had keep their order, new keys
    follow them, and the world is untouched. *)
Theorem meta_append_merges_field_by_field
    (h : handle) (w : world) (M U : list (string * json)) :
  bj_meta (_build_json h) = JObj M ->
  List.NoDup (Dict.keys U) ->
  exists M',
    _Build.meta_append U (h, w) = (Ok tt, (set_slot "meta" (JObj M') h, w))
    /\ (forall k, Dict.get k M'
                  = match Dict.get k U with Some v => Some v | None => Dict.get k M end)
    /\ exists added, Dict.keys M' = (Dict.keys M ++ added)%list.
Proof.
  intros Hm Hnd. exists (Dict.update M U).
  split; [now apply meta_append_eq|].
  split; [intros k; now apply Dict_update_last_write_wins|].
  apply Dict_keys_update.
Qed.

(** X7: [meta_append] on a handle whose meta document is not an object (a
    list, a string, a number, [None]) raises AttributeError and leaves the
    state as it was. *)
Theorem meta_append_needs_a_dict (h : handle) (w : world) U :
  (forall M, bj_meta (_build_json h) <> JObj M) ->
  _Build.meta_append U (h, w)
  = (Raise (AttributeError "object has no attribute 'update'"), (h, w)).
Proof.
  intros Hm. unfold _Build.meta_append, _Build.self, bind, gets; cbn [fst snd].
  destruct (bj_meta (_build_json h)); try reflexivity. now destruct (Hm fields).
Qed.

(** X8: [build_artifacts] logs "Processing the build artifacts", enters
    the hook of the build class once, and, when the hook returns, logs
    "Finished building artifacts" followed by the warning "There were no
    files found after building" exactly when the registry of found files is
    empty after the hook.  When the hook raises, the exception propagates
    and neither record is logged.  The file system is the one the hook
    left. *)
Theorem build_artifacts_log (args : list json) (kw : list (string * json))
    (h : handle) (w : world) :
  match produce args kw (h, w_fs w) with
  | (Ok _, (h', fs')) =>
      exists w',
        _Build.build_artifacts args kw (h, w) = (Ok tt, (h', w'))
        /\ w_fs w' = fs'
        /\ w_log w'
           = (w_log w ++ [processing; Produce; finished]
                ++ match _found_files h' with [] => [no_files_found] | _ => [] end)%list
  | (Raise e, (h', fs')) =>
      exists w',
        _Build.build_artifacts args kw (h, w) = (Raise e, (h', w'))
        /\ w_fs w' = fs'
        /\ w_log w' = (w_log w ++ [processing; Produce])%list
  end.
Proof.
  unfold _Build.build_artifacts, _Build._build_artifacts, _Build.log,
    _Build.self, bind, gets, modify, ret; cbn [fst snd emit w_fs].
  destruct (produce args kw (h, w_fs w)) as [[[]|e] [h' fs']]; cbn [fst snd].
  - destruct (_found_files h') as [|x r] eqn:Ef; cbn [Dict.keys map length Nat.eqb];
      eexists; (split; [reflexivity|]); cbn [fst snd emit set_fs w_fs w_log];
      rewrite <- ?app_assoc; auto.
  - eexists. split; [reflexivity|]. cbn [set_fs emit w_fs w_log].
    rewrite <- ?app_assoc; auto.
Qed.

(** X9: [get_artifacts] yields one pair for each name of the registry of
    found files, in the order of the registry, each with the record
    registered under the name, and changes nothing; for a registry with
    distinct names these are the items of the registry. *)
Theorem get_artifacts_lists_the_registry (h : handle) (w : world) :
  exists l,
    _Build.get_artifacts (h, w) = (Ok l, (h, w))
    /\ map fst l = Dict.keys (_found_files h)
    /\ (forall name v, In (name, v) l -> Dict.get name (_found_files h) = Some v)
    /\ (List.NoDup (Dict.keys (_found_files h)) -> l = _found_files h).
Proof.
  unfold _Build.get_artifacts, _Build.self, bind, gets, ret; cbn [fst snd].
  eexists. split; [reflexivity|].
  split; [|split].
  - rewrite map_map. simpl. now rewrite map_id.
  - intros name v Hl. apply in_map_iff in Hl as (k & [= <- <-] & Hk).
    destruct (Dict_get_in k _ Hk) as (v & ->). reflexivity.
  - apply Dict_items.
Qed.

End Registry.

(** [shutil.rmtree] removes the directory and what lies below it, and
    nothing else. *)
Lemma rmtree_lookup d s s' p :
  FS.rmtree d s = Ok s' ->
  FS.lookup p s' = if String.eqb p d || FS.below d p then None else FS.lookup p s.
Proof.
  unfold FS.rmtree. destruct (FS.lookup d s) as [[i|]|]; try discriminate.
  intros [= <-]. unfold FS.lookup; cbn [fs_names].
  rewrite map_lookup_filter.
  set (c := String.eqb p d || FS.below d p).
  destruct (fs_names s !! p) as [n|]; cbn [mbind option_bind];
    [|now destruct c].
  cbn [fst]. fold c. case_guard as G; cbn [mbind option_bind].
  - destruct c; [discriminate | reflexivity].
  - destruct c; [reflexivity | now destruct G].
Qed.

Lemma rmtree_ok d s :
  FS.lookup d s = Some NDir -> exists s', FS.rmtree d s = Ok s'.
Proof. unfold FS.rmtree. intros ->. eauto. Qed.

Section Cleaning.
Context `{Host} `{BuildKind}.


(** X11: [get_artifact_meta] looks at the image before anything else.
    When the image file is missing, its path being plain and not below a
    regular file, it raises FileNotFoundError for the image path, whatever
    file was asked for, with the state unchanged.  When the image exists
    and the file asked for does not, its path being plain and not below a
    regular file either, it raises FileNotFoundError for that file after
    the INFO record "Calculating metadata" has been logged. *)
Theorem get_artifact_meta_stats_the_image_first
    (h : handle) (w : world) (n : string) :
  _image_name h = Some n ->
  (FS.lookup (Path.join (_build_dir h) n) (w_fs w) = None ->
   plain (Path.join (_build_dir h) n) = true ->
   below_a_file (Path.join (_build_dir h) n) (w_fs w) = false ->
   forall fname,
     _Build.get_artifact_meta fname (h, w)
     = (Raise (FileNotFoundError (Path.join (_build_dir h) n)), (h, w)))
  /\ (forall img f,
        FS.file_at (Path.join (_build_dir h) n) (w_fs w) = Ok img ->
        FS.lookup (Path.join (_build_dir h) f) (w_fs w) = None ->
        plain (Path.join (_build_dir h) f) = true ->
        below_a_file (Path.join (_build_dir h) f) (w_fs w) = false ->
        _Build.get_artifact_meta (Some f) (h, w)
        = (Raise (FileNotFoundError (Path.join (_build_dir h) f)),
           (h, emit (calculating f) w))).
Proof.
  intros Hn. split.
  - intros Hnone _ _ fname.
    unfold _Build.get_artifact_meta, _Build.image_path, _Build.image_name,
      _Build.build_dir, _Build.self.
    unfold bind, gets, ret, of_result. cbn [fst snd].
    rewrite Hn. cbn [fst snd]. unfold FS.st_size. now rewrite Hnone.
  - intros img f Himg Hnone _ _.
    unfold _Build.get_artifact_meta, _Build.image_path, _Build.image_name,
      _Build.build_dir, _Build.self, _Build.log, _Build.lift,
      cmdlib.sha256sum_file.
    unfold bind, gets, ret, of_result, modify. cbn [fst snd].
    rewrite Hn. cbn [fst snd].
    rewrite (file_at_st_size _ _ _ _ Himg). cbn [fst snd emit w_fs].
    unfold FS.read, FS.file_at. now rewrite Hnone.
Qed.

End Cleaning.

Section BaseClass.
Context `{Host}.
#[local] Existing Instance base_class.

(** X12: [_Build] without a subclass cannot build.  [build_artifacts]
    raises the NotImplementedError of [_build_artifacts] after logging
    "Processing the build artifacts", with the handle and the file system
    unchanged; [ensure_built] with a named image that is not on disk raises
    the same error; and [image_name_base] without an assigned name raises
    AttributeError, the class having no [platform]. *)
Theorem base_class_cannot_build (h : handle) (w : world) :
  (forall args kw,
     exists w',
       _Build.build_artifacts args kw (h, w)
       = (Raise (NotImplementedError "_build_artifacts must be overriden"), (h, w'))
       /\ w_fs w' = w_fs w
       /\ w_log w' = (w_log w ++ [processing; Produce])%list)
  /\ (forall n,
        _image_name h = Some n ->
        FS.lookup (Path.join (_build_dir h) n) (w_fs w) = None ->
        (_Build.ensure_built (h, w)).1
        = Raise (NotImplementedError "_build_artifacts must be overriden"))
  /\ (cached h -> (exists d, bj_meta (_build_json h) = JObj d) ->
      _image_name h = None ->
      (_Build.image_name_base (h, w)).1
      = Raise (AttributeError "object has no attribute 'platform'")).
Proof.
  assert (Hb : forall args kw w0,
             _Build.build_artifacts args kw (h, w0)
             = (Raise (NotImplementedError "_build_artifacts must be overriden"),
                (h, set_fs (w_fs w0) (emit Produce (emit processing w0))))).
  { intros. reflexivity. }
  split; [|split].
  - intros args kw. rewrite Hb. eexists. split; [reflexivity|].
    cbn [set_fs emit w_fs w_log]. rewrite <- app_assoc. auto.
  - intros n Hn Hnone.
    assert (Ha : _Build.have_artifact (h, w) = (Ok false, (h, w))).
    { unfold _Build.have_artifact, _Build.image_path, _Build.image_name,
        _Build.build_dir, _Build.self, bind, gets, ret. cbn [fst snd].
      rewrite Hn. cbn [fst snd]. unfold FS.exists_. now rewrite Hnone. }
    unfold _Build.ensure_built, bind. rewrite Ha. cbn [negb].
    rewrite Hb. reflexivity.
  - intros Hc (d & Hm) Hn.
    pose proof (meta_document h d Hm) as Ho.
    assert (Hk : forall key w0,
               exists v w1, _Build.get_meta_key "meta" key (h, w0) = (Ok v, (h, w1))).
    { intros key w0. destruct (Dict.get key d) as [v|] eqn:E.
      - rewrite (get_meta_key_present _ _ _ _ d v) by assumption. eauto.
      - rewrite (get_meta_key_absent _ _ _ _ d) by assumption. eauto. }
    unfold _Build.image_name_base, _Build.build_name, _Build.build_id.
    unfold bind at 1. unfold _Build.self at 1, gets at 1. cbn [fst snd].
    rewrite Hn. unfold bind.
    destruct (Hk "name" w) as (v1 & w1 & ->). cbn [ret].
    destruct (Hk "buildid" w1) as (v2 & w2 & ->).
    reflexivity.
Qed.

End BaseClass.

Section Framing.
Context `{Host} `{BuildKind}.

Lemma untouched_refl s : untouched s s.
Proof. unfold untouched. tauto. Qed.

Lemma untouched_trans s1 s2 s3 :
  untouched s1 s2 -> untouched s2 s3 -> untouched s1 s3.
Proof. unfold untouched. intuition congruence. Qed.

Lemma ro_ret {A} (a : A) : reads_only (ret a).
Proof. intros s. apply untouched_refl. Qed.

Lemma ro_raise {A} e : reads_only (@raise state A e).
Proof. intros s. apply untouched_refl. Qed.

Lemma ro_of_result {A} (r : result A) : reads_only (of_result r).
Proof. intros s. apply untouched_refl. Qed.

Lemma ro_bind {A B} (m : SE state A) (k : A -> SE state B) :
  reads_only m -> (forall a, reads_only (k a)) -> reads_only (bind m k).
Proof.
  intros Hm Hk s. unfold bind. specialize (Hm s).
  destruct (m s) as [[a|e] s1]; simpl in *; auto.
  eapply untouched_trans; [exact Hm | apply Hk].
Qed.

Lemma ro_self {A} (f : handle -> A) : reads_only (_Build.self f).
Proof. intros s. apply untouched_refl. Qed.

Lemma ro_log lvl msg args : reads_only (_Build.log lvl msg args).
Proof. intros [h w]. unfold untouched; simpl. tauto. Qed.

Lemma ro_set_slot k v : reads_only (_Build.set_self (set_slot k v)).
Proof. intros [h w]. unfold untouched; simpl. tauto. Qed.

Lemma ro_load_json p : reads_only (_Build.lift (cmdlib.load_json p)).
Proof.
  intros [h w]. unfold _Build.lift. cbn [fst snd].
  pose proof (load_json_world p w) as Hw.
  destruct (cmdlib.load_json p w) as [r w']. cbn [snd] in *. subst w'.
  apply untouched_refl.
Qed.

Lemma ro_except_KeyError {A} (m : SE state A) handler :
  reads_only m -> (forall k, reads_only (handler k)) ->
  reads_only (except_KeyError m handler).
Proof.
  intros Hm Hh s. unfold except_KeyError. specialize (Hm s).
  destruct (m s) as [[a|e] s1]; simpl in *; auto.
  destruct e; auto.
  eapply untouched_trans; [exact Hm | apply Hh].
Qed.

Lemma ro___file var : reads_only (_Build.__file var).
Proof. intros [h w]. rewrite __file_eq. destruct (Dict.get _ _); apply untouched_refl. Qed.

Lemma ro___get_json k : reads_only (_Build.__get_json k).
Proof.
  unfold _Build.__get_json.
  repeat first [ apply ro___file | apply ro_log | apply ro_load_json
               | apply ro_bind; [|intros ?] ].
Qed.

Lemma ro_slot_property k get : reads_only (_Build.slot_property k get).
Proof.
  unfold _Build.slot_property.
  apply ro_bind; [apply ro_self | intros cur].
  apply ro_bind; [|intros _; apply ro_self].
  destruct (is_None cur); [|apply ro_ret].
  apply ro_bind; [apply ro___get_json | intros v; apply ro_set_slot].
Qed.

Lemma ro_get_obj key : reads_only (_Build.get_obj key).
Proof.
  unfold _Build.get_obj, _Build.commit, _Build.config, _Build.image, _Build.meta.
  do 4 (apply ro_bind; [apply ro_slot_property | intros ?]).
  destruct (Dict.get key _); [apply ro_ret | apply ro_raise].
Qed.

Lemma ro_get_meta_key obj key : reads_only (_Build.get_meta_key obj key).
Proof.
  unfold _Build.get_meta_key. apply ro_except_KeyError.
  - apply ro_bind; [apply ro_get_obj | intros ?; apply ro_of_result].
  - intros k. apply ro_bind; [apply ro_log | intros _; apply ro_ret].
Qed.

Lemma ro_basearch : reads_only _Build.basearch.
Proof.
  unfold _Build.basearch, _Build.meta.
  apply ro_bind; [apply ro_slot_property | intros ?; apply ro_of_result].
Qed.

Lemma ro_check_loaded k get :
  reads_only (_Build.check_loaded k (_Build.slot_property k get)).
Proof.
  unfold _Build.check_loaded.
  apply ro_bind; [apply ro_slot_property | intros v].
  destruct (is_None v); [|apply ro_ret].
  apply ro_bind; [apply ro___file | intros ?; apply ro_raise].
Qed.

Lemma ro_validate_tail :
  reads_only (bind _Build.summary (fun sm =>
              bind _Build.build_name (fun bn =>
              bind _Build.basearch (fun ba =>
              bind _Build.build_id (fun bi =>
              _Build.log INFO (JStr "Proccessed build for: %s (%s-%s) %s")
                         [sm; JStr (upper bn); ba; bi]))))).
Proof.
  unfold _Build.summary, _Build.build_name, _Build.build_id.
  repeat first
    [ apply ro_get_meta_key | apply ro_basearch | apply ro_log | apply ro_ret
    | apply ro_bind; [|intros ?] ].
Qed.

(** [validate] changes nothing but the cached documents, the image name,
    which it sets to [None], and the log. *)
Lemma validate_untouched (s s' : state) r :
  _Build.validate s = (r, s') ->
  _build_dir s'.1 = _build_dir s.1
  /\ _found_files s'.1 = _found_files s.1
  /\ _workdir s'.1 = _workdir s.1
  /\ _tmpdir s'.1 = _tmpdir s.1
  /\ w_fs s'.2 = w_fs s.2
  /\ w_environ s'.2 = w_environ s.2
  /\ (is_Ok r = true -> _image_name s'.1 = None).
Proof.
  unfold _Build.validate, _Build.commit, _Build.config, _Build.image, _Build.meta.
  pose proof (ro_check_loaded "commit" bj_commit s) as U1.
  unfold bind at 1.
  destruct (_Build.check_loaded "commit" _ s) as [[[]|e] s1]; cbn [fst snd] in U1;
    [|intros [= <- <-]; simpl; unfold untouched in *;
      intuition (try congruence; try discriminate)].
  pose proof (ro_check_loaded "config" bj_config s1) as U2.
  unfold bind at 1.
  destruct (_Build.check_loaded "config" _ s1) as [[[]|e] s2]; cbn [fst snd] in U2;
    [|intros [= <- <-]; simpl; unfold untouched in *;
      intuition (try congruence; try discriminate)].
  pose proof (ro_check_loaded "image" bj_image s2) as U3.
  unfold bind at 1.
  destruct (_Build.check_loaded "image" _ s2) as [[[]|e] s3]; cbn [fst snd] in U3;
    [|intros [= <- <-]; simpl; unfold untouched in *;
      intuition (try congruence; try discriminate)].
  pose proof (ro_check_loaded "meta" bj_meta s3) as U4.
  unfold bind at 1.
  destruct (_Build.check_loaded "meta" _ s3) as [[[]|e] s4]; cbn [fst snd] in U4;
    [|intros [= <- <-]; simpl; unfold untouched in *;
      intuition (try congruence; try discriminate)].
  unfold bind at 1. unfold _Build.set_self at 1, modify at 1.
  pose proof (ro_validate_tail (set_image_name None s4.1, s4.2)) as U5.
  destruct (bind _Build.summary _ _) as [r5 s5]. cbn [fst snd] in U5.
  intros [= <- <-].
  unfold untouched in *. simpl in *. intuition congruence.
Qed.

End Framing.

Section Construction2.
Context `{Host} `{BuildKind}.

Lemma mkdir_ok p s s' :
  FS.mkdir p s = Ok s' ->
  FS.lookup p s = None
  /\ fs_names s' = <[p := NDir]> (fs_names s)
  /\ fs_inodes s' = fs_inodes s.
Proof.
  unfold FS.mkdir. destruct (FS.lookup p s); [discriminate|].
  destruct (FS.is_dir _ s); [|discriminate].
  intros [= <-]. simpl. auto.
Qed.

Lemma mkdtemp_loop_ok tries dir pre (w w1 : world) file :
  tempfile.mkdtemp_loop tries dir pre w = (Ok file, w1) ->
  FS.mkdir file (w_fs w) = Ok (w_fs w1)
  /\ (exists n, file = Path.join dir (pre ++ random_name n))
  /\ w_environ w1 = w_environ w
  /\ w_log w1 = w_log w.
Proof.
  revert w. induction tries as [|n IH]; intros w; simpl; [discriminate|].
  destruct (FS.mkdir _ (w_fs w)) as [s'|e] eqn:E.
  - intros [= <- <-]. simpl. eauto.
  - destruct e; try discriminate.
    intros Hrec. apply IH in Hrec. simpl in Hrec. exact Hrec.
Qed.

Lemma mkdtemp_loop_raise tries dir pre (w w1 : world) e :
  tempfile.mkdtemp_loop tries dir pre w = (Raise e, w1) ->
  w_fs w1 = w_fs w /\ w_environ w1 = w_environ w /\ w_log w1 = w_log w.
Proof.
  revert w. induction tries as [|n IH]; intros w; simpl.
  - intros [= <- <-]. auto.
  - destruct (FS.mkdir _ (w_fs w)) as [s'|e'] eqn:E; [discriminate|].
    destruct e'; try (intros [= <- <-]; simpl; auto).
    intros Hrec. apply IH in Hrec. simpl in Hrec. exact Hrec.
Qed.

(** How a successful construction went. *)
Lemma __init___inv (kw : kwargs) (w w' : world) (h : handle) :
  _Build.__init__ kw w = (Ok h, w') ->
  exists bd d td w1 w2,
    workdir_of kw = Some d
    /\ w_fs w1 = w_fs w /\ w_environ w1 = w_environ w
    /\ tempfile.mkdtemp "build_tmpd" w1 = (Ok td, w2)
    /\ _Build.validate
         (unvalidated bd (Some d) td,
          set_environ "TMPDIR" (Path.join d "tmp") (set_environ "workdir" d w2))
       = (Ok tt, (h, w')).
Proof.
  unfold _Build.__init__. unfold bind at 1.
  destruct (Builds_open _ _) as [builds|e]; [|discriminate].
  unfold bind at 1.
  match goal with
  | |- context [(if ?c then ?a else ?b) w] =>
      assert (Hsel : exists r, (if c then a else b) w = (r, w))
        by (destruct c; [destruct (negb _)|]; eexists; reflexivity);
      destruct Hsel as (r & ->)
  end.
  destruct r as [build|e]; [|discriminate].
  unfold bind at 1, modify at 1.
  unfold bind at 1.
  match goal with
  | |- context [tempfile.mkdtemp _ ?w0] =>
      set (w1 := w0); destruct (tempfile.mkdtemp _ w1) as [[td|e] w2] eqn:Etd;
      [|discriminate]
  end.
  fold (workdir_of kw).
  destruct (workdir_of kw) as [d|]; [|discriminate].
  unfold bind, modify.
  match goal with
  | |- context [_Build.validate ?s0] =>
      destruct (_Build.validate s0) as [[[]|e] [h' w3]] eqn:Ev; [|discriminate]
  end.
  intros [= <- <-].
  eexists _, d, td, w1, w2. split; [reflexivity|].
  split; [reflexivity|]. split; [reflexivity|]. split; [exact Etd|].
  exact Ev.
Qed.

(** X13: a handle that [__init__] returns has no image name and an empty
    registry of found files; its work directory is the keyword argument
    [workdir], or the current directory when the argument is not given, and
    the environment variables [workdir] and [TMPDIR] have been set to that
    directory and to its subdirectory tmp. *)
Theorem construction_leaves_a_blank_registry (kw : kwargs) (w w' : world) (h : handle) :
  _Build.__init__ kw w = (Ok h, w') ->
  _image_name h = None
  /\ _found_files h = []
  /\ exists d,
       workdir_of kw = Some d
       /\ _workdir h = Some d
       /\ w_environ w' !! "workdir" = Some d
       /\ w_environ w' !! "TMPDIR" = Some (Path.join d "tmp").
Proof.
  intros Hi. apply __init___inv in Hi as (bd & d & td & w1 & w2 & Hd & _ & _ & _ & Ev).
  apply validate_untouched in Ev as (_ & Hf & Hw & _ & _ & He & Hn).
  cbn [fst snd] in *.
  split; [now apply Hn|]. split; [exact Hf|].
  exists d. split; [exact Hd|]. split; [exact Hw|].
  rewrite He. cbn [w_environ set_environ].
  split; [|apply lookup_insert_eq].
  rewrite lookup_insert_ne by discriminate. apply lookup_insert_eq.
Qed.

(** The file system after a successful construction: the one before with
    the scratch directory added. *)
Lemma __init___fs (kw : kwargs) (w w' : world) (h : handle) :
  _Build.__init__ kw w = (Ok h, w') ->
  (exists n, _tmpdir h = Path.join gettempdir ("build_tmpd" ++ random_name n))
  /\ FS.lookup (_tmpdir h) (w_fs w) = None
  /\ fs_names (w_fs w') = <[_tmpdir h := NDir]> (fs_names (w_fs w))
  /\ fs_inodes (w_fs w') = fs_inodes (w_fs w).
Proof.
  intros Hi. apply __init___inv in Hi as (bd & d & td & w1 & w2 & _ & Hfs & _ & Etd & Ev).
  apply validate_untouched in Ev as (_ & _ & _ & Ht & Hf & _ & _).
  cbn [fst snd unvalidated _tmpdir w_fs set_environ] in *.
  apply mkdtemp_loop_ok in Etd as (Hmk & Hname & _ & _).
  apply mkdir_ok in Hmk as (Hnone & Hnames & Hino).
  rewrite Ht, Hf, <- Hfs. auto.
Qed.

Lemma lookup_added_dir (s s' : fs) (td p : string) :
  fs_names s' = <[td := NDir]> (fs_names s) ->
  FS.lookup p s' = if String.eqb p td then Some NDir else FS.lookup p s.
Proof.
  intros Hn. unfold FS.lookup. rewrite Hn.
  destruct (String.eqb_spec p td) as [->|Hne].
  - apply lookup_insert_eq.
  - now apply lookup_insert_ne.
Qed.

(** X14: a successful [__init__] changes the file system by exactly one
    name: the scratch directory of the handle, a new directory named
    build_tmpd followed by a random name in the directory of temporary
    files.  Every other path and the content of every file are as
    before. *)
Theorem construction_creates_one_directory (kw : kwargs) (w w' : world) (h : handle) :
  _Build.__init__ kw w = (Ok h, w') ->
  (exists n, _tmpdir h = Path.join gettempdir ("build_tmpd" ++ random_name n))
  /\ FS.lookup (_tmpdir h) (w_fs w) = None
  /\ (forall p, FS.lookup p (w_fs w')
                = if String.eqb p (_tmpdir h) then Some NDir else FS.lookup p (w_fs w))
  /\ fs_inodes (w_fs w') = fs_inodes (w_fs w).
Proof.
  intros Hi. apply __init___fs in Hi as (Hname & Hnone & Hnames & Hino).
  split; [exact Hname|]. split; [exact Hnone|]. split; [|exact Hino].
  intros p. now apply lookup_added_dir.
Qed.

(** X15: [__del__] on a freshly constructed handle succeeds and takes the
    scratch directory away again: afterwards nothing is left at or below
    the scratch directory, and every other path resolves as it did before
    the construction. *)
Theorem construction_then_teardown (kw : kwargs) (w w' : world) (h : handle) :
  _Build.__init__ kw w = (Ok h, w') ->
  exists w'',
    _Build.__del__ (h, w') = (Ok tt, (h, w''))
    /\ forall p, FS.lookup p (w_fs w'')
                 = if FS.below (_tmpdir h) p then None else FS.lookup p (w_fs w).
Proof.
  intros Hi.
  apply __init___fs in Hi as (_ & Hnone & Hnames & _).
  pose proof (fun p => lookup_added_dir _ _ _ p Hnames) as Hl.
  assert (Hd : FS.lookup (_tmpdir h) (w_fs w') = Some NDir).
  { rewrite Hl. now rewrite String.eqb_refl. }
  destruct (rmtree_ok _ _ Hd) as (s' & Er).
  unfold _Build.__del__, except_Exception, _Build.lift, _Build.self, sys,
    bind, gets, raise; cbn [fst snd]. rewrite Er.
  eexists. split; [reflexivity|]. cbn [w_fs set_fs].
  intros p. rewrite (rmtree_lookup _ _ _ p Er), Hl.
  destruct (String.eqb_spec p (_tmpdir h)) as [->|Hne]; cbn [orb].
  - rewrite Hnone. now destruct (FS.below _ _).
  - reflexivity.
Qed.

(** X16: on a handle as [__init__] returns it, [ensure_built] and
    [get_artifact_meta] raise NotImplementedError and change nothing, since
    no image name is assigned yet; once the setter of [image_name] has
    assigned [n], [image_path] is [n] joined to the build directory. *)
Theorem fresh_handle_has_no_image (kw : kwargs) (w w' : world) (h : handle) :
  _Build.__init__ kw w = (Ok h, w') ->
  _Build.ensure_built (h, w') = (Raise NoImageName, (h, w'))
  /\ (forall fname,
        _Build.get_artifact_meta fname (h, w') = (Raise NoImageName, (h, w')))
  /\ (forall n,
        _Build.image_path (_Build.image_name_setter n (h, w')).2
        = (Ok (Path.join (_build_dir h) n), (set_image_name (Some n) h, w'))).
Proof.
  intros Hi. apply __init___inv in Hi as (bd & d & td & w1 & w2 & _ & _ & _ & _ & Ev).
  apply validate_untouched in Ev as (_ & _ & _ & _ & _ & _ & Hn).
  specialize (Hn eq_refl). cbn [fst snd] in Hn.
  split; [|split].
  - unfold _Build.ensure_built, _Build.have_artifact, _Build.image_path,
      _Build.image_name, _Build.build_dir, _Build.self, bind, gets; cbn [fst snd].
    now rewrite Hn.
  - intros fname.
    unfold _Build.get_artifact_meta, _Build.image_path,
      _Build.image_name, _Build.build_dir, _Build.self, bind, gets; cbn [fst snd].
    now rewrite Hn.
  - intros n. reflexivity.
Qed.

(** X17: [__init__] for a build id other than "latest" that the build
    index does not list raises BuildError "Build was not found in
    builds.json" before anything is touched: no scratch directory is made,
    no environment variable is set, nothing is logged. *)
Theorem construction_of_an_unknown_build
    (kw : kwargs) (w : world) (b : string) (builds : Builds) :
  kw_build kw = Some b ->
  b <> "latest" ->
  Builds_open (Path.dirname b) (w_fs w) = Ok builds ->
  has builds b = false ->
  _Build.__init__ kw w = (Raise build_not_found, w).
Proof.
  intros Hb Hne Ho Hh. unfold _Build.__init__. rewrite Hb.
  unfold bind at 1. rewrite Ho.
  apply String.eqb_neq in Hne. rewrite Hne, Hh. reflexivity.
Qed.

(** X18: [__init__] with [workdir=None] never returns a handle: the
    assignment of [None] to an environment variable raises (when nothing
    has failed before it), and the environment is left as it was. *)
Theorem construction_rejects_workdir_None (kw : kwargs) (w : world) :
  kw_workdir kw = Some None ->
  is_Ok (_Build.__init__ kw w).1 = false
  /\ w_environ (_Build.__init__ kw w).2 = w_environ w.
Proof.
  intros Hw. destruct (_Build.__init__ kw w) as [r w'] eqn:E. revert E.
  unfold _Build.__init__. rewrite Hw. unfold bind at 1.
  destruct (Builds_open _ _) as [builds|e]; [|intros [= <- <-]; split; reflexivity].
  unfold bind at 1.
  match goal with
  | |- context [(if ?c then ?a else ?b) w] =>
      assert (Hsel : exists r, (if c then a else b) w = (r, w))
        by (destruct c; [destruct (negb _)|]; eexists; reflexivity);
      destruct Hsel as (r0 & ->)
  end.
  destruct r0 as [build|e]; [|intros [= <- <-]; split; reflexivity].
  unfold bind at 1, modify at 1.
  unfold bind at 1.
  match goal with
  | |- context [tempfile.mkdtemp _ ?w0] =>
      destruct (tempfile.mkdtemp _ w0) as [[td|e] w2] eqn:Etd
  end.
  - apply mkdtemp_loop_ok in Etd as (_ & _ & He & _).
    intros [= <- <-]. split; [reflexivity|exact He].
  - apply mkdtemp_loop_raise in Etd as (_ & He & _).
    intros [= <- <-]. split; [reflexivity|exact He].
Qed.

End Construction2.

Lemma rename_renamed src dst s :
  FS.rename src dst s
  = match renamed src dst (fs_names s) with
    | Ok m => Ok {| fs_names := m; fs_inodes := fs_inodes s; fs_next := fs_next s |}
    | Raise e => Raise e
    end.
Proof.
  unfold FS.rename, renamed, FS.lookup.
  destruct (fs_names s !! src); [|reflexivity].
  now destruct (fs_names s !! dst) as [[?|]|].
Qed.

Section Replacing.
Context `{Host}.

(** [flush] touches the content of its own file and nothing else. *)
Lemma flush_frame f (w : world) :
  let w' := (tempfile.flush f w).2 in
  fs_names (w_fs w') = fs_names (w_fs w)
  /\ (forall i, i <> tempfile.fileno f ->
                fs_inodes (w_fs w') !! i = fs_inodes (w_fs w) !! i)
  /\ w_log w' = w_log w.
Proof.
  rewrite flush_eq. cbn [snd].
  destruct (tempfile.pending f w) as [|b bs]; [auto|].
  cbn [w_fs set_buf set_fs w_log FS.append fs_names fs_inodes].
  split; [reflexivity|]. split; [|reflexivity].
  intros i Hi. now apply lookup_alter_ne.
Qed.

(** What [write_json] does once the temporary file is there, whatever the
    rename answers: [d] is what the file holds on disk, the rest of the
    text is pending.  When the rename raises, the file object is not
    closed and the pending text stays where it is. *)
Lemma write_json_end f path (w3 : world) d m0 :
  fs_inodes (w_fs w3) !! tempfile.fileno f = Some {| f_data := d; f_mode := m0 |} ->
  exists w',
    bind (sys_fd (FS.fchmod (tempfile.fileno f) cmdlib.S_0o644)) (fun _ =>
    bind (sys (FS.rename (tempfile.name f) path)) (fun _ =>
    tempfile.close f)) w3
    = (match renamed (tempfile.name f) path (fs_names (w_fs w3)) with
       | Ok _ => Ok tt
       | Raise e => Raise e
       end, w')
    /\ fs_names (w_fs w')
       = match renamed (tempfile.name f) path (fs_names (w_fs w3)) with
         | Ok m => m
         | Raise _ => fs_names (w_fs w3)
         end
    /\ fs_inodes (w_fs w') !! tempfile.fileno f
       = Some {| f_data :=
                   match renamed (tempfile.name f) path (fs_names (w_fs w3)) with
                   | Ok _ => (d ++ tempfile.pending f w3)%list
                   | Raise _ => d
                   end;
                 f_mode := cmdlib.S_0o644 |}
    /\ tempfile.pending f w'
       = match renamed (tempfile.name f) path (fs_names (w_fs w3)) with
         | Ok _ => []
         | Raise _ => tempfile.pending f w3
         end
    /\ (forall i, i <> tempfile.fileno f ->
                  fs_inodes (w_fs w') !! i = fs_inodes (w_fs w3) !! i)
    /\ w_log w' = w_log w3.
Proof.
  intros Hi3.
  unfold bind at 1. unfold sys_fd at 1.
  set (s4 := FS.fchmod (tempfile.fileno f) cmdlib.S_0o644 (w_fs w3)).
  assert (Hi4 : fs_inodes s4 !! tempfile.fileno f
                = Some {| f_data := d; f_mode := cmdlib.S_0o644 |}).
  { subst s4. unfold FS.fchmod; simpl. now rewrite lookup_alter_eq, Hi3. }
  assert (Hf4 : forall i, i <> tempfile.fileno f ->
                          fs_inodes s4 !! i = fs_inodes (w_fs w3) !! i).
  { intros i Hne. subst s4. unfold FS.fchmod; simpl. now apply lookup_alter_ne. }
  unfold bind at 1. unfold sys.
  change (w_fs (set_fs s4 w3)) with s4.
  rewrite rename_renamed.
  change (fs_names s4) with (fs_names (w_fs w3)).
  destruct (renamed (tempfile.name f) path (fs_names (w_fs w3))) as [m|e].
  - set (s5 := {| fs_names := m; fs_inodes := fs_inodes s4; fs_next := fs_next s4 |}).
    set (w5 := set_fs s5 (set_fs s4 w3)).
    assert (Hp5 : tempfile.pending f w5 = tempfile.pending f w3) by reflexivity.
    destruct (flush_disk f w5 _ _ Hi4) as (Hd6 & Hn6 & Hl6 & _ & _).
    destruct (flush_frame f w5) as (_ & Hf6 & _).
    unfold tempfile.close, bind, modify.
    pose proof (flush_eq f w5) as E6.
    destruct (tempfile.flush f w5) as [r6 w6]. cbn [snd] in *.
    injection E6 as -> _.
    eexists. split; [reflexivity|]. cbn [w_fs set_buf w_log].
    split; [exact Hn6|]. split; [now rewrite Hd6, Hp5|].
    split; [unfold tempfile.pending; cbn [w_bufs set_buf];
            now rewrite lookup_delete_eq|].
    split; [|exact Hl6].
    intros i Hne. rewrite Hf6 by assumption. now apply Hf4.
  - eexists. split; [reflexivity|]. cbn [w_fs set_fs w_log].
    split; [reflexivity|]. split; [exact Hi4|].
    split; [reflexivity|]. split; [exact Hf4|reflexivity].
Qed.

(** [write_json] from the point where the temporary file [f] is open and
    empty.  When the rename raises, a text that fits the buffer is still
    pending and the file is empty; a longer one was flushed by [write]. *)
Lemma write_json_run f path data (w : world) m0 :
  tempfile.pending f w = [] ->
  fs_inodes (w_fs w) !! tempfile.fileno f = Some {| f_data := []; f_mode := m0 |} ->
  exists w',
    bind (cmdlib.json_dump data f) (fun _ =>
    bind (sys_fd (FS.fchmod (tempfile.fileno f) cmdlib.S_0o644)) (fun _ =>
    bind (sys (FS.rename (tempfile.name f) path)) (fun _ =>
    tempfile.close f))) w
    = (match renamed (tempfile.name f) path (fs_names (w_fs w)) with
       | Ok _ => Ok tt
       | Raise e => Raise e
       end, w')
    /\ fs_names (w_fs w')
       = match renamed (tempfile.name f) path (fs_names (w_fs w)) with
         | Ok m => m
         | Raise _ => fs_names (w_fs w)
         end
    /\ fs_inodes (w_fs w') !! tempfile.fileno f
       = Some {| f_data :=
                   match renamed (tempfile.name f) path (fs_names (w_fs w)) with
                   | Ok _ => json_dumps data
                   | Raise _ =>
                       if Z.of_nat (length (json_dumps data))
                          <=? tempfile.DEFAULT_BUFFER_SIZE
                       then [] else json_dumps data
                   end;
                 f_mode := cmdlib.S_0o644 |}
    /\ tempfile.pending f w'
       = match renamed (tempfile.name f) path (fs_names (w_fs w)) with
         | Ok _ => []
         | Raise _ =>
             if Z.of_nat (length (json_dumps data))
                <=? tempfile.DEFAULT_BUFFER_SIZE
             then json_dumps data else []
         end
    /\ (forall i, i <> tempfile.fileno f ->
                  fs_inodes (w_fs w') !! i = fs_inodes (w_fs w) !! i)
    /\ w_log w' = w_log w.
Proof.
  intros Hp Hi.
  unfold cmdlib.json_dump, tempfile.write.
  unfold bind at 1. cbv beta zeta. rewrite Hp. cbn [app].
  set (b := json_dumps data).
  set (w2 := set_buf (tempfile.fileno f) (@Some (list byte) b) w).
  assert (Hp2 : tempfile.pending f w2 = b) by apply pending_set_buf.
  destruct (Z.of_nat (length b) <=? tempfile.DEFAULT_BUFFER_SIZE) eqn:Hsz.
  - destruct (write_json_end f path w2 [] m0 Hi) as (w' & E & Hn & Hd & Hq & Hf & Hl).
    exists w'. rewrite Hp2 in Hd, Hq. cbn [app] in Hd.
    change (w_fs w2) with (w_fs w) in E, Hn, Hd, Hq.
    split; [exact E|]. split; [exact Hn|].
    split; [rewrite Hd; now destruct (renamed _ _ _)|].
    split; [exact Hq|]. split; [exact Hf|exact Hl].
  - destruct (flush_disk f w2 _ _ Hi) as (Hd' & Hn' & Hl' & Hp' & _).
    destruct (flush_frame f w2) as (_ & Hf' & _).
    pose proof (flush_eq f w2) as Eq.
    destruct (tempfile.flush f w2) as [r3 w3]. cbn [snd] in Hd', Hn', Hl', Hp', Hf', Eq.
    assert (r3 = Ok tt) by congruence. subst r3. clear Eq.
    destruct (write_json_end f path w3 _ m0 Hd') as (w' & E & Hn & Hd & Hq & Hf & Hl).
    exists w'. rewrite Hp', app_nil_r, Hp2 in Hd. rewrite Hp' in Hq. cbn [app] in Hd.
    rewrite Hn' in E, Hn, Hd, Hq. change (w_fs w2) with (w_fs w) in E, Hn, Hd, Hq.
    split; [exact E|]. split; [exact Hn|].
    split; [rewrite Hd; now destruct (renamed _ _ _)|].
    split; [rewrite Hq; now destruct (renamed _ _ _)|].
    split; [|now rewrite Hl].
    intros i Hne. rewrite Hf by assumption. now apply Hf'.
Qed.

Lemma TMP_MAX_pos : exists n, tempfile.TMP_MAX = S n.
Proof. exists (Z.to_nat 9999). unfold tempfile.TMP_MAX. lia. Qed.


(** X20: [write_json] onto a path that is a directory raises
    IsADirectoryError, and leaves its temporary file behind: a new name in
    the directory of the target, with mode 0o644.  The function does not
    close the file object, so for a document shorter than the buffer the
    file is still empty when the exception reaches the caller and the
    serialized text is pending in the file object; the file holds the whole
    document once the file object is closed.  Every other path resolves as
    before. *)
Theorem write_json_onto_a_directory (path : string) (data : json) (w : world) :
  is_Ok (tempfile.NamedTemporaryFile (Path.dirname path) w).1 = true ->
  FS.lookup path (w_fs w) = Some NDir ->
  Z.of_nat (length (json_dumps data)) < tempfile.DEFAULT_BUFFER_SIZE ->
  exists w' f,
    cmdlib.write_json path data w = (Raise (IsADirectoryError path), w')
    /\ FS.lookup (tempfile.name f) (w_fs w) = None
    /\ FS.file_at (tempfile.name f) (w_fs w')
       = Ok {| f_data := []; f_mode := cmdlib.S_0o644 |}
    /\ tempfile.pending f w' = json_dumps data
    /\ (forall p, p <> tempfile.name f ->
                  FS.lookup p (w_fs w') = FS.lookup p (w_fs w))
    /\ FS.file_at (tempfile.name f) (w_fs (tempfile.close f w').2)
       = Ok {| f_data := json_dumps data; f_mode := cmdlib.S_0o644 |}.
Proof.
  intros Hok Hdir Hlen.
  apply NamedTemporaryFile_ok in Hok as (f & w1 & E & Hnone & Hn & Hi & Hh & Hl).
  unfold cmdlib.write_json. unfold bind at 1. rewrite E.
  destruct (write_json_run f path data
              (set_buf (tempfile.fileno f) (Some []) w1)
              tempfile.S_IRUSR_IWUSR) as (w' & E' & Hn' & Hd' & Hq' & Hf' & Hl').
  - apply pending_set_buf.
  - cbn [w_fs set_buf]. rewrite Hi. apply lookup_insert_eq.
  - cbn [w_fs set_buf w_log] in *.
    assert (Hne : path <> tempfile.name f) by congruence.
    assert (Hr : renamed (tempfile.name f) path (fs_names (w_fs w1))
                 = Raise (IsADirectoryError path)).
    { unfold renamed. rewrite Hn, lookup_insert_eq.
      rewrite lookup_insert_ne by congruence.
      unfold FS.lookup in Hdir. now rewrite Hdir. }
    assert (Hsz : (Z.of_nat (length (json_dumps data))
                   <=? tempfile.DEFAULT_BUFFER_SIZE) = true)
      by (apply Z.leb_le; lia).
    rewrite Hr in E', Hn', Hd', Hq'. rewrite Hsz in Hd', Hq'.
    exists w', f. split; [exact E'|]. split; [exact Hnone|].
    split; [|split; [exact Hq'|split]].
    + unfold FS.file_at, FS.lookup. rewrite Hn', Hn, lookup_insert_eq. now rewrite Hd'.
    + intros p Hp. unfold FS.lookup. rewrite Hn', Hn. now apply lookup_insert_ne.
    + destruct (flush_disk f w' _ _ Hd') as (Hd6 & Hn6 & _).
      unfold tempfile.close, bind, modify.
      destruct (tempfile.flush f w') as [r6 w6]. cbn [snd] in *.
      destruct r6; cbn [fst snd w_fs set_buf];
        unfold FS.file_at, FS.lookup; rewrite Hn6, Hn', Hn, lookup_insert_eq;
        now rewrite Hd6, Hq'.
Qed.

(** X21: when the directory the temporary file would be created in does
    not exist, the temporary name being a plain path that is not below a
    regular file, [write_json] raises FileNotFoundError for the temporary
    name and the file system is left as it was. *)
Theorem write_json_without_a_directory (path : string) (data : json) (w : world) :
  FS.lookup (first_candidate (Path.dirname path) w) (w_fs w) = None ->
  FS.is_dir (Path.dirname (first_candidate (Path.dirname path) w)) (w_fs w) = false ->
  plain (first_candidate (Path.dirname path) w) = true ->
  below_a_file (first_candidate (Path.dirname path) w) (w_fs w) = false ->
  exists w',
    cmdlib.write_json path data w
    = (Raise (FileNotFoundError (first_candidate (Path.dirname path) w)), w')
    /\ w_fs w' = w_fs w
    /\ w_hist w' = w_hist w.
Proof.
  intros Hfree Hd _ _. destruct TMP_MAX_pos as (n & Hn).
  unfold cmdlib.write_json, tempfile.NamedTemporaryFile. unfold bind at 1 2.
  rewrite Hn. cbn [tempfile.mkstemp_loop].
  unfold FS.create_excl. cbn [w_fs next_rand].
  unfold first_candidate in *. rewrite Hfree, Hd.
  eexists. split; [reflexivity|]. split; reflexivity.
Qed.


End Replacing.

Lemma length_string_of_list_ascii (l : list ascii) :
  String.length (string_of_list_ascii l) = length l.
Proof. induction l as [|c l IH]; [reflexivity|]. cbn. now rewrite IH. Qed.

Lemma ancestors_from_shorter (rest seen : list ascii) (a : string) :
  In a (ancestors_from seen rest) ->
  (String.length a < length seen + length rest)%nat.
Proof.
  revert seen. induction rest as [|c r IH]; intros seen; [intros []|].
  cbn [ancestors_from]. intros Hin. apply in_app_or in Hin as [Hin|Hin].
  - destruct (Ascii.eqb c Path.slash); [|destruct Hin].
    destruct Hin as [<-|[]].
    rewrite length_string_of_list_ascii, length_rev. cbn [length]. lia.
  - apply IH in Hin. cbn [length] in *. lia.
Qed.

(** An ancestor of a path is not the path itself. *)
Lemma ancestors_ne (p a : string) : In a (ancestors p) -> a <> p.
Proof.
  intros Hin ->. apply ancestors_from_shorter in Hin.
  rewrite <- (string_of_list_ascii_of_string p) in Hin at 1.
  rewrite length_string_of_list_ascii in Hin. cbn [length] in Hin. lia.
Qed.

(** Removing the name [p] changes nothing above [p]. *)
Lemma below_a_file_delete (p : string) (s : fs) :
  below_a_file p {| fs_names := delete p (fs_names s);
                    fs_inodes := fs_inodes s;
                    fs_next := fs_next s |}
  = below_a_file p s.
Proof.
  unfold below_a_file.
  pose proof (ancestors_ne p) as Hne.
  induction (ancestors p) as [|a l IH]; [reflexivity|].
  cbn [existsb]. rewrite IH by (intros b Hb; apply Hne; now right).
  unfold FS.lookup at 1 3. cbn [fs_names].
  rewrite lookup_delete_ne; [reflexivity|].
  intros ->. now apply (Hne a); [left|].
Qed.

(** X23: [rm_allow_noent] absorbs the FileNotFoundError of a path that
    does not exist, and nothing else.  For a plain path below a regular
    file, the NotADirectoryError of [os.unlink] propagates and nothing is
    removed.  For any other plain path: when it is missing, the call
    returns with the world unchanged; when it names a file, the call
    removes that one name, keeps every other name and every file content,
    and a second call is a no-op; when it names a directory, the
    IsADirectoryError of [os.unlink] propagates and nothing is
    removed. *)
Theorem rm_allow_noent_removes_one_name (path : string) (w : world) :
  plain path = true ->
  if below_a_file path (w_fs w)
  then rm_allow_noent path w = (Raise (NotADirectoryError path), w)
  else
    match FS.lookup path (w_fs w) with
    | None => rm_allow_noent path w = (Ok tt, w)
    | Some (NFile i) =>
        exists w',
          rm_allow_noent path w = (Ok tt, w')
          /\ (forall p, FS.lookup p (w_fs w')
                        = if String.eqb p path then None else FS.lookup p (w_fs w))
          /\ fs_inodes (w_fs w') = fs_inodes (w_fs w)
          /\ rm_allow_noent path w' = (Ok tt, w')
    | Some NDir => rm_allow_noent path w = (Raise (IsADirectoryError path), w)
    end.
Proof.
  intros _.
  unfold rm_allow_noent, except_FileNotFoundError, sys, os.unlink.
  destruct (below_a_file path (w_fs w)) eqn:B; [reflexivity|].
  destruct (FS.lookup path (w_fs w)) as [[i|]|] eqn:E; try reflexivity.
  eexists. split; [reflexivity|]. cbn [w_fs set_fs fs_inodes].
  assert (Hl : forall p,
             FS.lookup p {| fs_names := delete path (fs_names (w_fs w));
                            fs_inodes := fs_inodes (w_fs w);
                            fs_next := fs_next (w_fs w) |}
             = if String.eqb p path then None else FS.lookup p (w_fs w)).
  { intros p. unfold FS.lookup; cbn [fs_names].
    destruct (String.eqb_spec p path) as [->|Hne].
    - apply lookup_delete_eq.
    - now apply lookup_delete_ne. }
  split; [exact Hl|]. split; [reflexivity|].
  rewrite below_a_file_delete, B, Hl, String.eqb_refl. reflexivity.
Qed.

Lemma two_length (n : Z) : 0 <= n <= 99 -> String.length (datetime.two n) = 2%nat.
Proof.
  intros Hn.
  assert (Hall : forallb (fun k => (String.length (datetime.two (Z.of_nat k)) =? 2)%nat)
                         (seq 0 100) = true) by (vm_compute; reflexivity).
  rewrite forallb_forall in Hall.
  specialize (Hall (Z.to_nat n)). rewrite Z2Nat.id in Hall by lia.
  apply Nat.eqb_eq, Hall, in_seq. lia.
Qed.

Lemma year_length (n : Z) : 1000 <= n <= 9999 -> String.length (str_of_Z n) = 4%nat.
Proof.
  intros Hn.
  assert (Hall : forallb (fun k => (String.length (str_of_Z (1000 + Z.of_nat k)) =? 4)%nat)
                         (seq 0 (Z.to_nat 9000)) = true) by (vm_compute; reflexivity).
  rewrite forallb_forall in Hall.
  specialize (Hall (Z.to_nat (n - 1000))). rewrite Z2Nat.id in Hall by lia.
  replace (1000 + (n - 1000)) with n in Hall by lia.
  apply Nat.eqb_eq, Hall, in_seq. lia.
Qed.

Lemma length_append (a b : string) :
  String.length (a ++ b) = (String.length a + String.length b)%nat.
Proof. induction a; simpl; auto. Qed.

Lemma get_append_right (a b : string) (n : nat) :
  String.get (String.length a + n) (a ++ b) = String.get n b.
Proof. induction a; simpl; auto. Qed.

(** X24: for a timestamp of the years 1000 to 9999 whose time zone name is
    UTC, [rfc3339_time] returns its [strftime] text, which has 20
    characters with the dashes, the T, the colons and the final Z at the
    positions of YYYY-MM-DDTHH:MM:SSZ. *)
Theorem rfc3339_time_shape (utcnow d : datetime.t) :
  datetime.valid d ->
  datetime.tzname d = Some "UTC" ->
  rfc3339_time utcnow (Some d) = Passed (datetime.strftime d)
  /\ String.length (datetime.strftime d) = 20%nat
  /\ String.get 4 (datetime.strftime d) = Some "-"%char
  /\ String.get 7 (datetime.strftime d) = Some "-"%char
  /\ String.get 10 (datetime.strftime d) = Some "T"%char
  /\ String.get 13 (datetime.strftime d) = Some ":"%char
  /\ String.get 16 (datetime.strftime d) = Some ":"%char
  /\ String.get 19 (datetime.strftime d) = Some "Z"%char.
Proof.
  intros (Hy & Hm & Hd & Hh & Hmi & Hs) Htz.
  split; [unfold rfc3339_time; now rewrite Htz|].
  unfold datetime.strftime.
  pose proof (year_length _ Hy) as Ly.
  pose proof (two_length (datetime.month d) ltac:(lia)) as Lm.
  pose proof (two_length (datetime.day d) ltac:(lia)) as Ld.
  pose proof (two_length (datetime.hour d) ltac:(lia)) as Lh.
  pose proof (two_length (datetime.minute d) ltac:(lia)) as Lmi.
  pose proof (two_length (datetime.second d) ltac:(lia)) as Ls.
  set (Y := str_of_Z (datetime.year d)) in *.
  set (M := datetime.two (datetime.month d)) in *.
  set (D := datetime.two (datetime.day d)) in *.
  set (Hh' := datetime.two (datetime.hour d)) in *.
  set (Mi := datetime.two (datetime.minute d)) in *.
  set (S' := datetime.two (datetime.second d)) in *.
  clearbody Y M D Hh' Mi S'.
  destruct Y as [|y1 [|y2 [|y3 [|y4 [|? ?]]]]]; try discriminate.
  destruct M as [|m1 [|m2 [|? ?]]]; try discriminate.
  destruct D as [|d1 [|d2 [|? ?]]]; try discriminate.
  destruct Hh' as [|h1 [|h2 [|? ?]]]; try discriminate.
  destruct Mi as [|i1 [|i2 [|? ?]]]; try discriminate.
  destruct S' as [|s1 [|s2 [|? ?]]]; try discriminate.
  repeat split; reflexivity.
Qed.

(** X25: [rfc3339_time] refuses a given timestamp whose time zone name is
    not "UTC" with an AssertionError; a naive timestamp, such as the one
    [datetime.utcnow()] answers, is refused too when it is passed in,
    although the same timestamp is formatted without a check when the
    argument is omitted. *)
Theorem rfc3339_time_checks_the_zone (utcnow d : datetime.t) :
  datetime.tzname d <> Some "UTC" ->
  rfc3339_time utcnow (Some d) = AssertionError "Timestamp must be in UTC format"
  /\ rfc3339_time utcnow None = Passed (datetime.strftime utcnow)
  /\ (datetime.tzname utcnow = None ->
      rfc3339_time utcnow (Some utcnow)
      = AssertionError "Timestamp must be in UTC format").
Proof.
  intros Htz. unfold rfc3339_time. split; [|split; [reflexivity|]].
  - destruct (datetime.tzname d) as [tz|]; [|reflexivity].
    destruct (String.eqb_spec tz "UTC"); [congruence | reflexivity].
  - now intros ->.
Qed.

Lemma comparison_eqb_eq a b : comparison_eqb a b = true -> a = b.
Proof. destruct a, b; simpl; congruence. Qed.

Lemma compare_append (a a' r r' : string) :
  String.length a = String.length a' ->
  String.compare (a ++ r) (a' ++ r')
  = match String.compare a a' with
    | Eq => String.compare r r'
    | c => c
    end.
Proof.
  revert a'. induction a as [|c a IH]; intros [|c' a']; simpl; try discriminate; auto.
  intros [= Hl]. destruct (Ascii.compare c c'); auto.
Qed.

Lemma compare_separator (c : ascii) (r r' : string) :
  String.compare (String c "" ++ r) (String c "" ++ r') = String.compare r r'.
Proof.
  change (String c "" ++ r) with (String c r).
  change (String c "" ++ r') with (String c r').
  simpl. replace (Ascii.compare c c) with Eq; [reflexivity|].
  symmetry. unfold Ascii.compare. apply N.compare_refl.
Qed.

Lemma two_compare (m n : Z) :
  0 <= m <= 99 -> 0 <= n <= 99 ->
  String.compare (datetime.two m) (datetime.two n) = (m ?= n).
Proof.
  intros Hm Hn.
  assert (Hall : forallb (fun i => forallb (fun j =>
                    comparison_eqb
                      (String.compare (datetime.two (Z.of_nat i)) (datetime.two (Z.of_nat j)))
                      (Z.of_nat i ?= Z.of_nat j)) (seq 0 100)) (seq 0 100) = true)
    by (vm_compute; reflexivity).
  rewrite forallb_forall in Hall.
  specialize (Hall (Z.to_nat m) ltac:(apply in_seq; lia)).
  rewrite forallb_forall in Hall.
  specialize (Hall (Z.to_nat n) ltac:(apply in_seq; lia)).
  rewrite !Z2Nat.id in Hall by lia.
  now apply comparison_eqb_eq.
Qed.

Lemma year_two (y : Z) :
  1000 <= y <= 9999 -> str_of_Z y = datetime.two (y / 100) ++ datetime.two (y mod 100).
Proof.
  intros Hy.
  assert (Hall : forallb (fun k =>
                    let y := 1000 + Z.of_nat k in
                    String.eqb (str_of_Z y)
                               (datetime.two (y / 100) ++ datetime.two (y mod 100)))
                         (seq 0 (Z.to_nat 9000)) = true) by (vm_compute; reflexivity).
  rewrite forallb_forall in Hall.
  specialize (Hall (Z.to_nat (y - 1000)) ltac:(apply in_seq; lia)).
  cbv zeta in Hall. rewrite Z2Nat.id in Hall by lia.
  replace (1000 + (y - 1000)) with y in Hall by lia.
  now apply String.eqb_eq.
Qed.

Lemma year_compare (m n : Z) :
  1000 <= m <= 9999 -> 1000 <= n <= 9999 ->
  String.compare (str_of_Z m) (str_of_Z n) = (m ?= n).
Proof.
  intros Hm Hn. rewrite (year_two m Hm), (year_two n Hn).
  pose proof (Z.mod_pos_bound m 100 ltac:(lia)) as Hmm.
  pose proof (Z.mod_pos_bound n 100 ltac:(lia)) as Hmn.
  pose proof (Z.div_mod m 100 ltac:(lia)) as Em.
  pose proof (Z.div_mod n 100 ltac:(lia)) as En.
  assert (Hdm : 0 <= m / 100 <= 99) by lia.
  assert (Hdn : 0 <= n / 100 <= 99) by lia.
  rewrite compare_append by (rewrite !two_length by lia; reflexivity).
  rewrite !two_compare by lia.
  destruct (Z.compare_spec (m / 100) (n / 100));
    destruct (Z.compare_spec (m mod 100) (n mod 100));
    destruct (Z.compare_spec m n); try reflexivity; lia.
Qed.

Lemma strftime_compare (d1 d2 : datetime.t) :
  datetime.valid d1 ->
  datetime.valid d2 ->
  String.compare (datetime.strftime d1) (datetime.strftime d2)
  = chronological (datetime.fields d1) (datetime.fields d2).
Proof.
  intros (Hy1 & Hm1 & Hd1 & Hh1 & Hi1 & Hs1) (Hy2 & Hm2 & Hd2 & Hh2 & Hi2 & Hs2).
  unfold datetime.strftime, datetime.fields. cbn [chronological].
  rewrite compare_append by (rewrite !year_length by lia; reflexivity).
  rewrite year_compare by lia.
  destruct (datetime.year d1 ?= datetime.year d2); try reflexivity.
  rewrite compare_separator.
  rewrite compare_append by (rewrite !two_length by lia; reflexivity).
  rewrite two_compare by lia.
  destruct (datetime.month d1 ?= datetime.month d2); try reflexivity.
  rewrite compare_separator.
  rewrite compare_append by (rewrite !two_length by lia; reflexivity).
  rewrite two_compare by lia.
  destruct (datetime.day d1 ?= datetime.day d2); try reflexivity.
  rewrite compare_separator.
  rewrite compare_append by (rewrite !two_length by lia; reflexivity).
  rewrite two_compare by lia.
  destruct (datetime.hour d1 ?= datetime.hour d2); try reflexivity.
  rewrite compare_separator.
  rewrite compare_append by (rewrite !two_length by lia; reflexivity).
  rewrite two_compare by lia.
  destruct (datetime.minute d1 ?= datetime.minute d2); try reflexivity.
  rewrite compare_separator.
  rewrite compare_append by (rewrite !two_length by lia; reflexivity).
  rewrite two_compare by lia.
  destruct (datetime.second d1 ?= datetime.second d2); reflexivity.
Qed.

(** X26: the texts of [rfc3339_time] sort as the times do: for two UTC
    timestamps of the years 1000 to 9999, comparing the two texts as
    strings gives the same answer as comparing year, month, day, hour,
    minute and second in this order. *)
Theorem rfc3339_time_sorts_chronologically (utcnow d1 d2 : datetime.t) :
  datetime.valid d1 ->
  datetime.valid d2 ->
  datetime.tzname d1 = Some "UTC" ->
  datetime.tzname d2 = Some "UTC" ->
  exists s1 s2,
    rfc3339_time utcnow (Some d1) = Passed s1
    /\ rfc3339_time utcnow (Some d2) = Passed s2
    /\ String.compare s1 s2
       = chronological (datetime.fields d1) (datetime.fields d2).
Proof.
  intros V1 V2 T1 T2. unfold rfc3339_time. rewrite T1, T2. cbn [String.eqb Ascii.eqb Bool.eqb].
  eexists _, _. split; [reflexivity|]. split; [reflexivity|].
  now apply strftime_compare.
Qed.

Section Caching.
Context `{Host} `{BuildKind}.

(** X27: each of the properties [commit], [config], [image] and [meta]
    reads its file at most once: after a read that returned a document
    other than [None], a later read returns the same document and changes
    nothing, whatever has happened to the file system in between. *)
Theorem property_is_read_once
    (k : string) (get : build_json -> json) (s s1 : state) (v : json) (w' : world) :
  In (k, get) slot_getters ->
  _Build.slot_property k get s = (Ok v, s1) ->
  v <> JNull ->
  _Build.slot_property k get (s1.1, w') = (Ok v, (s1.1, w')).
Proof.
  intros Hin E Hv.
  destruct (property_step k get s _ s1 Hin E) as [_ Hg].
  specialize (Hg v eq_refl).
  rewrite slot_property_cached by (rewrite Hg; exact Hv).
  now rewrite Hg.
Qed.

(** X28: the [image] document does not belong to the build: on a handle
    that has not read it yet, [image] is what
    /cosa/coreos-assembler-git.json loads to, whatever the build directory
    of the handle; the read logs one DEBUG record and leaves the file
    system alone. *)
Theorem image_document_is_shared (h : handle) (w : world) :
  bj_image (_build_json h) = JNull ->
  (_Build.image (h, w)).1 = (cmdlib.load_json image_document w).1
  /\ w_log (_Build.image (h, w)).2.2 = (w_log w ++ [reading image_document])%list
  /\ w_fs (_Build.image (h, w)).2.2 = w_fs w.
Proof.
  intros Hn. unfold _Build.image. rewrite slot_property_eq, Hn. cbn [is_None].
  rewrite (__get_json_eq "image" image_document) by reflexivity.
  rewrite <- (load_json_fs image_document w (emit (reading image_document) w) eq_refl).
  destruct (cmdlib.load_json image_document w) as [[v|e] w0]; cbn [fst snd].
  - split; [|split; reflexivity].
    cbn [set_slot _build_json bj_image String.eqb Ascii.eqb Bool.eqb]. reflexivity.
  - split; [reflexivity|split; reflexivity].
Qed.

(** X29: on a handle whose documents are cached, a field that is present
    is returned as it is, with no warning and no change of state:
    [get_meta_key] returns the field, and [get_sub_obj] returns the
    subfield of a field that is an object, both when the document is given
    by its name and when it is passed in as a dictionary. *)
Theorem lookups_return_what_is_there
    (obj key sub : string) (h : handle) (w : world) d (v : json) :
  cached h ->
  Dict.get obj (documents h) = Some (JObj d) ->
  Dict.get key d = Some v ->
  _Build.get_meta_key obj key (h, w) = (Ok v, (h, w))
  /\ forall d2 x,
       v = JObj d2 -> Dict.get sub d2 = Some x ->
       _Build.get_sub_obj (JStr obj) key sub (h, w) = (Ok x, (h, w))
       /\ _Build.get_sub_obj (JObj d) key sub (h, w) = (Ok x, (h, w)).
Proof.
  intros Hc Ho Hk. split; [now apply get_meta_key_present with (d := d)|].
  intros d2 x -> Hs.
  assert (E : _Build.get_sub_obj (JObj d) key sub (h, w) = (Ok x, (h, w))).
  { unfold _Build.get_sub_obj, recursion_limit. cbn [_Build.get_sub_obj_rec].
    unfold except_KeyError, bind, of_result; simpl. rewrite Hk; simpl. now rewrite Hs. }
  split; [|exact E].
  rewrite (get_sub_obj_document _ _ _ _ _ d) by assumption.
  unfold except_KeyError, bind, of_result; simpl. rewrite Hk; simpl. now rewrite Hs.
Qed.

End Caching.

Section MoreOnTheReferenceHost.
#[local] Existing Instance RefHost.host.
#[local] Existing Instance RefHost.qemu.

(** A meta document that records aarch64 under the conventional key. *)
Lemma basearch_reads_the_doubled_key_witness :
  _Build.basearch (Cases.h_arch, Demo.w1)
  = (Ok (match Dict.get "coreos-assembler.coreos-assembler.basearch" Cases.arch_fields with
         | Some v => v
         | None => JStr BASEARCH
         end), (Cases.h_arch, Demo.w1)).
Proof.
  refine (basearch_reads_the_doubled_key Cases.h_arch Demo.w1 Cases.arch_fields _).
  vm_compute. reflexivity.
Defined.

(** The recorded architecture is not the one [basearch] answers. *)
Example basearch_not_aarch64 :
  Dict.get "coreos-assembler.basearch" Cases.arch_fields = Some (JStr "aarch64")
  /\ (_Build.basearch (Cases.h_arch, Demo.w1)).1 = Ok (JStr "x86_64").
Proof. split; vm_compute; reflexivity. Qed.

(** A meta document with neither name nor build id. *)
Lemma image_name_base_spells_missing_fields_witness :
  (_Build.image_name_base (Cases.h_anon, Demo.w1)).1
  = Ok (field_str Cases.anon_fields "name" ++ "-" ++ field_str Cases.anon_fields "buildid"
          ++ "-" ++ "qemu" ++ "." ++ py_str (arch_of Cases.anon_fields))
  /\ (_Build.image_name_base (Cases.h_anon, Demo.w1)).2.1 = Cases.h_anon
  /\ (Dict.get "name" Cases.anon_fields = None ->
      (_Build.build_name (Cases.h_anon, Demo.w1)).1 = Ok "None").
Proof.
  refine (image_name_base_spells_missing_fields Cases.h_anon Demo.w1 Cases.anon_fields
            "qemu" _ _ _ _).
  - vm_compute. repeat split; discriminate.
  - vm_compute. reflexivity.
  - vm_compute. reflexivity.
  - vm_compute. reflexivity.
Defined.

(** The composed name of that handle. *)
Example image_name_base_None :
  (_Build.image_name_base (Cases.h_anon, Demo.w1)).1 = Ok "None-None-qemu.x86_64".
Proof. vm_compute. reflexivity. Qed.

(** The name [bogus] on the concrete build. *)
Lemma unknown_document_is_not_absorbed_witness :
  _Build.get_meta_key "bogus" "name" (Demo.h0, Demo.w1)
  = (Raise (UnknownKey "bogus"), (Demo.h0, Demo.w1))
  /\ _Build.get_sub_obj (JStr "bogus") "name" "x" (Demo.h0, Demo.w1)
     = (Raise (UnknownKey "bogus"), (Demo.h0, Demo.w1)).
Proof.
  refine (unknown_document_is_not_absorbed "bogus" "name" "x" Demo.h0 Demo.w1 _ _).
  - vm_compute. repeat split; discriminate.
  - simpl. intuition discriminate.
Defined.

(** The concrete meta document has no ostree-commit. *)
Lemma ostree_commit_is_silent_witness :
  _Build.ostree_commit (Demo.h0, Demo.w1)
  = (Ok (match Dict.get "ostree-commit" Demo.meta_fields with
         | Some v => v
         | None => JNull
         end), (Demo.h0, Demo.w1))
  /\ (_Build.get_meta_key "meta" "ostree-commit" (Demo.h0, Demo.w1)).1
     = (_Build.ostree_commit (Demo.h0, Demo.w1)).1
  /\ (Dict.get "ostree-commit" Demo.meta_fields = None ->
      (_Build.get_meta_key "meta" "ostree-commit" (Demo.h0, Demo.w1)).2
      = (Demo.h0, emit (missing_key_warning "ostree-commit") Demo.w1)).
Proof.
  refine (ostree_commit_is_silent Demo.h0 Demo.w1 Demo.meta_fields _ _).
  - vm_compute. repeat split; discriminate.
  - vm_compute. reflexivity.
Defined.

(** The reload once meta.json has been removed. *)
Lemma refresh_meta_failure_keeps_the_document_witness :
  _Build.refresh_meta (Demo.h0, Cases.w_nometa)
  = (Raise (FileNotFoundError Demo.meta_path),
     (Demo.h0, emit (reading (_build_dir Demo.h0 ++ "/meta.json")) Cases.w_nometa)).
Proof.
  refine (refresh_meta_failure_keeps_the_document Demo.h0 Cases.w_nometa
            (FileNotFoundError Demo.meta_path) _).
  vm_compute. reflexivity.
Defined.

(** The update of the concrete build: one new field, one replaced. *)
Lemma meta_append_merges_field_by_field_witness :
  exists M',
    _Build.meta_append Demo.update (Demo.h0, Demo.w1)
    = (Ok tt, (set_slot "meta" (JObj M') Demo.h0, Demo.w1))
    /\ (forall k, Dict.get k M'
                  = match Dict.get k Demo.update with
                    | Some v => Some v
                    | None => Dict.get k Demo.meta_fields
                    end)
    /\ exists added, Dict.keys M' = (Dict.keys Demo.meta_fields ++ added)%list.
Proof.
  refine (meta_append_merges_field_by_field Demo.h0 Demo.w1 Demo.meta_fields
            Demo.update _ _).
  - vm_compute. reflexivity.
  - repeat constructor; simpl; intuition discriminate.
Defined.

(** A meta document that is a list. *)
Lemma meta_append_needs_a_dict_witness :
  _Build.meta_append Demo.update (Cases.h_list, Demo.w1)
  = (Raise (AttributeError "object has no attribute 'update'"), (Cases.h_list, Demo.w1)).
Proof.
  refine (meta_append_needs_a_dict Cases.h_list Demo.w1 Demo.update _).
  intros M. vm_compute. discriminate.
Defined.


(** A handle whose image is not on disk, and the handle whose image is
    disk.qcow2 asked for a file that is not there. *)
Lemma get_artifact_meta_stats_the_image_first_witness :
  _Build.get_artifact_meta None
    (set_image_name (Some "missing.raw") Demo.h0, Demo.w1)
  = (Raise (FileNotFoundError
              (Path.join (_build_dir (set_image_name (Some "missing.raw") Demo.h0))
                         "missing.raw")),
     (set_image_name (Some "missing.raw") Demo.h0, Demo.w1))
  /\ _Build.get_artifact_meta (Some "missing.raw") (Demo.h_img, Demo.w1)
     = (Raise (FileNotFoundError (Path.join (_build_dir Demo.h_img) "missing.raw")),
        (Demo.h_img, emit (calculating "missing.raw") Demo.w1)).
Proof.
  split.
  - refine (proj1 (get_artifact_meta_stats_the_image_first
                     (set_image_name (Some "missing.raw") Demo.h0) Demo.w1
                     "missing.raw" _) _ _ _ None); vm_compute; reflexivity.
  - refine (proj2 (get_artifact_meta_stats_the_image_first
                     Demo.h_img Demo.w1 "disk.qcow2" _)
              Demo.image_file "missing.raw" _ _ _ _); vm_compute; reflexivity.
Defined.

(** A file that is not in the build directory. *)
Example get_artifact_meta_missing_file :
  _Build.get_artifact_meta (Some "missing.raw") (Demo.h_img, Demo.w1)
  = (Raise (FileNotFoundError "builds/35.20220101.0/x86_64/missing.raw"),
     (Demo.h_img, emit (calculating "missing.raw") Demo.w1)).
Proof. vm_compute. reflexivity. Qed.

End MoreOnTheReferenceHost.

Section MoreOnTheReferenceHost2.
#[local] Existing Instance RefHost.host.
#[local] Existing Instance RefHost.qemu.

(** The constructed handle. *)
Lemma construction_leaves_a_blank_registry_witness :
  _image_name Demo.h0 = None
  /\ _found_files Demo.h0 = []
  /\ exists d,
       workdir_of Demo.kw0 = Some d
       /\ _workdir Demo.h0 = Some d
       /\ w_environ Demo.w1 !! "workdir" = Some d
       /\ w_environ Demo.w1 !! "TMPDIR" = Some (Path.join d "tmp").
Proof.
  refine (construction_leaves_a_blank_registry Demo.kw0 Demo.w0 Demo.w1 Demo.h0 _).
  vm_compute. reflexivity.
Defined.

(** The scratch directory of the constructed handle. *)
Lemma construction_creates_one_directory_witness :
  (exists n, _tmpdir Demo.h0 = Path.join gettempdir ("build_tmpd" ++ random_name n))
  /\ FS.lookup (_tmpdir Demo.h0) (w_fs Demo.w0) = None
  /\ (forall p, FS.lookup p (w_fs Demo.w1)
                = if String.eqb p (_tmpdir Demo.h0) then Some NDir
                  else FS.lookup p (w_fs Demo.w0))
  /\ fs_inodes (w_fs Demo.w1) = fs_inodes (w_fs Demo.w0).
Proof.
  refine (construction_creates_one_directory Demo.kw0 Demo.w0 Demo.w1 Demo.h0 _).
  vm_compute. reflexivity.
Defined.

(** Teardown right after the construction. *)
Lemma construction_then_teardown_witness :
  exists w'',
    _Build.__del__ (Demo.h0, Demo.w1) = (Ok tt, (Demo.h0, w''))
    /\ forall p, FS.lookup p (w_fs w'')
                 = if FS.below (_tmpdir Demo.h0) p then None
                   else FS.lookup p (w_fs Demo.w0).
Proof.
  refine (construction_then_teardown Demo.kw0 Demo.w0 Demo.w1 Demo.h0 _).
  vm_compute. reflexivity.
Defined.

(** The constructed handle before an image name is assigned. *)
Lemma fresh_handle_has_no_image_witness :
  _Build.ensure_built (Demo.h0, Demo.w1) = (Raise NoImageName, (Demo.h0, Demo.w1))
  /\ (forall fname,
        _Build.get_artifact_meta fname (Demo.h0, Demo.w1)
        = (Raise NoImageName, (Demo.h0, Demo.w1)))
  /\ (forall n,
        _Build.image_path (_Build.image_name_setter n (Demo.h0, Demo.w1)).2
        = (Ok (Path.join (_build_dir Demo.h0) n),
           (set_image_name (Some n) Demo.h0, Demo.w1))).
Proof.
  refine (fresh_handle_has_no_image Demo.kw0 Demo.w0 Demo.w1 Demo.h0 _).
  vm_compute. reflexivity.
Defined.

(** The build 36.0 is not in the index. *)
Lemma construction_of_an_unknown_build_witness :
  _Build.__init__ Cases.kw_unknown Demo.w0 = (Raise build_not_found, Demo.w0).
Proof.
  refine (construction_of_an_unknown_build Cases.kw_unknown Demo.w0 "36.0"
            RefHost.index _ _ _ _).
  - reflexivity.
  - discriminate.
  - reflexivity.
  - vm_compute. reflexivity.
Defined.

(** Construction with [workdir=None]. *)
Lemma construction_rejects_workdir_None_witness :
  is_Ok (_Build.__init__ Cases.kw_no_workdir Demo.w0).1 = false
  /\ w_environ (_Build.__init__ Cases.kw_no_workdir Demo.w0).2 = w_environ Demo.w0.
Proof.
  refine (construction_rejects_workdir_None Cases.kw_no_workdir Demo.w0 _).
  reflexivity.
Defined.

(** What it raises on the concrete build. *)
Example construction_with_workdir_None :
  (_Build.__init__ Cases.kw_no_workdir Demo.w0).1
  = Raise (TypeError "str expected, not NoneType").
Proof. vm_compute. reflexivity. Qed.


(** Writing onto the build directory. *)
Lemma write_json_onto_a_directory_witness :
  exists w' f,
    cmdlib.write_json Demo.bd Demo.meta_doc Demo.w1
    = (Raise (IsADirectoryError Demo.bd), w')
    /\ FS.lookup (tempfile.name f) (w_fs Demo.w1) = None
    /\ FS.file_at (tempfile.name f) (w_fs w')
       = Ok {| f_data := []; f_mode := cmdlib.S_0o644 |}
    /\ tempfile.pending f w' = json_dumps Demo.meta_doc
    /\ (forall p, p <> tempfile.name f ->
                  FS.lookup p (w_fs w') = FS.lookup p (w_fs Demo.w1))
    /\ FS.file_at (tempfile.name f) (w_fs (tempfile.close f w').2)
       = Ok {| f_data := json_dumps Demo.meta_doc; f_mode := cmdlib.S_0o644 |}.
Proof.
  refine (write_json_onto_a_directory Demo.bd Demo.meta_doc Demo.w1 _ _ _).
  - vm_compute. reflexivity.
  - vm_compute. reflexivity.
  - vm_compute. reflexivity.
Defined.

(** Writing into a directory that does not exist. *)
Lemma write_json_without_a_directory_witness :
  exists w',
    cmdlib.write_json "nowhere/meta.json" Demo.meta_doc Demo.w1
    = (Raise (FileNotFoundError
                (first_candidate (Path.dirname "nowhere/meta.json") Demo.w1)), w')
    /\ w_fs w' = w_fs Demo.w1
    /\ w_hist w' = w_hist Demo.w1.
Proof.
  refine (write_json_without_a_directory "nowhere/meta.json" Demo.meta_doc Demo.w1 _ _ _ _).
  - vm_compute. reflexivity.
  - vm_compute. reflexivity.
  - vm_compute. reflexivity.
  - vm_compute. reflexivity.
Defined.

(** Removing meta.json. *)
Lemma rm_allow_noent_removes_one_name_witness :
  exists w',
    rm_allow_noent Demo.meta_path Demo.w1 = (Ok tt, w')
    /\ (forall p, FS.lookup p (w_fs w')
                  = if String.eqb p Demo.meta_path then None
                    else FS.lookup p (w_fs Demo.w1))
    /\ fs_inodes (w_fs w') = fs_inodes (w_fs Demo.w1)
    /\ rm_allow_noent Demo.meta_path w' = (Ok tt, w').
Proof.
  exact (rm_allow_noent_removes_one_name Demo.meta_path Demo.w1 eq_refl).
Defined.

(** A path below meta.json, which is a regular file. *)
Example rm_allow_noent_below_a_file :
  plain (Demo.meta_path ++ "/child.json") = true
  /\ below_a_file (Demo.meta_path ++ "/child.json") (w_fs Demo.w1) = true
  /\ rm_allow_noent (Demo.meta_path ++ "/child.json") Demo.w1
     = (Raise (NotADirectoryError (Demo.meta_path ++ "/child.json")), Demo.w1).
Proof. repeat split; vm_compute; reflexivity. Qed.

(** Spellings that are not plain, and plain ones. *)
Example spellings_that_are_not_plain :
  forallb (fun p => negb (plain p))
    [""; "/"; "."; ".."; "a//b"; "a/"; "a/./b"; "a/../b"; "./a"] = true
  /\ forallb plain ["a"; "/a"; "a/b"; "/a/b.json"; Demo.meta_path] = true.
Proof. split; vm_compute; reflexivity. Qed.


(** The first second of 2022. *)
Lemma rfc3339_time_shape_witness :
  rfc3339_time Cases.naive (Some Cases.new_year)
  = Passed (datetime.strftime Cases.new_year)
  /\ String.length (datetime.strftime Cases.new_year) = 20%nat
  /\ String.get 4 (datetime.strftime Cases.new_year) = Some "-"%char
  /\ String.get 7 (datetime.strftime Cases.new_year) = Some "-"%char
  /\ String.get 10 (datetime.strftime Cases.new_year) = Some "T"%char
  /\ String.get 13 (datetime.strftime Cases.new_year) = Some ":"%char
  /\ String.get 16 (datetime.strftime Cases.new_year) = Some ":"%char
  /\ String.get 19 (datetime.strftime Cases.new_year) = Some "Z"%char.
Proof.
  refine (rfc3339_time_shape Cases.naive Cases.new_year _ _).
  - unfold datetime.valid. simpl. lia.
  - reflexivity.
Defined.

(** Two timestamps as text. *)
Example rfc3339_time_new_year :
  rfc3339_time Cases.naive (Some Cases.new_year) = Passed "2022-01-01T00:00:00Z"
  /\ rfc3339_time Cases.naive (Some Cases.new_years_eve) = Passed "2021-12-31T23:59:59Z".
Proof. split; vm_compute; reflexivity. Qed.

(** A timestamp without time zone. *)
Lemma rfc3339_time_checks_the_zone_witness :
  rfc3339_time Cases.naive (Some Cases.naive)
  = AssertionError "Timestamp must be in UTC format"
  /\ rfc3339_time Cases.naive None = Passed (datetime.strftime Cases.naive)
  /\ (datetime.tzname Cases.naive = None ->
      rfc3339_time Cases.naive (Some Cases.naive)
      = AssertionError "Timestamp must be in UTC format").
Proof.
  refine (rfc3339_time_checks_the_zone Cases.naive Cases.naive _).
  simpl. discriminate.
Defined.

(** The last second of 2021 and the first of 2022. *)
Lemma rfc3339_time_sorts_chronologically_witness :
  exists s1 s2,
    rfc3339_time Cases.naive (Some Cases.new_years_eve) = Passed s1
    /\ rfc3339_time Cases.naive (Some Cases.new_year) = Passed s2
    /\ String.compare s1 s2
       = chronological (datetime.fields Cases.new_years_eve)
                       (datetime.fields Cases.new_year).
Proof.
  refine (rfc3339_time_sorts_chronologically Cases.naive Cases.new_years_eve
            Cases.new_year _ _ _ _).
  - unfold datetime.valid. simpl. lia.
  - unfold datetime.valid. simpl. lia.
  - reflexivity.
  - reflexivity.
Defined.

(** Reading [meta] again after meta.json has been removed. *)
Lemma property_is_read_once_witness :
  _Build.slot_property "meta" bj_meta
    ((_Build.slot_property "meta" bj_meta (Cases.h_unread, Demo.w1)).2.1, Cases.w_nometa)
  = (Ok Demo.meta_doc,
     ((_Build.slot_property "meta" bj_meta (Cases.h_unread, Demo.w1)).2.1, Cases.w_nometa)).
Proof.
  refine (property_is_read_once "meta" bj_meta (Cases.h_unread, Demo.w1)
            (_Build.slot_property "meta" bj_meta (Cases.h_unread, Demo.w1)).2
            Demo.meta_doc Cases.w_nometa _ _ _).
  - simpl. auto.
  - vm_compute. reflexivity.
  - discriminate.
Defined.

(** A handle on another build directory. *)
Lemma image_document_is_shared_witness :
  (_Build.image (Cases.h_blank, Demo.w0)).1
  = (cmdlib.load_json image_document Demo.w0).1
  /\ w_log (_Build.image (Cases.h_blank, Demo.w0)).2.2
     = (w_log Demo.w0 ++ [reading image_document])%list
  /\ w_fs (_Build.image (Cases.h_blank, Demo.w0)).2.2 = w_fs Demo.w0.
Proof.
  refine (image_document_is_shared Cases.h_blank Demo.w0 _).
  reflexivity.
Defined.

(** The git commit of the config document. *)
Lemma lookups_return_what_is_there_witness :
  _Build.get_meta_key "config" "git" (Demo.h0, Demo.w1)
  = (Ok (JObj [("commit", JStr "c0ffee")]), (Demo.h0, Demo.w1))
  /\ forall d2 x,
       JObj [("commit", JStr "c0ffee")] = JObj d2 -> Dict.get "commit" d2 = Some x ->
       _Build.get_sub_obj (JStr "config") "git" "commit" (Demo.h0, Demo.w1)
       = (Ok x, (Demo.h0, Demo.w1))
       /\ _Build.get_sub_obj (JObj Cases.config_fields) "git" "commit" (Demo.h0, Demo.w1)
          = (Ok x, (Demo.h0, Demo.w1)).
Proof.
  refine (lookups_return_what_is_there "config" "git" "commit" Demo.h0 Demo.w1
            Cases.config_fields (JObj [("commit", JStr "c0ffee")]) _ _ _).
  - vm_compute. repeat split; discriminate.
  - vm_compute. reflexivity.
  - vm_compute. reflexivity.
Defined.

End MoreOnTheReferenceHost2.
